(** * Behave: surface- and crown-fire engine, shallow embedding

    This development embeds the parts of the Behave fire-behaviour library
    that its design document makes promises about, and proves those promises
    (or pins down where the code departs from them):

    - [SurfaceInputs] (surfaceInputs.cpp): the input-staging object, its
      setters, the moisture bookkeeping and [updateSurfaceInputs];
    - [Surface] (surface.cpp): the two surface runs and the flame-length law;
    - [Crown] (crown.cpp): the Rothermel 1991 crown-fire pipeline.

    Conventions.
    - A C++ [double] is a real number ([R]): the model is the exact-arithmetic
      reading of the formulas; rounding, infinities and NaN are outside it.
      Comparisons are the decidable [Rlt_dec] / [Rle_dec], so every branch of
      the source is a branch of the model.  Literals are written in lowest
      terms ([0] for [0.0], [1e-7] for [1.0e-07]).
    - An [int] is a [Z]; a [bool] is a [bool]; an enumeration is an inductive
      type in a module named like its C++ namespace.
    - Objects reached through pointers live in a store ([gmap loc _]); a
      method that dereferences a pointer fails ([None]) on a dangling one.
    - Code of the library that is not part of the embedded files (unit
      conversions, the fuel catalogue, the Rothermel spread model, the
      wind-speed utility) is taken as an interface: a type class whose
      methods are parameters of everything that calls them. *)

From Stdlib Require Import Reals Lra Lia ZArith Bool.
From Equations Require Import Equations.
From stdpp Require Import base option gmap.

Open Scope R_scope.

(** ** Enumerations (surfaceEnums.h)

    The header is not among the embedded files; the enumerators are the ones
    the embedded code names. *)

Module MoistureInputMode.
Inductive MoistureInputModeEnum : Type :=
| BySizeClass
| AllAggregate
| DeadAggregateAndLiveSizeClass
| LiveAggregateAndDeadSizeClass
| MoistureScenario.
End MoistureInputMode.

Module MoistureClassInput.
Inductive MoistureClassInputEnum : Type :=
| OneHour
| TenHour
| HundredHour
| LiveHerbaceous
| LiveWoody
| DeadAggregate
| LiveAggregate.
End MoistureClassInput.

(** crown.cpp spells the last two enumerators [TWENTY_FOOT] and [TEN_METER]. *)
Module WindHeightInputMode.
Inductive WindHeightInputModeEnum : Type :=
| DirectMidflame
| TwentyFoot
| TenMeter.
End WindHeightInputMode.

Module WindAndSpreadOrientationMode.
Inductive WindAndSpreadOrientationModeEnum : Type :=
| RelativeToUpslope
| RelativeToNorth.
End WindAndSpreadOrientationMode.

(** Only [NoMethod] is named by the embedded code; the other weighting
    methods are the ones the design document lists. *)
Module TwoFuelModelsMethod.
Inductive TwoFuelModelsMethodEnum : Type :=
| NoMethod
| Arithmetic
| Harmonic
| TwoDimensional.
End TwoFuelModelsMethod.

Module SurfaceFireSpreadDirectionMode.
Inductive SurfaceFireSpreadDirectionModeEnum : Type :=
| FromIgnitionPoint
| FromPerimeter.
End SurfaceFireSpreadDirectionMode.

Import MoistureInputMode MoistureClassInput WindHeightInputMode.
Import WindAndSpreadOrientationMode TwoFuelModelsMethod SurfaceFireSpreadDirectionMode.

(** ** Interfaces to code outside the embedded files *)

(** Unit conversions (behaveUnits.h).  Every stored quantity is in base
    units; [toBaseUnits] and [fromBaseUnits] convert at the boundary. *)
Class UnitConversions : Type := {
  SlopeUnitsEnum : Type;
  SlopeUnits_toBaseUnits : R -> SlopeUnitsEnum -> R;
  MoistureUnitsEnum : Type;
  MoistureUnits_toBaseUnits : R -> MoistureUnitsEnum -> R;
  SpeedUnitsEnum : Type;
  SpeedUnits_toBaseUnits : R -> SpeedUnitsEnum -> R;
  CoverUnitsEnum : Type;
  CoverUnits_toBaseUnits : R -> CoverUnitsEnum -> R;
  LengthUnitsEnum : Type;
  LengthUnits_toBaseUnits : R -> LengthUnitsEnum -> R;
  LengthUnits_fromBaseUnits : R -> LengthUnitsEnum -> R;
  FirelineIntensityUnitsEnum : Type;
  FirelineIntensityUnits_toBaseUnits : R -> FirelineIntensityUnitsEnum -> R
}.

(** The moisture-scenario table (moistureScenarios.h), read by index. *)
Class MoistureScenarios : Type := {
  getMoistureScenarioOneHourByIndex : Z -> R;
  getMoistureScenarioTenHourByIndex : Z -> R;
  getMoistureScenarioHundredHourByIndex : Z -> R;
  getMoistureScenarioLiveHerbaceousByIndex : Z -> R;
  getMoistureScenarioLiveWoodyByIndex : Z -> R
}.

(** ** SurfaceInputs (surfaceInputs.cpp)

    The members that the embedded operations read or write.  Members that no
    embedded operation touches (air temperature, the palmetto-gallberry,
    aspen and chaparral parameters, elapsed time, the user-provided wind
    adjustment factor, the scenario name) are left out. *)

Record SurfaceInputs : Type := {
  fuelModelNumber_ : Z;
  secondFuelModelNumber_ : Z;
  moistureOneHour_ : R;
  moistureTenHour_ : R;
  moistureHundredHour_ : R;
  moistureDeadAggregate_ : R;
  moistureLiveHerbaceous_ : R;
  moistureLiveWoody_ : R;
  moistureLiveAggregate_ : R;
  slope_ : R;
  aspect_ : R;
  windSpeed_ : R;
  windDirection_ : R;
  moistureInputMode_ : MoistureInputModeEnum;
  isUsingTwoFuelModels_ : bool;
  isUsingPalmettoGallberry_ : bool;
  isUsingWesternAspen_ : bool;
  isUsingChaparral_ : bool;
  windAndSpreadOrientationMode_ : WindAndSpreadOrientationModeEnum;
  windHeightInputMode_ : WindHeightInputModeEnum;
  twoFuelModelsMethod_ : TwoFuelModelsMethodEnum;
  firstFuelModelCoverage_ : R;
  canopyCover_ : R;
  canopyHeight_ : R;
  crownRatio_ : R;
  currentMoistureScenarioIndex_ : Z;
  moistureValuesBySizeClass_ : MoistureClassInputEnum -> R
}.

(** An assignment to one member of a [SurfaceInputs]. *)
Inductive SurfaceInputsAssignment : Type :=
| Assign_fuelModelNumber_ (v : Z)
| Assign_moistureOneHour_ (v : R)
| Assign_moistureTenHour_ (v : R)
| Assign_moistureHundredHour_ (v : R)
| Assign_moistureLiveHerbaceous_ (v : R)
| Assign_moistureLiveWoody_ (v : R)
| Assign_slope_ (v : R)
| Assign_aspect_ (v : R)
| Assign_windSpeed_ (v : R)
| Assign_windDirection_ (v : R)
| Assign_isUsingTwoFuelModels_ (v : bool)
| Assign_isUsingPalmettoGallberry_ (v : bool)
| Assign_isUsingWesternAspen_ (v : bool)
| Assign_isUsingChaparral_ (v : bool)
| Assign_windAndSpreadOrientationMode_ (v : WindAndSpreadOrientationModeEnum)
| Assign_windHeightInputMode_ (v : WindHeightInputModeEnum)
| Assign_twoFuelModelsMethod_ (v : TwoFuelModelsMethodEnum)
| Assign_canopyCover_ (v : R)
| Assign_canopyHeight_ (v : R)
| Assign_crownRatio_ (v : R)
| Assign_moistureValuesBySizeClass_ (v : MoistureClassInputEnum -> R).

(** [assign a this] is [this] after the assignment [a]. *)
Definition assign (a : SurfaceInputsAssignment) (this : SurfaceInputs) : SurfaceInputs :=
  {| fuelModelNumber_ :=
       match a with Assign_fuelModelNumber_ v => v | _ => fuelModelNumber_ this end;
     secondFuelModelNumber_ := secondFuelModelNumber_ this;
     moistureOneHour_ :=
       match a with Assign_moistureOneHour_ v => v | _ => moistureOneHour_ this end;
     moistureTenHour_ :=
       match a with Assign_moistureTenHour_ v => v | _ => moistureTenHour_ this end;
     moistureHundredHour_ :=
       match a with Assign_moistureHundredHour_ v => v | _ => moistureHundredHour_ this end;
     moistureDeadAggregate_ := moistureDeadAggregate_ this;
     moistureLiveHerbaceous_ :=
       match a with Assign_moistureLiveHerbaceous_ v => v | _ => moistureLiveHerbaceous_ this end;
     moistureLiveWoody_ :=
       match a with Assign_moistureLiveWoody_ v => v | _ => moistureLiveWoody_ this end;
     moistureLiveAggregate_ := moistureLiveAggregate_ this;
     slope_ := match a with Assign_slope_ v => v | _ => slope_ this end;
     aspect_ := match a with Assign_aspect_ v => v | _ => aspect_ this end;
     windSpeed_ := match a with Assign_windSpeed_ v => v | _ => windSpeed_ this end;
     windDirection_ := match a with Assign_windDirection_ v => v | _ => windDirection_ this end;
     moistureInputMode_ := moistureInputMode_ this;
     isUsingTwoFuelModels_ :=
       match a with Assign_isUsingTwoFuelModels_ v => v | _ => isUsingTwoFuelModels_ this end;
     isUsingPalmettoGallberry_ :=
       match a with Assign_isUsingPalmettoGallberry_ v => v
       | _ => isUsingPalmettoGallberry_ this end;
     isUsingWesternAspen_ :=
       match a with Assign_isUsingWesternAspen_ v => v | _ => isUsingWesternAspen_ this end;
     isUsingChaparral_ :=
       match a with Assign_isUsingChaparral_ v => v | _ => isUsingChaparral_ this end;
     windAndSpreadOrientationMode_ :=
       match a with Assign_windAndSpreadOrientationMode_ v => v
       | _ => windAndSpreadOrientationMode_ this end;
     windHeightInputMode_ :=
       match a with Assign_windHeightInputMode_ v => v | _ => windHeightInputMode_ this end;
     twoFuelModelsMethod_ :=
       match a with Assign_twoFuelModelsMethod_ v => v | _ => twoFuelModelsMethod_ this end;
     firstFuelModelCoverage_ := firstFuelModelCoverage_ this;
     canopyCover_ := match a with Assign_canopyCover_ v => v | _ => canopyCover_ this end;
     canopyHeight_ := match a with Assign_canopyHeight_ v => v | _ => canopyHeight_ this end;
     crownRatio_ := match a with Assign_crownRatio_ v => v | _ => crownRatio_ this end;
     currentMoistureScenarioIndex_ := currentMoistureScenarioIndex_ this;
     moistureValuesBySizeClass_ :=
       match a with Assign_moistureValuesBySizeClass_ v => v
       | _ => moistureValuesBySizeClass_ this end |}.

(** [with_m v this] is [this] with the member [m] set to [v]. *)
Definition with_fuelModelNumber_ (v : Z) (this : SurfaceInputs) : SurfaceInputs :=
  assign (Assign_fuelModelNumber_ v) this.
Definition with_moistureOneHour_ (v : R) (this : SurfaceInputs) : SurfaceInputs :=
  assign (Assign_moistureOneHour_ v) this.
Definition with_moistureTenHour_ (v : R) (this : SurfaceInputs) : SurfaceInputs :=
  assign (Assign_moistureTenHour_ v) this.
Definition with_moistureHundredHour_ (v : R) (this : SurfaceInputs) : SurfaceInputs :=
  assign (Assign_moistureHundredHour_ v) this.
Definition with_moistureLiveHerbaceous_ (v : R) (this : SurfaceInputs) : SurfaceInputs :=
  assign (Assign_moistureLiveHerbaceous_ v) this.
Definition with_moistureLiveWoody_ (v : R) (this : SurfaceInputs) : SurfaceInputs :=
  assign (Assign_moistureLiveWoody_ v) this.
Definition with_slope_ (v : R) (this : SurfaceInputs) : SurfaceInputs :=
  assign (Assign_slope_ v) this.
Definition with_aspect_ (v : R) (this : SurfaceInputs) : SurfaceInputs :=
  assign (Assign_aspect_ v) this.
Definition with_windSpeed_ (v : R) (this : SurfaceInputs) : SurfaceInputs :=
  assign (Assign_windSpeed_ v) this.
Definition with_windDirection_ (v : R) (this : SurfaceInputs) : SurfaceInputs :=
  assign (Assign_windDirection_ v) this.
Definition with_isUsingTwoFuelModels_ (v : bool) (this : SurfaceInputs) : SurfaceInputs :=
  assign (Assign_isUsingTwoFuelModels_ v) this.
Definition with_isUsingPalmettoGallberry_ (v : bool) (this : SurfaceInputs) : SurfaceInputs :=
  assign (Assign_isUsingPalmettoGallberry_ v) this.
Definition with_isUsingWesternAspen_ (v : bool) (this : SurfaceInputs) : SurfaceInputs :=
  assign (Assign_isUsingWesternAspen_ v) this.
Definition with_isUsingChaparral_ (v : bool) (this : SurfaceInputs) : SurfaceInputs :=
  assign (Assign_isUsingChaparral_ v) this.
Definition with_windAndSpreadOrientationMode_ (v : WindAndSpreadOrientationModeEnum)
    (this : SurfaceInputs) : SurfaceInputs :=
  assign (Assign_windAndSpreadOrientationMode_ v) this.
Definition with_windHeightInputMode_ (v : WindHeightInputModeEnum)
    (this : SurfaceInputs) : SurfaceInputs :=
  assign (Assign_windHeightInputMode_ v) this.
Definition with_twoFuelModelsMethod_ (v : TwoFuelModelsMethodEnum)
    (this : SurfaceInputs) : SurfaceInputs :=
  assign (Assign_twoFuelModelsMethod_ v) this.
Definition with_canopyCover_ (v : R) (this : SurfaceInputs) : SurfaceInputs :=
  assign (Assign_canopyCover_ v) this.
Definition with_canopyHeight_ (v : R) (this : SurfaceInputs) : SurfaceInputs :=
  assign (Assign_canopyHeight_ v) this.
Definition with_crownRatio_ (v : R) (this : SurfaceInputs) : SurfaceInputs :=
  assign (Assign_crownRatio_ v) this.
Definition with_moistureValuesBySizeClass_ (v : MoistureClassInputEnum -> R)
    (this : SurfaceInputs) : SurfaceInputs :=
  assign (Assign_moistureValuesBySizeClass_ v) this.

(** ** Further members and interfaces

    The moisture bookkeeping, the scenario selector and the two-fuel-models
    update write six more members of [SurfaceInputs], compare enumerators
    with [==] and convert stored values back from base units. *)

#[global] Instance MoistureInputModeEnum_eq_dec : EqDecision MoistureInputModeEnum.
Proof. solve_decision. Defined.

#[global] Instance MoistureClassInputEnum_eq_dec : EqDecision MoistureClassInputEnum.
Proof. solve_decision. Defined.

#[global] Instance WindHeightInputModeEnum_eq_dec : EqDecision WindHeightInputModeEnum.
Proof. solve_decision. Defined.

(** behaveUnits.h, continued: the conversions from base units that the
    getters apply, the temperature units of the scorch-height formula and the
    enumerator [SpeedUnits::MilesPerHour], which surface.cpp names. *)
Class GetterUnitConversions `{UnitConversions} : Type := {
  MoistureUnits_fromBaseUnits : R -> MoistureUnitsEnum -> R;
  SpeedUnits_fromBaseUnits : R -> SpeedUnitsEnum -> R;
  SpeedUnits_MilesPerHour : SpeedUnitsEnum;
  TemperatureUnitsEnum : Type;
  TemperatureUnits_toBaseUnits : R -> TemperatureUnitsEnum -> R
}.

(** moistureScenarios.h, continued: whether the table has a scenario at an
    index. *)
Class MoistureScenarioDirectory : Type := {
  getIsMoistureScenarioDefinedByIndex : Z -> bool
}.

(** Comparisons of doubles inside [&&] and [||]. *)
#[global] Instance Rgt_decision (x y : R) : Decision (x > y) := Rgt_dec x y.

(** An assignment to one of the six further members. *)
Inductive SurfaceInputsFurtherAssignment : Type :=
| AssignFurther_secondFuelModelNumber_ (v : Z)
| AssignFurther_moistureDeadAggregate_ (v : R)
| AssignFurther_moistureLiveAggregate_ (v : R)
| AssignFurther_moistureInputMode_ (v : MoistureInputModeEnum)
| AssignFurther_firstFuelModelCoverage_ (v : R)
| AssignFurther_currentMoistureScenarioIndex_ (v : Z).

(** [assignFurther a this] is [this] after the assignment [a]. *)
Definition assignFurther (a : SurfaceInputsFurtherAssignment) (this : SurfaceInputs)
    : SurfaceInputs :=
  {| fuelModelNumber_ := fuelModelNumber_ this;
     secondFuelModelNumber_ :=
       match a with AssignFurther_secondFuelModelNumber_ v => v
       | _ => secondFuelModelNumber_ this end;
     moistureOneHour_ := moistureOneHour_ this;
     moistureTenHour_ := moistureTenHour_ this;
     moistureHundredHour_ := moistureHundredHour_ this;
     moistureDeadAggregate_ :=
       match a with AssignFurther_moistureDeadAggregate_ v => v
       | _ => moistureDeadAggregate_ this end;
     moistureLiveHerbaceous_ := moistureLiveHerbaceous_ this;
     moistureLiveWoody_ := moistureLiveWoody_ this;
     moistureLiveAggregate_ :=
       match a with AssignFurther_moistureLiveAggregate_ v => v
       | _ => moistureLiveAggregate_ this end;
     slope_ := slope_ this;
     aspect_ := aspect_ this;
     windSpeed_ := windSpeed_ this;
     windDirection_ := windDirection_ this;
     moistureInputMode_ :=
       match a with AssignFurther_moistureInputMode_ v => v
       | _ => moistureInputMode_ this end;
     isUsingTwoFuelModels_ := isUsingTwoFuelModels_ this;
     isUsingPalmettoGallberry_ := isUsingPalmettoGallberry_ this;
     isUsingWesternAspen_ := isUsingWesternAspen_ this;
     isUsingChaparral_ := isUsingChaparral_ this;
     windAndSpreadOrientationMode_ := windAndSpreadOrientationMode_ this;
     windHeightInputMode_ := windHeightInputMode_ this;
     twoFuelModelsMethod_ := twoFuelModelsMethod_ this;
     firstFuelModelCoverage_ :=
       match a with AssignFurther_firstFuelModelCoverage_ v => v
       | _ => firstFuelModelCoverage_ this end;
     canopyCover_ := canopyCover_ this;
     canopyHeight_ := canopyHeight_ this;
     crownRatio_ := crownRatio_ this;
     currentMoistureScenarioIndex_ :=
       match a with AssignFurther_currentMoistureScenarioIndex_ v => v
       | _ => currentMoistureScenarioIndex_ this end;
     moistureValuesBySizeClass_ := moistureValuesBySizeClass_ this |}.

Definition with_secondFuelModelNumber_ (v : Z) (this : SurfaceInputs) : SurfaceInputs :=
  assignFurther (AssignFurther_secondFuelModelNumber_ v) this.
Definition with_moistureDeadAggregate_ (v : R) (this : SurfaceInputs) : SurfaceInputs :=
  assignFurther (AssignFurther_moistureDeadAggregate_ v) this.
Definition with_moistureLiveAggregate_ (v : R) (this : SurfaceInputs) : SurfaceInputs :=
  assignFurther (AssignFurther_moistureLiveAggregate_ v) this.
Definition with_moistureInputMode_ (v : MoistureInputModeEnum)
    (this : SurfaceInputs) : SurfaceInputs :=
  assignFurther (AssignFurther_moistureInputMode_ v) this.
Definition with_firstFuelModelCoverage_ (v : R) (this : SurfaceInputs) : SurfaceInputs :=
  assignFurther (AssignFurther_firstFuelModelCoverage_ v) this.
Definition with_currentMoistureScenarioIndex_ (v : Z) (this : SurfaceInputs) : SurfaceInputs :=
  assignFurther (AssignFurther_currentMoistureScenarioIndex_ v) this.
Module SurfaceInputs.

(** The seven-slot array [moistureValuesBySizeClass_], indexed by
    [MoistureClassInput]. *)
Definition moistureArray (oneHour tenHour hundredHour liveHerbaceous liveWoody
    deadAggregate liveAggregate : R) : MoistureClassInputEnum -> R :=
  fun c =>
    match c with
    | OneHour => oneHour
    | TenHour => tenHour
    | HundredHour => hundredHour
    | LiveHerbaceous => liveHerbaceous
    | LiveWoody => liveWoody
    | DeadAggregate => deadAggregate
    | LiveAggregate => liveAggregate
    end.

(** [SurfaceInputs::initializeMembers] (also the default constructor). *)
Definition initializeMembers : SurfaceInputs :=
  {| fuelModelNumber_ := 0%Z;
     secondFuelModelNumber_ := 0%Z;
     moistureOneHour_ := 0;
     moistureTenHour_ := 0;
     moistureHundredHour_ := 0;
     moistureDeadAggregate_ := -1;
     moistureLiveHerbaceous_ := 0;
     moistureLiveWoody_ := 0;
     moistureLiveAggregate_ := -1;
     slope_ := 0;
     aspect_ := 0;
     windSpeed_ := 0;
     windDirection_ := 0;
     moistureInputMode_ := BySizeClass;
     isUsingTwoFuelModels_ := false;
     isUsingPalmettoGallberry_ := false;
     isUsingWesternAspen_ := false;
     isUsingChaparral_ := false;
     windAndSpreadOrientationMode_ := RelativeToUpslope;
     windHeightInputMode_ := DirectMidflame;
     twoFuelModelsMethod_ := NoMethod;
     firstFuelModelCoverage_ := 0;
     canopyCover_ := 0;
     canopyHeight_ := 0;
     crownRatio_ := 0;
     currentMoistureScenarioIndex_ := (-1)%Z;
     moistureValuesBySizeClass_ := moistureArray (-1) (-1) (-1) (-1) (-1) (-1) (-1) |}.

(** [SurfaceInputs::memberwiseCopyAssignment]: one assignment per member.

    The source assigns every member but four: the chaparral parameters
    [chaparralFuelType_], [chaparralFuelBedDepth_],
    [chaparralFuelDeadLoadFraction_] and [chaparralTotalFuelLoad_], which the
    setters at surfaceInputs.cpp:570-588 write and which neither this method
    nor [initializeMembers] assigns.  They are among the members that
    [SurfaceInputs] does not carry: the result agrees with [rhs] on the
    members of the record (see [sameAssignedMembers]), and nothing here says
    that the two objects of the program agree on those four. *)
Definition memberwiseCopyAssignment (rhs : SurfaceInputs) (this : SurfaceInputs)
    : SurfaceInputs :=
  {| fuelModelNumber_ := fuelModelNumber_ rhs;
     moistureOneHour_ := moistureOneHour_ rhs;
     moistureTenHour_ := moistureTenHour_ rhs;
     moistureHundredHour_ := moistureHundredHour_ rhs;
     moistureLiveHerbaceous_ := moistureLiveHerbaceous_ rhs;
     moistureLiveWoody_ := moistureLiveWoody_ rhs;
     windSpeed_ := windSpeed_ rhs;
     windDirection_ := windDirection_ rhs;
     slope_ := slope_ rhs;
     aspect_ := aspect_ rhs;
     moistureDeadAggregate_ := moistureDeadAggregate_ rhs;
     moistureLiveAggregate_ := moistureLiveAggregate_ rhs;
     moistureInputMode_ := moistureInputMode_ rhs;
     isUsingTwoFuelModels_ := isUsingTwoFuelModels_ rhs;
     secondFuelModelNumber_ := secondFuelModelNumber_ rhs;
     firstFuelModelCoverage_ := firstFuelModelCoverage_ rhs;
     isUsingPalmettoGallberry_ := isUsingPalmettoGallberry_ rhs;
     isUsingWesternAspen_ := isUsingWesternAspen_ rhs;
     isUsingChaparral_ := isUsingChaparral_ rhs;
     canopyCover_ := canopyCover_ rhs;
     canopyHeight_ := canopyHeight_ rhs;
     crownRatio_ := crownRatio_ rhs;
     twoFuelModelsMethod_ := twoFuelModelsMethod_ rhs;
     windHeightInputMode_ := windHeightInputMode_ rhs;
     windAndSpreadOrientationMode_ := windAndSpreadOrientationMode_ rhs;
     currentMoistureScenarioIndex_ := currentMoistureScenarioIndex_ rhs;
     moistureValuesBySizeClass_ := moistureValuesBySizeClass_ rhs |}.

(** Agreement of two objects on the members that [memberwiseCopyAssignment]
    assigns and the record carries: one equation per assignment to a member
    of the record, in the order of the source. *)
Definition sameAssignedMembers (this rhs : SurfaceInputs) : Prop :=
  fuelModelNumber_ this = fuelModelNumber_ rhs
  /\ moistureOneHour_ this = moistureOneHour_ rhs
  /\ moistureTenHour_ this = moistureTenHour_ rhs
  /\ moistureHundredHour_ this = moistureHundredHour_ rhs
  /\ moistureLiveHerbaceous_ this = moistureLiveHerbaceous_ rhs
  /\ moistureLiveWoody_ this = moistureLiveWoody_ rhs
  /\ windSpeed_ this = windSpeed_ rhs
  /\ windDirection_ this = windDirection_ rhs
  /\ slope_ this = slope_ rhs
  /\ aspect_ this = aspect_ rhs
  /\ moistureDeadAggregate_ this = moistureDeadAggregate_ rhs
  /\ moistureLiveAggregate_ this = moistureLiveAggregate_ rhs
  /\ moistureInputMode_ this = moistureInputMode_ rhs
  /\ isUsingTwoFuelModels_ this = isUsingTwoFuelModels_ rhs
  /\ secondFuelModelNumber_ this = secondFuelModelNumber_ rhs
  /\ firstFuelModelCoverage_ this = firstFuelModelCoverage_ rhs
  /\ isUsingPalmettoGallberry_ this = isUsingPalmettoGallberry_ rhs
  /\ isUsingWesternAspen_ this = isUsingWesternAspen_ rhs
  /\ isUsingChaparral_ this = isUsingChaparral_ rhs
  /\ canopyCover_ this = canopyCover_ rhs
  /\ canopyHeight_ this = canopyHeight_ rhs
  /\ crownRatio_ this = crownRatio_ rhs
  /\ twoFuelModelsMethod_ this = twoFuelModelsMethod_ rhs
  /\ windHeightInputMode_ this = windHeightInputMode_ rhs
  /\ windAndSpreadOrientationMode_ this = windAndSpreadOrientationMode_ rhs
  /\ currentMoistureScenarioIndex_ this = currentMoistureScenarioIndex_ rhs
  /\ moistureValuesBySizeClass_ this = moistureValuesBySizeClass_ rhs.

(** *** Plain accessors *)

Definition getFuelModelNumber (this : SurfaceInputs) : Z := fuelModelNumber_ this.
Definition getFirstFuelModelNumber (this : SurfaceInputs) : Z := fuelModelNumber_ this.
Definition getSecondFuelModelNumber (this : SurfaceInputs) : Z := secondFuelModelNumber_ this.
Definition getFirstFuelModelCoverage (this : SurfaceInputs) : R := firstFuelModelCoverage_ this.
Definition getTwoFuelModelsMethod (this : SurfaceInputs) : TwoFuelModelsMethodEnum :=
  twoFuelModelsMethod_ this.
Definition isUsingTwoFuelModels (this : SurfaceInputs) : bool := isUsingTwoFuelModels_ this.
Definition getIsUsingPalmettoGallberry (this : SurfaceInputs) : bool :=
  isUsingPalmettoGallberry_ this.
Definition getIsUsingWesternAspen (this : SurfaceInputs) : bool := isUsingWesternAspen_ this.
Definition getIsUsingChaparral (this : SurfaceInputs) : bool := isUsingChaparral_ this.
Definition getWindHeightInputMode (this : SurfaceInputs) : WindHeightInputModeEnum :=
  windHeightInputMode_ this.
Definition getWindDirection (this : SurfaceInputs) : R := windDirection_ this.
Definition getAspect (this : SurfaceInputs) : R := aspect_ this.
Definition getCrownRatio (this : SurfaceInputs) : R := crownRatio_ this.

(** [getCanopyHeight] returns the stored value whatever unit it is given. *)
Definition getCanopyHeight (this : SurfaceInputs) : R := canopyHeight_ this.

(** crown.cpp calls [getWindSpeed], [setSlope] and [setWindSpeed] without a
    unit argument (surfaceInputs.h, which declares how such a call resolves,
    is not among the embedded files): the value is the stored one, in base
    units. *)
Definition getWindSpeed (this : SurfaceInputs) : R := windSpeed_ this.

Definition setSlopeInBaseUnits (slope : R) (this : SurfaceInputs) : SurfaceInputs :=
  with_slope_ slope this.

Definition setWindSpeedInBaseUnits (windSpeed : R) (this : SurfaceInputs) : SurfaceInputs :=
  with_windSpeed_ windSpeed this.

(** *** Setters that do not convert units *)

Definition setFuelModelNumber (fuelModelNumber : Z) (this : SurfaceInputs) : SurfaceInputs :=
  with_fuelModelNumber_ fuelModelNumber this.

Definition setAspect (aspect : R) (this : SurfaceInputs) : SurfaceInputs :=
  with_aspect_ aspect this.

Definition setCrownRatio (crownRatio : R) (this : SurfaceInputs) : SurfaceInputs :=
  with_crownRatio_ crownRatio this.

Definition setWindDirection (windDirection : R) (this : SurfaceInputs) : SurfaceInputs :=
  with_windDirection_ windDirection this.

Definition setWindHeightInputMode (windHeightInputMode : WindHeightInputModeEnum)
    (this : SurfaceInputs) : SurfaceInputs :=
  with_windHeightInputMode_ windHeightInputMode this.

Definition setWindAndSpreadOrientationMode
    (windAndSpreadOrientationMode : WindAndSpreadOrientationModeEnum)
    (this : SurfaceInputs) : SurfaceInputs :=
  with_windAndSpreadOrientationMode_ windAndSpreadOrientationMode this.

Definition setTwoFuelModelsMethod (twoFuelModelsMethod : TwoFuelModelsMethodEnum)
    (this : SurfaceInputs) : SurfaceInputs :=
  with_twoFuelModelsMethod_ twoFuelModelsMethod this.

(** *** The special-fuel switches *)

Definition setIsUsingWesternAspen (isUsingWesternAspen : bool) (this : SurfaceInputs)
    : SurfaceInputs :=
  let this := with_isUsingWesternAspen_ isUsingWesternAspen this in
  if isUsingWesternAspen_ this
  then (* Special case fuel models are mutually exclusive *)
    let this := with_isUsingChaparral_ false this in
    with_isUsingPalmettoGallberry_ false this
  else this.

Definition setIsUsingPalmettoGallberry (isUsingPalmettoGallberry : bool)
    (this : SurfaceInputs) : SurfaceInputs :=
  let this := with_isUsingPalmettoGallberry_ isUsingPalmettoGallberry this in
  if isUsingPalmettoGallberry_ this
  then
    let this := with_isUsingChaparral_ false this in
    with_isUsingWesternAspen_ false this
  else this.

Definition setIsUsingChaparral (isUsingChaparral : bool) (this : SurfaceInputs)
    : SurfaceInputs :=
  let this := with_isUsingChaparral_ isUsingChaparral this in
  if isUsingChaparral_ this
  then
    let this := with_isUsingPalmettoGallberry_ false this in
    with_isUsingWesternAspen_ false this
  else this.

(** How many of the three special-fuel flags are set. *)
Definition specialFuelCount (this : SurfaceInputs) : nat :=
  (Nat.b2n (isUsingPalmettoGallberry_ this) + Nat.b2n (isUsingWesternAspen_ this)
   + Nat.b2n (isUsingChaparral_ this))%nat.

(** *** The wind-direction normalisation loop of [updateSurfaceInputs]

    [while (windDirection >= 360.0) windDirection -= 360.0;] terminates on
    every real: the number of full turns left, [up (windDirection / 360)],
    drops by one per iteration.

    On doubles it does not: above 2^62 the spacing of doubles is 1024, so
    [x - 360.0] rounds back to [x] and the loop never ends (nor does it on
    +infinity).  Up to 2^62 every iteration yields a smaller double and the
    loop ends as it does here.  What is proved of the value this function
    returns is therefore stated for arguments below 2^62, or about members
    the loop does not touch, where it holds whenever the call returns. *)

Equations? subtractFullTurns (windDirection : R) : R
    by wf (Z.to_nat (up (windDirection / 360))) lt :=
  subtractFullTurns windDirection with Rle_dec 360 windDirection => {
    | left _ := subtractFullTurns (windDirection - 360);
    | right _ := windDirection }.
Proof.
  replace ((windDirection - 360) / 360) with (windDirection / 360 - 1) by field.
  assert (Hone : 1 <= windDirection / 360).
  { apply Rmult_le_reg_r with 360; [lra|]. unfold Rdiv.
    rewrite Rmult_assoc, Rinv_l by lra. lra. }
  destruct (archimed (windDirection / 360)) as [Hgt Hle].
  assert (Hup : up (windDirection / 360 - 1) = (up (windDirection / 360) - 1)%Z).
  { symmetry. apply tech_up; rewrite minus_IZR; lra. }
  assert (1 < up (windDirection / 360))%Z by (apply lt_IZR; lra).
  rewrite Hup. lia.
Qed.

Section Methods.
Context {units : UnitConversions} {scenarios : MoistureScenarios}.

(** [SurfaceInputs::updateMoisturesBasedOnInputMode] *)
Definition updateMoisturesBasedOnInputMode (this : SurfaceInputs) : SurfaceInputs :=
  match moistureInputMode_ this with
  | BySizeClass =>
      with_moistureValuesBySizeClass_
        (moistureArray (moistureOneHour_ this) (moistureTenHour_ this)
           (moistureHundredHour_ this) (moistureLiveHerbaceous_ this)
           (moistureLiveWoody_ this) (-1) (-1)) this
  | AllAggregate =>
      with_moistureValuesBySizeClass_
        (moistureArray (moistureDeadAggregate_ this) (moistureDeadAggregate_ this)
           (moistureDeadAggregate_ this) (moistureLiveAggregate_ this)
           (moistureLiveAggregate_ this) (moistureDeadAggregate_ this)
           (moistureLiveAggregate_ this)) this
  | DeadAggregateAndLiveSizeClass =>
      with_moistureValuesBySizeClass_
        (moistureArray (moistureDeadAggregate_ this) (moistureDeadAggregate_ this)
           (moistureDeadAggregate_ this) (moistureLiveHerbaceous_ this)
           (moistureLiveWoody_ this) (moistureDeadAggregate_ this) (-1)) this
  | LiveAggregateAndDeadSizeClass =>
      with_moistureValuesBySizeClass_
        (moistureArray (moistureOneHour_ this) (moistureTenHour_ this)
           (moistureHundredHour_ this) (moistureLiveAggregate_ this)
           (moistureLiveAggregate_ this) (-1) (moistureLiveAggregate_ this)) this
  | MoistureScenario =>
      let i := currentMoistureScenarioIndex_ this in
      with_moistureValuesBySizeClass_
        (moistureArray (getMoistureScenarioOneHourByIndex i)
           (getMoistureScenarioTenHourByIndex i)
           (getMoistureScenarioHundredHourByIndex i)
           (getMoistureScenarioLiveHerbaceousByIndex i)
           (getMoistureScenarioLiveWoodyByIndex i) (-1) (-1)) this
  end.

(** *** Setters that convert to base units *)

Definition setSlope (slope : R) (slopeUnits : SlopeUnitsEnum) (this : SurfaceInputs)
    : SurfaceInputs :=
  with_slope_ (SlopeUnits_toBaseUnits slope slopeUnits) this.

Definition setMoistureOneHour (moistureOneHour : R) (moistureUnits : MoistureUnitsEnum)
    (this : SurfaceInputs) : SurfaceInputs :=
  updateMoisturesBasedOnInputMode
    (with_moistureOneHour_ (MoistureUnits_toBaseUnits moistureOneHour moistureUnits) this).

Definition setMoistureTenHour (moistureTenHour : R) (moistureUnits : MoistureUnitsEnum)
    (this : SurfaceInputs) : SurfaceInputs :=
  updateMoisturesBasedOnInputMode
    (with_moistureTenHour_ (MoistureUnits_toBaseUnits moistureTenHour moistureUnits) this).

Definition setMoistureHundredHour (moistureHundredHour : R)
    (moistureUnits : MoistureUnitsEnum) (this : SurfaceInputs) : SurfaceInputs :=
  updateMoisturesBasedOnInputMode
    (with_moistureHundredHour_
       (MoistureUnits_toBaseUnits moistureHundredHour moistureUnits) this).

Definition setMoistureLiveHerbaceous (moistureLiveHerbaceous : R)
    (moistureUnits : MoistureUnitsEnum) (this : SurfaceInputs) : SurfaceInputs :=
  updateMoisturesBasedOnInputMode
    (with_moistureLiveHerbaceous_
       (MoistureUnits_toBaseUnits moistureLiveHerbaceous moistureUnits) this).

Definition setMoistureLiveWoody (moistureLiveWoody : R) (moistureUnits : MoistureUnitsEnum)
    (this : SurfaceInputs) : SurfaceInputs :=
  updateMoisturesBasedOnInputMode
    (with_moistureLiveWoody_
       (MoistureUnits_toBaseUnits moistureLiveWoody moistureUnits) this).

Definition setWindSpeed (windSpeed : R) (windSpeedUnits : SpeedUnitsEnum)
    (windHeightInputMode : WindHeightInputModeEnum) (this : SurfaceInputs) : SurfaceInputs :=
  let this := with_windHeightInputMode_ windHeightInputMode this in
  with_windSpeed_ (SpeedUnits_toBaseUnits windSpeed windSpeedUnits) this.

Definition setCanopyCover (canopyCover : R) (coverUnits : CoverUnitsEnum)
    (this : SurfaceInputs) : SurfaceInputs :=
  with_canopyCover_ (CoverUnits_toBaseUnits canopyCover coverUnits) this.

Definition setCanopyHeight (canopyHeight : R) (canopyHeightUnits : LengthUnitsEnum)
    (this : SurfaceInputs) : SurfaceInputs :=
  with_canopyHeight_ (LengthUnits_toBaseUnits canopyHeight canopyHeightUnits) this.

(** [SurfaceInputs::updateSurfaceInputs] *)
Definition updateSurfaceInputs (fuelModelNumber : Z)
    (moistureOneHour moistureTenHour moistureHundredHour moistureLiveHerbaceous
       moistureLiveWoody : R) (moistureUnits : MoistureUnitsEnum)
    (windSpeed : R) (windSpeedUnits : SpeedUnitsEnum)
    (windHeightInputMode : WindHeightInputModeEnum) (windDirection : R)
    (windAndSpreadOrientationMode : WindAndSpreadOrientationModeEnum)
    (slope : R) (slopeUnits : SlopeUnitsEnum) (aspect : R)
    (canopyCover : R) (coverUnits : CoverUnitsEnum)
    (canopyHeight : R) (canopyHeightUnits : LengthUnitsEnum) (crownRatio : R)
    (this : SurfaceInputs) : SurfaceInputs :=
  let this := setSlope slope slopeUnits this in
  let this := with_aspect_ aspect this in
  let this := setFuelModelNumber fuelModelNumber this in
  let this := setMoistureOneHour moistureOneHour moistureUnits this in
  let this := setMoistureTenHour moistureTenHour moistureUnits this in
  let this := setMoistureHundredHour moistureHundredHour moistureUnits this in
  let this := setMoistureLiveHerbaceous moistureLiveHerbaceous moistureUnits this in
  let this := setMoistureLiveWoody moistureLiveWoody moistureUnits this in
  let this := setWindSpeed windSpeed windSpeedUnits windHeightInputMode this in
  let this := setWindHeightInputMode windHeightInputMode this in
  let windDirection :=
    if Rlt_dec windDirection 0 then windDirection + 360 else windDirection in
  let windDirection := subtractFullTurns windDirection in
  let this := setWindDirection windDirection this in
  let this := setWindAndSpreadOrientationMode windAndSpreadOrientationMode this in
  let this := with_isUsingTwoFuelModels_ false this in
  let this := setTwoFuelModelsMethod NoMethod this in
  let this := setCanopyCover canopyCover coverUnits this in
  let this := setCanopyHeight canopyHeight canopyHeightUnits this in
  setCrownRatio crownRatio this.

End Methods.


(** *** The remaining moisture setters, the getters and the scenario selector *)

Section FurtherMethods.
Context {units : UnitConversions} {scenarios : MoistureScenarios}.
Context {getterUnits : GetterUnitConversions} {directory : MoistureScenarioDirectory}.

Definition setMoistureDeadAggregate (moistureDeadAggregate : R)
    (moistureUnits : MoistureUnitsEnum) (this : SurfaceInputs) : SurfaceInputs :=
  updateMoisturesBasedOnInputMode
    (with_moistureDeadAggregate_
       (MoistureUnits_toBaseUnits moistureDeadAggregate moistureUnits) this).

Definition setMoistureLiveAggregate (moistureLiveAggregate : R)
    (moistureUnits : MoistureUnitsEnum) (this : SurfaceInputs) : SurfaceInputs :=
  updateMoisturesBasedOnInputMode
    (with_moistureLiveAggregate_
       (MoistureUnits_toBaseUnits moistureLiveAggregate moistureUnits) this).

Definition setMoistureInputMode (moistureInputMode : MoistureInputModeEnum)
    (this : SurfaceInputs) : SurfaceInputs :=
  updateMoisturesBasedOnInputMode (with_moistureInputMode_ moistureInputMode this).

Definition getCurrentMoistureScenarioIndex (this : SurfaceInputs) : Z :=
  currentMoistureScenarioIndex_ this.

(** The seven moisture getters read the array, not the members. *)
Definition getMoistureOneHour (moistureUnits : MoistureUnitsEnum) (this : SurfaceInputs) : R :=
  MoistureUnits_fromBaseUnits (moistureValuesBySizeClass_ this OneHour) moistureUnits.

Definition getMoistureTenHour (moistureUnits : MoistureUnitsEnum) (this : SurfaceInputs) : R :=
  MoistureUnits_fromBaseUnits (moistureValuesBySizeClass_ this TenHour) moistureUnits.

Definition getMoistureHundredHour (moistureUnits : MoistureUnitsEnum)
    (this : SurfaceInputs) : R :=
  MoistureUnits_fromBaseUnits (moistureValuesBySizeClass_ this HundredHour) moistureUnits.

Definition getMoistureDeadAggregateValue (moistureUnits : MoistureUnitsEnum)
    (this : SurfaceInputs) : R :=
  MoistureUnits_fromBaseUnits (moistureValuesBySizeClass_ this DeadAggregate) moistureUnits.

Definition getMoistureLiveHerbaceous (moistureUnits : MoistureUnitsEnum)
    (this : SurfaceInputs) : R :=
  MoistureUnits_fromBaseUnits (moistureValuesBySizeClass_ this LiveHerbaceous) moistureUnits.

Definition getMoistureLiveWoody (moistureUnits : MoistureUnitsEnum)
    (this : SurfaceInputs) : R :=
  MoistureUnits_fromBaseUnits (moistureValuesBySizeClass_ this LiveWoody) moistureUnits.

Definition getMoistureLiveAggregateValue (moistureUnits : MoistureUnitsEnum)
    (this : SurfaceInputs) : R :=
  MoistureUnits_fromBaseUnits (moistureValuesBySizeClass_ this LiveAggregate) moistureUnits.

(** [SurfaceInputs::isMoistureClassInputNeeded] *)
Definition isMoistureClassInputNeeded (moistureClass : MoistureClassInputEnum)
    (this : SurfaceInputs) : bool :=
  let isMoistureClassNeeded := false in
  if (bool_decide (moistureClass = OneHour)
      || bool_decide (moistureClass = TenHour)
      || bool_decide (moistureClass = HundredHour))
     && (bool_decide (moistureInputMode_ this = BySizeClass)
         || bool_decide (moistureInputMode_ this = LiveAggregateAndDeadSizeClass))
  then true
  else if bool_decide (moistureClass = DeadAggregate)
          && (bool_decide (moistureInputMode_ this = AllAggregate)
              || bool_decide (moistureInputMode_ this = DeadAggregateAndLiveSizeClass))
  then true
  else if (bool_decide (moistureClass = LiveHerbaceous)
           || bool_decide (moistureClass = LiveWoody))
          && (bool_decide (moistureInputMode_ this = BySizeClass)
              || bool_decide (moistureInputMode_ this = DeadAggregateAndLiveSizeClass))
  then true
  else if bool_decide (moistureClass = LiveAggregate)
          && (bool_decide (moistureInputMode_ this = AllAggregate)
              || bool_decide (moistureInputMode_ this = LiveAggregateAndDeadSizeClass))
  then true
  else isMoistureClassNeeded.

(** [SurfaceInputs::setMoistureScenarioByIndex]: the updated object and the
    returned flag.  The pointer [moistureScenarios] is taken to refer to a
    table, as in [updateMoisturesBasedOnInputMode].  The selector also stores
    the scenario's name in [currentMoistureScenarioName_], a member no
    embedded operation reads and [SurfaceInputs] above does not carry. *)
Definition setMoistureScenarioByIndex (moistureScenarioIndex : Z) (this : SurfaceInputs)
    : bool * SurfaceInputs :=
  let isMoistureScenarioDefined := getIsMoistureScenarioDefinedByIndex moistureScenarioIndex in
  let this := with_currentMoistureScenarioIndex_ (-1)%Z this in
  let this :=
    if isMoistureScenarioDefined
    then
      let this := with_currentMoistureScenarioIndex_ moistureScenarioIndex this in
      updateMoisturesBasedOnInputMode this
    else this in
  (isMoistureScenarioDefined, this).

(** *** Two fuel models *)

Definition setSecondFuelModelNumber (secondFuelModelNumber : Z) (this : SurfaceInputs)
    : SurfaceInputs :=
  with_secondFuelModelNumber_ secondFuelModelNumber this.

Definition setTwoFuelModelsFirstFuelModelCoverage (firstFuelModelCoverage : R)
    (coverUnits : CoverUnitsEnum) (this : SurfaceInputs) : SurfaceInputs :=
  with_firstFuelModelCoverage_ (CoverUnits_toBaseUnits firstFuelModelCoverage coverUnits) this.

(** [SurfaceInputs::updateSurfaceInputsForTwoFuelModels] *)
Definition updateSurfaceInputsForTwoFuelModels (firstfuelModelNumber secondFuelModelNumber : Z)
    (moistureOneHour moistureTenHour moistureHundredHour moistureLiveHerbaceous
       moistureLiveWoody : R) (moistureUnits : MoistureUnitsEnum)
    (windSpeed : R) (windSpeedUnits : SpeedUnitsEnum)
    (windHeightInputMode : WindHeightInputModeEnum) (windDirection : R)
    (windAndSpreadOrientationMode : WindAndSpreadOrientationModeEnum)
    (firstFuelModelCoverage : R) (firstFuelModelCoverageUnits : CoverUnitsEnum)
    (twoFuelModelsMethod : TwoFuelModelsMethodEnum)
    (slope : R) (slopeUnits : SlopeUnitsEnum) (aspect : R)
    (canopyCover : R) (canopyCoverUnits : CoverUnitsEnum)
    (canopyHeight : R) (canopyHeightUnits : LengthUnitsEnum) (crownRatio : R)
    (this : SurfaceInputs) : SurfaceInputs :=
  let fuelModelNumber := firstfuelModelNumber in
  let this :=
    updateSurfaceInputs fuelModelNumber moistureOneHour moistureTenHour moistureHundredHour
      moistureLiveHerbaceous moistureLiveWoody moistureUnits windSpeed windSpeedUnits
      windHeightInputMode windDirection windAndSpreadOrientationMode slope slopeUnits
      aspect canopyCover canopyCoverUnits canopyHeight canopyHeightUnits crownRatio this in
  let this := setSecondFuelModelNumber secondFuelModelNumber this in
  let this :=
    setTwoFuelModelsFirstFuelModelCoverage firstFuelModelCoverage
      firstFuelModelCoverageUnits this in
  let this := with_isUsingTwoFuelModels_ true this in
  setTwoFuelModelsMethod twoFuelModelsMethod this.

(** *** Setter and getter by moisture class

    The setter and the getter that surfaceInputs.cpp provides for each class,
    selected by the class: the vocabulary in which the properties of the
    seven pairs are stated once. *)

Definition setMoistureOfClass (moistureClass : MoistureClassInputEnum) (moisture : R)
    (moistureUnits : MoistureUnitsEnum) (this : SurfaceInputs) : SurfaceInputs :=
  match moistureClass with
  | OneHour => setMoistureOneHour moisture moistureUnits this
  | TenHour => setMoistureTenHour moisture moistureUnits this
  | HundredHour => setMoistureHundredHour moisture moistureUnits this
  | LiveHerbaceous => setMoistureLiveHerbaceous moisture moistureUnits this
  | LiveWoody => setMoistureLiveWoody moisture moistureUnits this
  | DeadAggregate => setMoistureDeadAggregate moisture moistureUnits this
  | LiveAggregate => setMoistureLiveAggregate moisture moistureUnits this
  end.

Definition getMoistureOfClass (moistureClass : MoistureClassInputEnum)
    (moistureUnits : MoistureUnitsEnum) (this : SurfaceInputs) : R :=
  match moistureClass with
  | OneHour => getMoistureOneHour moistureUnits this
  | TenHour => getMoistureTenHour moistureUnits this
  | HundredHour => getMoistureHundredHour moistureUnits this
  | LiveHerbaceous => getMoistureLiveHerbaceous moistureUnits this
  | LiveWoody => getMoistureLiveWoody moistureUnits this
  | DeadAggregate => getMoistureDeadAggregateValue moistureUnits this
  | LiveAggregate => getMoistureLiveAggregateValue moistureUnits this
  end.

End FurtherMethods.

End SurfaceInputs.

(** ** [pow] of <cmath>

    On a positive base [pow x y] is [Rpower x y = exp (y * ln x)].  The
    embedded code raises only to the positive constants 0.46, 1.5 and 2/3;
    with such an exponent a zero base gives 0.  A negative base with a
    fractional exponent is NaN in C, which has no counterpart here: the
    model returns 0 and nothing below relies on that case. *)
Definition pow (x y : R) : R := if Rlt_dec 0 x then Rpower x y else 0.

(** ** The fuel catalogue and the Rothermel spread model (interfaces) *)

(** fuelModels.h: the two look-ups the surface runs consult. *)
Class FuelCatalogue : Type := {
  FuelModels : Type;
  FuelModels_isAllFuelLoadZero : FuelModels -> Z -> bool;
  FuelModels_isFuelModelDefined : FuelModels -> Z -> bool
}.

(** Modelled from the spec: the [SurfaceFire] class (surfaceFire.h) is not
    among the embedded files.  Its state is the record of outputs that the
    specification lists for a surface run and that [Surface]'s getters read:
    "reaction intensity, ..., spread rate, direction of max spread, fireline
    intensity, heat-per-unit-area, flame length, residence time". *)
Record SurfaceFire : Type := {
  spreadRate_ : R;
  spreadRateInDirectionOfInterest_ : R;
  directionOfMaxSpread_ : R;
  firelineIntensity_ : R;
  flameLength_ : R;
  heatPerUnitArea_ : R;
  residenceTime_ : R;
  reactionIntensity_ : R
}.

(** Modelled from the spec: [SurfaceFire::skipCalculationForZeroLoad] is not
    among the embedded files; "spread rate and all derived quantities are set
    to zero without invoking the Rothermel formulas". *)
Definition SurfaceFire_skipCalculationForZeroLoad (this : SurfaceFire) : SurfaceFire :=
  {| spreadRate_ := 0;
     spreadRateInDirectionOfInterest_ := 0;
     directionOfMaxSpread_ := 0;
     firelineIntensity_ := 0;
     flameLength_ := 0;
     heatPerUnitArea_ := 0;
     residenceTime_ := 0;
     reactionIntensity_ := 0 |}.

(** The Rothermel formulas themselves: [SurfaceFire::calculateForwardSpreadRate]
    and [SurfaceTwoFuelModels::calculateWeightedSpreadRate], each a state
    transformer on the [SurfaceFire] object that reads the catalogue and the
    inputs. *)
Class RothermelModel `{FuelCatalogue} : Type := {
  SurfaceFire_calculateForwardSpreadRate :
    FuelModels -> SurfaceInputs ->
    Z -> bool -> R -> SurfaceFireSpreadDirectionModeEnum ->
    SurfaceFire -> SurfaceFire;
  SurfaceTwoFuelModels_calculateWeightedSpreadRate :
    FuelModels -> SurfaceInputs ->
    TwoFuelModelsMethodEnum -> Z -> R -> Z -> bool -> R ->
    SurfaceFireSpreadDirectionModeEnum ->
    SurfaceFire -> SurfaceFire
}.

(** The call a surface run makes on its [SurfaceFire] object, with the
    arguments it passes. *)
Inductive SurfaceFireCall : Type :=
| SkipCalculationForZeroLoad
| CalculateForwardSpreadRate (fuelModelNumber : Z) (hasDirectionOfInterest : bool)
    (directionOfInterest : R) (directionMode : SurfaceFireSpreadDirectionModeEnum)
| CalculateWeightedSpreadRate (twoFuelModelsMethod : TwoFuelModelsMethodEnum)
    (firstFuelModelNumber : Z) (firstFuelModelCoverage : R) (secondFuelModelNumber : Z)
    (hasDirectionOfInterest : bool) (directionOfInterest : R)
    (directionMode : SurfaceFireSpreadDirectionModeEnum).

(** Whether a call runs the Rothermel formulas. *)
Definition invokesRothermel (c : SurfaceFireCall) : bool :=
  match c with
  | SkipCalculationForZeroLoad => false
  | CalculateForwardSpreadRate _ _ _ _ => true
  | CalculateWeightedSpreadRate _ _ _ _ _ _ _ => true
  end.

(** fuelModels.h, continued: the fuel loads by size class, with the
    enumerator [LoadingUnits::PoundsPerSquareFoot], which surface.cpp names. *)
Class FuelLoads `{FuelCatalogue} : Type := {
  LoadingUnitsEnum : Type;
  LoadingUnits_PoundsPerSquareFoot : LoadingUnitsEnum;
  FuelModels_getFuelLoadOneHour : FuelModels -> Z -> LoadingUnitsEnum -> R;
  FuelModels_getFuelLoadTenHour : FuelModels -> Z -> LoadingUnitsEnum -> R;
  FuelModels_getFuelLoadHundredHour : FuelModels -> Z -> LoadingUnitsEnum -> R;
  FuelModels_getFuelLoadLiveHerbaceous : FuelModels -> Z -> LoadingUnitsEnum -> R;
  FuelModels_getFuelLoadLiveWoody : FuelModels -> Z -> LoadingUnitsEnum -> R
}.

(** surfaceFire.h, continued: the midflame wind speed computation that the
    input-updating methods of [Surface] trigger, a state transformer that
    reads the catalogue and the inputs, and the two wind readouts. *)
Class SurfaceFireWind `{FuelCatalogue} : Type := {
  SurfaceFire_calculateMidflameWindSpeed :
    FuelModels -> SurfaceInputs -> SurfaceFire -> SurfaceFire;
  SurfaceFire_getMidflameWindSpeed : SurfaceFire -> R;
  SurfaceFire_getWindAdjustmentFactor : SurfaceFire -> R
}.

(** ** Surface (surface.cpp) *)

Module Surface.

Section Methods.
Context {units : UnitConversions} {scenarios : MoistureScenarios}.
Context {catalogue : FuelCatalogue} {rothermel : RothermelModel}.

(** [fuelModels_] points to the caller's catalogue, which [Surface] only
    reads; [surfaceInputs_] and [surfaceFire_] are members by value. *)
Record Surface : Type := {
  fuelModels_ : FuelModels;
  surfaceInputs_ : SurfaceInputs;
  surfaceFire_ : SurfaceFire
}.

Definition with_surfaceInputs_ (v : SurfaceInputs) (this : Surface) : Surface :=
  {| fuelModels_ := fuelModels_ this; surfaceInputs_ := v; surfaceFire_ := surfaceFire_ this |}.

Definition with_surfaceFire_ (v : SurfaceFire) (this : Surface) : Surface :=
  {| fuelModels_ := fuelModels_ this; surfaceInputs_ := surfaceInputs_ this; surfaceFire_ := v |}.

Definition isAllFuelLoadZero (fuelModelNumber : Z) (this : Surface) : bool :=
  FuelModels_isAllFuelLoadZero (fuelModels_ this) fuelModelNumber.

Definition isFuelModelDefined (fuelModelNumber : Z) (this : Surface) : bool :=
  FuelModels_isFuelModelDefined (fuelModels_ this) fuelModelNumber.

Definition isUsingTwoFuelModels (this : Surface) : bool :=
  SurfaceInputs.isUsingTwoFuelModels (surfaceInputs_ this).

(** Carry out one call on [surfaceFire_]; the run returns the call it made
    next to the updated object. *)
Definition perform (c : SurfaceFireCall) (this : Surface) : SurfaceFireCall * Surface :=
  let surfaceFire :=
    match c with
    | SkipCalculationForZeroLoad =>
        SurfaceFire_skipCalculationForZeroLoad (surfaceFire_ this)
    | CalculateForwardSpreadRate n hasDir dir mode =>
        SurfaceFire_calculateForwardSpreadRate (fuelModels_ this) (surfaceInputs_ this)
          n hasDir dir mode (surfaceFire_ this)
    | CalculateWeightedSpreadRate method n1 cov n2 hasDir dir mode =>
        SurfaceTwoFuelModels_calculateWeightedSpreadRate (fuelModels_ this)
          (surfaceInputs_ this) method n1 cov n2 hasDir dir mode (surfaceFire_ this)
    end in
  (c, with_surfaceFire_ surfaceFire this).

(** [Surface::doSurfaceRunInDirectionOfMaxSpread] *)
Definition doSurfaceRunInDirectionOfMaxSpread (this : Surface) : SurfaceFireCall * Surface :=
  let this :=
    with_surfaceInputs_
      (SurfaceInputs.updateMoisturesBasedOnInputMode (surfaceInputs_ this)) this in
  let directionOfInterest := 0 in
  let hasDirectionOfInterest := false in
  let directionMode := FromIgnitionPoint in
  if isUsingTwoFuelModels this then
    let twoFuelModelsMethod := SurfaceInputs.getTwoFuelModelsMethod (surfaceInputs_ this) in
    let firstFuelModelNumber := SurfaceInputs.getFirstFuelModelNumber (surfaceInputs_ this) in
    let firstFuelModelCoverage :=
      SurfaceInputs.getFirstFuelModelCoverage (surfaceInputs_ this) in
    let secondFuelModelNumber :=
      SurfaceInputs.getSecondFuelModelNumber (surfaceInputs_ this) in
    perform (CalculateWeightedSpreadRate twoFuelModelsMethod firstFuelModelNumber
               firstFuelModelCoverage secondFuelModelNumber hasDirectionOfInterest
               directionOfInterest directionMode) this
  else
    let fuelModelNumber := SurfaceInputs.getFuelModelNumber (surfaceInputs_ this) in
    let isUsingChaparralOrPalmettoGallberryOrWesternAspen :=
      SurfaceInputs.getIsUsingPalmettoGallberry (surfaceInputs_ this)
      || SurfaceInputs.getIsUsingWesternAspen (surfaceInputs_ this)
      || SurfaceInputs.getIsUsingChaparral (surfaceInputs_ this) in
    if negb isUsingChaparralOrPalmettoGallberryOrWesternAspen
       && (isAllFuelLoadZero fuelModelNumber this
           || negb (isFuelModelDefined fuelModelNumber this))
    then (* No fuel to burn, spread rate is zero *)
      perform SkipCalculationForZeroLoad this
    else
      perform (CalculateForwardSpreadRate fuelModelNumber hasDirectionOfInterest
                 directionOfInterest directionMode) this.

(** [Surface::doSurfaceRunInDirectionOfInterest] *)
Definition doSurfaceRunInDirectionOfInterest (directionOfInterest : R)
    (directionMode : SurfaceFireSpreadDirectionModeEnum) (this : Surface)
    : SurfaceFireCall * Surface :=
  let this :=
    with_surfaceInputs_
      (SurfaceInputs.updateMoisturesBasedOnInputMode (surfaceInputs_ this)) this in
  let hasDirectionOfInterest := true in
  if isUsingTwoFuelModels this then
    let twoFuelModelsMethod := SurfaceInputs.getTwoFuelModelsMethod (surfaceInputs_ this) in
    let firstFuelModelNumber := SurfaceInputs.getFirstFuelModelNumber (surfaceInputs_ this) in
    let firstFuelModelCoverage :=
      SurfaceInputs.getFirstFuelModelCoverage (surfaceInputs_ this) in
    let secondFuelModelNumber :=
      SurfaceInputs.getSecondFuelModelNumber (surfaceInputs_ this) in
    perform (CalculateWeightedSpreadRate twoFuelModelsMethod firstFuelModelNumber
               firstFuelModelCoverage secondFuelModelNumber hasDirectionOfInterest
               directionOfInterest directionMode) this
  else
    let fuelModelNumber := SurfaceInputs.getFuelModelNumber (surfaceInputs_ this) in
    if isAllFuelLoadZero fuelModelNumber this
       || negb (isFuelModelDefined fuelModelNumber this)
    then (* No fuel to burn, spread rate is zero *)
      perform SkipCalculationForZeroLoad this
    else
      perform (CalculateForwardSpreadRate fuelModelNumber hasDirectionOfInterest
                 directionOfInterest directionMode) this.

(** [Surface::calculateFlameLength] *)
Definition calculateFlameLength (firelineIntensity : R)
    (firelineIntensityUnits : FirelineIntensityUnitsEnum)
    (flameLengthUnits : LengthUnitsEnum) : R :=
  let firelineIntensity :=
    FirelineIntensityUnits_toBaseUnits firelineIntensity firelineIntensityUnits in
  let flameLength :=
    if Rlt_dec firelineIntensity 1e-7 then 0 else 0.45 * pow firelineIntensity 0.46 in
  LengthUnits_fromBaseUnits flameLength flameLengthUnits.

(** The outputs in base units, as the getters of surface.h hand them to the
    crown module. *)
Definition getSpreadRate (this : Surface) : R := spreadRate_ (surfaceFire_ this).
Definition getFlameLength (this : Surface) : R := flameLength_ (surfaceFire_ this).
Definition getFirelineIntensity (this : Surface) : R := firelineIntensity_ (surfaceFire_ this).
Definition getHeatPerUnitArea (this : Surface) : R := heatPerUnitArea_ (surfaceFire_ this).

(** The four outputs that the zero-load rule names are 0. *)
Definition outputsAreZero (this : Surface) : Prop :=
  getSpreadRate this = 0
  /\ getFirelineIntensity this = 0
  /\ getFlameLength this = 0
  /\ getHeatPerUnitArea this = 0.

End Methods.


(** *** Methods that stage inputs, and the remaining calculations *)

Section FurtherMethods.
Context {units : UnitConversions} {scenarios : MoistureScenarios}.
Context {getterUnits : GetterUnitConversions}.
Context {catalogue : FuelCatalogue} {loads : FuelLoads} {wind : SurfaceFireWind}.

(** A method call on the member [surfaceInputs_]. *)
Definition onSurfaceInputs (method : SurfaceInputs -> SurfaceInputs) (this : Surface)
    : Surface :=
  with_surfaceInputs_ (method (surfaceInputs_ this)) this.

(** [surfaceFire_.calculateMidflameWindSpeed()] *)
Definition surfaceFire_calculateMidflameWindSpeed (this : Surface) : Surface :=
  with_surfaceFire_
    (SurfaceFire_calculateMidflameWindSpeed (fuelModels_ this) (surfaceInputs_ this)
       (surfaceFire_ this)) this.

(** [Surface::updateSurfaceInputs] *)
Definition updateSurfaceInputs (fuelModelNumber : Z)
    (moistureOneHour moistureTenHour moistureHundredHour moistureLiveHerbaceous
       moistureLiveWoody : R) (moistureUnits : MoistureUnitsEnum)
    (windSpeed : R) (windSpeedUnits : SpeedUnitsEnum)
    (windHeightInputMode : WindHeightInputModeEnum) (windDirection : R)
    (windAndSpreadOrientationMode : WindAndSpreadOrientationModeEnum)
    (slope : R) (slopeUnits : SlopeUnitsEnum) (aspect : R)
    (canopyCover : R) (coverUnits : CoverUnitsEnum)
    (canopyHeight : R) (canopyHeightUnits : LengthUnitsEnum) (crownRatio : R)
    (this : Surface) : Surface :=
  let this :=
    onSurfaceInputs
      (SurfaceInputs.updateSurfaceInputs fuelModelNumber moistureOneHour moistureTenHour
         moistureHundredHour moistureLiveHerbaceous moistureLiveWoody moistureUnits windSpeed
         windSpeedUnits windHeightInputMode windDirection windAndSpreadOrientationMode slope
         slopeUnits aspect canopyCover coverUnits canopyHeight canopyHeightUnits crownRatio)
      this in
  surfaceFire_calculateMidflameWindSpeed this.

(** [Surface::updateSurfaceInputsForTwoFuelModels] *)
Definition updateSurfaceInputsForTwoFuelModels (firstfuelModelNumber secondFuelModelNumber : Z)
    (moistureOneHour moistureTenHour moistureHundredHour moistureLiveHerbaceous
       moistureLiveWoody : R) (moistureUnits : MoistureUnitsEnum)
    (windSpeed : R) (windSpeedUnits : SpeedUnitsEnum)
    (windHeightInputMode : WindHeightInputModeEnum) (windDirection : R)
    (windAndSpreadOrientationMode : WindAndSpreadOrientationModeEnum)
    (firstFuelModelCoverage : R) (firstFuelModelCoverageUnits : CoverUnitsEnum)
    (twoFuelModelsMethod : TwoFuelModelsMethodEnum)
    (slope : R) (slopeUnits : SlopeUnitsEnum) (aspect : R)
    (canopyCover : R) (canopyCoverUnits : CoverUnitsEnum)
    (canopyHeight : R) (canopyHeightUnits : LengthUnitsEnum) (crownRatio : R)
    (this : Surface) : Surface :=
  let this :=
    onSurfaceInputs
      (SurfaceInputs.updateSurfaceInputsForTwoFuelModels firstfuelModelNumber
         secondFuelModelNumber moistureOneHour moistureTenHour moistureHundredHour
         moistureLiveHerbaceous moistureLiveWoody moistureUnits windSpeed windSpeedUnits
         windHeightInputMode windDirection windAndSpreadOrientationMode
         firstFuelModelCoverage firstFuelModelCoverageUnits twoFuelModelsMethod slope
         slopeUnits aspect canopyCover canopyCoverUnits canopyHeight canopyHeightUnits
         crownRatio)
      this in
  surfaceFire_calculateMidflameWindSpeed this.

(** [Surface::getWindSpeed]: the wind speed at the given input height that
    the midflame wind speed stands for. *)
Definition getWindSpeed (windSpeedUnits : SpeedUnitsEnum)
    (windHeightInputMode : WindHeightInputModeEnum) (this : Surface) : R :=
  let midFlameWindSpeed := SurfaceFire_getMidflameWindSpeed (surfaceFire_ this) in
  let windSpeed := midFlameWindSpeed in
  let windSpeed :=
    if bool_decide (windHeightInputMode = DirectMidflame)
    then midFlameWindSpeed
    else
      let windAdjustmentFactor := SurfaceFire_getWindAdjustmentFactor (surfaceFire_ this) in
      if bool_decide (windHeightInputMode = TwentyFoot)
         && bool_decide (windAdjustmentFactor > 0)
      then midFlameWindSpeed / windAdjustmentFactor
      else (* Ten Meter *)
        if bool_decide (windAdjustmentFactor > 0)
        then (midFlameWindSpeed / windAdjustmentFactor) * 1.15
        else windSpeed in
  SpeedUnits_fromBaseUnits windSpeed windSpeedUnits.

(** [Surface::isMoistureClassInputNeededForCurrentFuelModel] *)
Definition isMoistureClassInputNeededForCurrentFuelModel
    (moistureClass : MoistureClassInputEnum) (this : Surface) : bool :=
  let currentFuelModel := SurfaceInputs.getFuelModelNumber (surfaceInputs_ this) in
  let isMoistureClassInputNeeded :=
    SurfaceInputs.isMoistureClassInputNeeded moistureClass (surfaceInputs_ this) in
  let isFuelLoadNonZeroForSizeClass := false in
  let loadingUnits := LoadingUnits_PoundsPerSquareFoot in
  let isFuelLoadNonZeroForSizeClass :=
    if bool_decide (moistureClass = OneHour) then
      let fuelLoad :=
        FuelModels_getFuelLoadOneHour (fuelModels_ this) currentFuelModel loadingUnits in
      if bool_decide (fuelLoad > 0) then true else isFuelLoadNonZeroForSizeClass
    else if bool_decide (moistureClass = TenHour) then
      let fuelLoad :=
        FuelModels_getFuelLoadTenHour (fuelModels_ this) currentFuelModel loadingUnits in
      if bool_decide (fuelLoad > 0) then true else isFuelLoadNonZeroForSizeClass
    else if bool_decide (moistureClass = HundredHour) then
      let fuelLoad :=
        FuelModels_getFuelLoadHundredHour (fuelModels_ this) currentFuelModel loadingUnits in
      if bool_decide (fuelLoad > 0) then true else isFuelLoadNonZeroForSizeClass
    else if bool_decide (moistureClass = LiveHerbaceous) then
      let fuelLoad :=
        FuelModels_getFuelLoadLiveHerbaceous (fuelModels_ this) currentFuelModel
          loadingUnits in
      if bool_decide (fuelLoad > 0) then true else isFuelLoadNonZeroForSizeClass
    else if bool_decide (moistureClass = LiveWoody) then
      let fuelLoad :=
        FuelModels_getFuelLoadLiveWoody (fuelModels_ this) currentFuelModel loadingUnits in
      if bool_decide (fuelLoad > 0) then true else isFuelLoadNonZeroForSizeClass
    else if bool_decide (moistureClass = DeadAggregate) then
      (* All fuels have at least one non-zero dead component *)
      true
    else if bool_decide (moistureClass = LiveAggregate) then
      let fuelHerbaceous :=
        FuelModels_getFuelLoadLiveHerbaceous (fuelModels_ this) currentFuelModel
          loadingUnits in
      let fuelWoody :=
        FuelModels_getFuelLoadLiveWoody (fuelModels_ this) currentFuelModel loadingUnits in
      if bool_decide (fuelHerbaceous > 0) || bool_decide (fuelWoody > 0)
      then true
      else isFuelLoadNonZeroForSizeClass
    else isFuelLoadNonZeroForSizeClass in
  isMoistureClassInputNeeded && isFuelLoadNonZeroForSizeClass.

(** [Surface::calculateScorchHeight].  The exponent of [pow] is 1.166667,
    positive like the others.  [sqrt] of a negative number is NaN in C and 0
    here; the statements about this function keep the radicand positive. *)
Definition calculateScorchHeight (firelineIntensity : R)
    (firelineIntensityUnits : FirelineIntensityUnitsEnum)
    (midFlameWindSpeed : R) (windSpeedUnits : SpeedUnitsEnum)
    (airTemperature : R) (temperatureUnits : TemperatureUnitsEnum)
    (scorchHeightUnits : LengthUnitsEnum) : R :=
  let firelineIntensity :=
    FirelineIntensityUnits_toBaseUnits firelineIntensity firelineIntensityUnits in
  let midFlameWindSpeedInBaseUnits := SpeedUnits_toBaseUnits midFlameWindSpeed windSpeedUnits in
  let midFlameWindSpeedInMilesPerHour :=
    SpeedUnits_fromBaseUnits midFlameWindSpeedInBaseUnits SpeedUnits_MilesPerHour in
  let airTemperature := TemperatureUnits_toBaseUnits airTemperature temperatureUnits in
  let scorchHeight :=
    if Rlt_dec firelineIntensity 1e-7
    then 0
    else (63 / (140 - airTemperature))
         * pow firelineIntensity 1.166667
         / sqrt (firelineIntensity
                 + (midFlameWindSpeedInMilesPerHour * midFlameWindSpeedInMilesPerHour
                    * midFlameWindSpeedInMilesPerHour)) in
  LengthUnits_fromBaseUnits scorchHeight scorchHeightUnits.

End FurtherMethods.

End Surface.

(** ** The crown module's collaborators (interfaces) *)

(** crownInputs.h: the three canopy inputs crown.cpp reads. *)
Record CrownInputs : Type := {
  canopyBaseHeight_ : R;
  canopyBulkDensity_ : R;
  foliarMoisture_ : R
}.

Definition CrownInputs_getCanopyBaseHeight (this : CrownInputs) : R := canopyBaseHeight_ this.
Definition CrownInputs_getCanopyBulkDensity (this : CrownInputs) : R := canopyBulkDensity_ this.
Definition CrownInputs_getFoliarMoisture (this : CrownInputs) : R := foliarMoisture_ this.

(** fuelModelSet.h, surfaceFireSpread.h and windSpeedUtility.h: the catalogue
    type crown.cpp passes on, the spread model behind [crownFireSpread_] (its
    internal state, its forward spread rate as a function of the catalogue and
    of the inputs object it refers to, its flame-length law) and the
    ten-metre to twenty-foot wind conversion. *)
Class SpreadModel : Type := {
  FuelModelSet : Type;
  SurfaceFireSpreadState : Type;
  SurfaceFireSpread_calculateForwardSpreadRate :
    FuelModelSet -> SurfaceInputs -> SurfaceFireSpreadState -> R * SurfaceFireSpreadState;
  SurfaceFireSpread_calculateFlameLength : SurfaceFireSpreadState -> R -> R;
  WindSpeedUtility_windSpeedAtTwentyFeetFromTenMeter : R -> R
}.

(** ** Crown (crown.cpp)

    [SurfaceInputs] objects live in a store.  A [Crown] holds the address of
    the caller's object ([surfaceInputs_], a pointer to const) and owns one of
    its own, the member [crownDeepCopyOfSurfaceInputs_], which is represented
    by the address it lives at; [crownFireSpread_] is constructed with a
    reference to that member.  The catalogue, the crown inputs and the
    surface module are reached through pointers to const and are only read:
    a method receives their current value as its environment. *)

Module Crown.

Abbreviation loc := positive (only parsing).
Abbreviation store := (gmap positive SurfaceInputs) (only parsing).

Section Methods.
Context {catalogue : FuelCatalogue} {spread : SpreadModel}.

(** [crownFireSpread_]: the inputs object it was constructed on and its
    internal state. *)
Record SurfaceFireSpread : Type := {
  spreadInputs_ : loc;
  spreadState_ : SurfaceFireSpreadState
}.

(** The members of [Crown] that crown.cpp reads or writes.  The pointers
    [fuelModelSet_], [crownInputs_] and [surface_] are represented by their
    pointees in [Env] below. *)
Record Crown : Type := {
  surfaceInputs_ : loc;
  crownDeepCopyOfSurfaceInputs_ : loc;
  crownFireSpread_ : SurfaceFireSpread;
  windSpeedAtTwentyFeet_ : R;
  crownFireSpreadRate_ : R;
  crownCopyOfSurfaceHeatPerUnitArea_ : R;
  crownCopyOfSurfaceFirelineIntensity_ : R;
  crownFuelLoad_ : R;
  canopyHeatPerUnitArea_ : R;
  crownFireHeatPerUnitArea_ : R;
  crownFirelineIntensity_ : R;
  crownFlameLength_ : R;
  crownCriticalFireSpreadRate_ : R;
  crownCriticalSurfaceFireIntensity_ : R;
  crownPowerOfFire_ : R;
  crownPowerOfWind_ : R;
  crownFirePowerRatio_ : R;
  crownFireActiveRatio_ : R
}.

(** An assignment to one member of a [Crown]. *)
Inductive Assignment : Type :=
| Assign_surfaceInputs_ (v : loc)
| Assign_crownFireSpread_ (v : SurfaceFireSpread)
| Assign_windSpeedAtTwentyFeet_ (v : R)
| Assign_crownFireSpreadRate_ (v : R)
| Assign_crownCopyOfSurfaceHeatPerUnitArea_ (v : R)
| Assign_crownCopyOfSurfaceFirelineIntensity_ (v : R)
| Assign_crownFuelLoad_ (v : R)
| Assign_canopyHeatPerUnitArea_ (v : R)
| Assign_crownFireHeatPerUnitArea_ (v : R)
| Assign_crownFirelineIntensity_ (v : R)
| Assign_crownFlameLength_ (v : R)
| Assign_crownCriticalFireSpreadRate_ (v : R)
| Assign_crownCriticalSurfaceFireIntensity_ (v : R)
| Assign_crownPowerOfFire_ (v : R)
| Assign_crownPowerOfWind_ (v : R)
| Assign_crownFirePowerRatio_ (v : R)
| Assign_crownFireActiveRatio_ (v : R).

(** [assign a this] is [this] after the assignment [a]. *)
Definition assign (a : Assignment) (this : Crown) : Crown :=
  {| surfaceInputs_ := match a with Assign_surfaceInputs_ v => v | _ => surfaceInputs_ this end;
     crownDeepCopyOfSurfaceInputs_ := crownDeepCopyOfSurfaceInputs_ this;
     crownFireSpread_ :=
       match a with Assign_crownFireSpread_ v => v | _ => crownFireSpread_ this end;
     windSpeedAtTwentyFeet_ :=
       match a with Assign_windSpeedAtTwentyFeet_ v => v | _ => windSpeedAtTwentyFeet_ this end;
     crownFireSpreadRate_ :=
       match a with Assign_crownFireSpreadRate_ v => v | _ => crownFireSpreadRate_ this end;
     crownCopyOfSurfaceHeatPerUnitArea_ :=
       match a with Assign_crownCopyOfSurfaceHeatPerUnitArea_ v => v
       | _ => crownCopyOfSurfaceHeatPerUnitArea_ this end;
     crownCopyOfSurfaceFirelineIntensity_ :=
       match a with Assign_crownCopyOfSurfaceFirelineIntensity_ v => v
       | _ => crownCopyOfSurfaceFirelineIntensity_ this end;
     crownFuelLoad_ := match a with Assign_crownFuelLoad_ v => v | _ => crownFuelLoad_ this end;
     canopyHeatPerUnitArea_ :=
       match a with Assign_canopyHeatPerUnitArea_ v => v | _ => canopyHeatPerUnitArea_ this end;
     crownFireHeatPerUnitArea_ :=
       match a with Assign_crownFireHeatPerUnitArea_ v => v
       | _ => crownFireHeatPerUnitArea_ this end;
     crownFirelineIntensity_ :=
       match a with Assign_crownFirelineIntensity_ v => v | _ => crownFirelineIntensity_ this end;
     crownFlameLength_ :=
       match a with Assign_crownFlameLength_ v => v | _ => crownFlameLength_ this end;
     crownCriticalFireSpreadRate_ :=
       match a with Assign_crownCriticalFireSpreadRate_ v => v
       | _ => crownCriticalFireSpreadRate_ this end;
     crownCriticalSurfaceFireIntensity_ :=
       match a with Assign_crownCriticalSurfaceFireIntensity_ v => v
       | _ => crownCriticalSurfaceFireIntensity_ this end;
     crownPowerOfFire_ :=
       match a with Assign_crownPowerOfFire_ v => v | _ => crownPowerOfFire_ this end;
     crownPowerOfWind_ :=
       match a with Assign_crownPowerOfWind_ v => v | _ => crownPowerOfWind_ this end;
     crownFirePowerRatio_ :=
       match a with Assign_crownFirePowerRatio_ v => v | _ => crownFirePowerRatio_ this end;
     crownFireActiveRatio_ :=
       match a with Assign_crownFireActiveRatio_ v => v | _ => crownFireActiveRatio_ this end |}.

(** [with_m v this] is [this] with the member [m] set to [v]. *)
Definition with_surfaceInputs_ (v : loc) (this : Crown) : Crown :=
  assign (Assign_surfaceInputs_ v) this.
Definition with_crownFireSpread_ (v : SurfaceFireSpread) (this : Crown) : Crown :=
  assign (Assign_crownFireSpread_ v) this.
Definition with_windSpeedAtTwentyFeet_ (v : R) (this : Crown) : Crown :=
  assign (Assign_windSpeedAtTwentyFeet_ v) this.
Definition with_crownFireSpreadRate_ (v : R) (this : Crown) : Crown :=
  assign (Assign_crownFireSpreadRate_ v) this.
Definition with_crownCopyOfSurfaceHeatPerUnitArea_ (v : R) (this : Crown) : Crown :=
  assign (Assign_crownCopyOfSurfaceHeatPerUnitArea_ v) this.
Definition with_crownCopyOfSurfaceFirelineIntensity_ (v : R) (this : Crown) : Crown :=
  assign (Assign_crownCopyOfSurfaceFirelineIntensity_ v) this.
Definition with_crownFuelLoad_ (v : R) (this : Crown) : Crown :=
  assign (Assign_crownFuelLoad_ v) this.
Definition with_canopyHeatPerUnitArea_ (v : R) (this : Crown) : Crown :=
  assign (Assign_canopyHeatPerUnitArea_ v) this.
Definition with_crownFireHeatPerUnitArea_ (v : R) (this : Crown) : Crown :=
  assign (Assign_crownFireHeatPerUnitArea_ v) this.
Definition with_crownFirelineIntensity_ (v : R) (this : Crown) : Crown :=
  assign (Assign_crownFirelineIntensity_ v) this.
Definition with_crownFlameLength_ (v : R) (this : Crown) : Crown :=
  assign (Assign_crownFlameLength_ v) this.
Definition with_crownCriticalFireSpreadRate_ (v : R) (this : Crown) : Crown :=
  assign (Assign_crownCriticalFireSpreadRate_ v) this.
Definition with_crownCriticalSurfaceFireIntensity_ (v : R) (this : Crown) : Crown :=
  assign (Assign_crownCriticalSurfaceFireIntensity_ v) this.
Definition with_crownPowerOfFire_ (v : R) (this : Crown) : Crown :=
  assign (Assign_crownPowerOfFire_ v) this.
Definition with_crownPowerOfWind_ (v : R) (this : Crown) : Crown :=
  assign (Assign_crownPowerOfWind_ v) this.
Definition with_crownFirePowerRatio_ (v : R) (this : Crown) : Crown :=
  assign (Assign_crownFirePowerRatio_ v) this.
Definition with_crownFireActiveRatio_ (v : R) (this : Crown) : Crown :=
  assign (Assign_crownFireActiveRatio_ v) this.
(** The pointees of [fuelModelSet_], [crownInputs_] and [surface_]. *)
Record Env : Type := {
  fuelModelSet : FuelModelSet;
  crownInputs : CrownInputs;
  surface : Surface.Surface
}.

(** *** The monad of [Crown]'s methods

    A method reads the environment, updates [this] and the store, and fails
    when it dereferences an address that holds no object. *)

Definition M (A : Type) : Type :=
  Env -> Crown -> store -> option (A * Crown * store).

Definition ret {A : Type} (a : A) : M A :=
  fun _ this h => Some (a, this, h).

Definition bind {A B : Type} (m : M A) (k : A -> M B) : M B :=
  fun env this h =>
    match m env this h with
    | Some (a, this', h') => k a env this' h'
    | None => None
    end.

Definition ask : M Env := fun env this h => Some (env, this, h).

Definition get : M Crown := fun _ this h => Some (this, this, h).

Definition modify (f : Crown -> Crown) : M unit := fun _ this h => Some (tt, f this, h).

(** [*p] for reading. *)
Definition deref (p : loc) : M SurfaceInputs :=
  fun _ this h =>
    match h !! p with
    | Some obj => Some (obj, this, h)
    | None => None
    end.

(** A mutating method call on the object at [p]. *)
Definition update (p : loc) (method : SurfaceInputs -> SurfaceInputs) : M unit :=
  fun _ this h =>
    match h !! p with
    | Some obj => Some (tt, this, <[p := method obj]> h)
    | None => None
    end.

(** Construction of an object at [p]. *)
Definition construct (p : loc) (obj : SurfaceInputs) : M unit :=
  fun _ this h => Some (tt, this, <[p := obj]> h).

Notation "x <- m ;; k" := (bind m (fun x => k))
  (at level 100, m at level 99, right associativity).
Notation "m ;; k" := (bind m (fun _ => k))
  (at level 100, right associativity).

(** A call on the member [crownDeepCopyOfSurfaceInputs_]. *)
Definition onDeepCopy (method : SurfaceInputs -> SurfaceInputs) : M unit :=
  this <- get ;;
  update (crownDeepCopyOfSurfaceInputs_ this) method.

(** [crownFireSpread_.calculateForwardSpreadRate()]: the spread model runs on
    the inputs object it refers to. *)
Definition crownFireSpread_calculateForwardSpreadRate : M R :=
  env <- ask ;;
  this <- get ;;
  inputs <- deref (spreadInputs_ (crownFireSpread_ this)) ;;
  let '(spreadRate, state) :=
    SurfaceFireSpread_calculateForwardSpreadRate (fuelModelSet env) inputs
      (spreadState_ (crownFireSpread_ this)) in
  modify (with_crownFireSpread_
            {| spreadInputs_ := spreadInputs_ (crownFireSpread_ this);
               spreadState_ := state |}) ;;
  ret spreadRate.

(** [Crown::calculateWindSpeedAtTwentyFeet] *)
Definition calculateWindSpeedAtTwentyFeet : M R :=
  modify (with_windSpeedAtTwentyFeet_ (-1)) ;; (* If negative 1 is returned, there is an error *)
  this <- get ;;
  surfaceInputs <- deref (surfaceInputs_ this) ;;
  let windHeightInputMode := SurfaceInputs.getWindHeightInputMode surfaceInputs in
  match windHeightInputMode with
  | TwentyFoot =>
      modify (with_windSpeedAtTwentyFeet_ (SurfaceInputs.getWindSpeed surfaceInputs))
  | TenMeter =>
      let windSpeedAtTenMeters := SurfaceInputs.getWindSpeed surfaceInputs in
      modify (with_windSpeedAtTwentyFeet_
                (WindSpeedUtility_windSpeedAtTwentyFeetFromTenMeter windSpeedAtTenMeters))
  | DirectMidflame => ret tt
  end ;;
  this <- get ;;
  ret (windSpeedAtTwentyFeet_ this).

(** [Crown::calculateCanopyHeatPerUnitArea] *)
Definition calculateCanopyHeatPerUnitArea : M unit :=
  let LOW_HEAT_OF_COMBUSTION := 8000 in
  modify (fun this =>
    with_canopyHeatPerUnitArea_ (crownFuelLoad_ this * LOW_HEAT_OF_COMBUSTION) this).

(** [Crown::calculateCrownFireHeatPerUnitArea] *)
Definition calculateCrownFireHeatPerUnitArea : M unit :=
  modify (fun this =>
    with_crownFireHeatPerUnitArea_
      (crownCopyOfSurfaceHeatPerUnitArea_ this + canopyHeatPerUnitArea_ this) this).

(** [Crown::calculateCrownFuelLoad] *)
Definition calculateCrownFuelLoad : M unit :=
  env <- ask ;;
  this <- get ;;
  let canopyBulkDensity := CrownInputs_getCanopyBulkDensity (crownInputs env) in
  let canopyBaseHeight := CrownInputs_getCanopyBaseHeight (crownInputs env) in
  surfaceInputs <- deref (surfaceInputs_ this) ;;
  let canopyHeight := SurfaceInputs.getCanopyHeight surfaceInputs in
  modify (with_crownFuelLoad_ (canopyBulkDensity * (canopyHeight - canopyBaseHeight))).

(** [Crown::calculateCrownFireTransitionRatio] *)
Definition calculateCrownFireTransitionRatio : M R :=
  this <- get ;;
  let crownFireTransitionRatio :=
    if Rlt_dec (crownCriticalSurfaceFireIntensity_ this) 1e-7
    then 0
    else crownCopyOfSurfaceFirelineIntensity_ this / crownCriticalSurfaceFireIntensity_ this in
  ret crownFireTransitionRatio.

(** [Crown::calculateCrownFirelineIntensity] *)
Definition calculateCrownFirelineIntensity : M unit :=
  modify (fun this =>
    with_crownFirelineIntensity_
      ((crownFireSpreadRate_ this / 60) * crownFireHeatPerUnitArea_ this) this).

(** [Crown::calculateCrownCriticalSurfaceFireIntensity] *)
Definition calculateCrownCriticalSurfaceFireIntensity : M R :=
  let KILOWATTS_PER_METER_TO_BTUS_PER_FOOT_PER_SECOND := 0.288672 in
  let FEET_TO_METERS := 0.3048 in
  env <- ask ;;
  let foliarMoisture := CrownInputs_getFoliarMoisture (crownInputs env) in
  (* constrain lower limit *)
  let foliarMoisture := if Rlt_dec foliarMoisture 30 then 30 else foliarMoisture in
  let crownBaseHeight := CrownInputs_getCanopyBaseHeight (crownInputs env) in
  (* Convert crown base height to meters and constrain lower limit *)
  let crownBaseHeight := crownBaseHeight * FEET_TO_METERS in
  let crownBaseHeight := if Rlt_dec crownBaseHeight 0.1 then 0.1 else crownBaseHeight in
  (* Critical surface fireline intensity (kW/m) *)
  modify (with_crownCriticalSurfaceFireIntensity_
            (pow (0.01 * crownBaseHeight * (450 + 25.9 * foliarMoisture)) 1.5)) ;;
  (* Return as Btu/ft/s *)
  modify (fun this =>
    with_crownCriticalSurfaceFireIntensity_
      (crownCriticalSurfaceFireIntensity_ this
       * KILOWATTS_PER_METER_TO_BTUS_PER_FOOT_PER_SECOND) this) ;;
  this <- get ;;
  ret (crownCriticalSurfaceFireIntensity_ this).

(** [Crown::calculateCrownCriticalSurfaceFlameLength] *)
Definition calculateCrownCriticalSurfaceFlameLength : M R :=
  this <- get ;;
  let criticalSurfaceFlameLength :=
    SurfaceFireSpread_calculateFlameLength (spreadState_ (crownFireSpread_ this))
      (crownCriticalSurfaceFireIntensity_ this) in
  ret criticalSurfaceFlameLength.

(** [Crown::calculateCrownFlameLength] *)
Definition calculateCrownFlameLength : M R :=
  modify (fun this =>
    with_crownFlameLength_ (0.2 * pow (crownFirelineIntensity_ this) (2 / 3)) this) ;;
  this <- get ;;
  ret (crownFlameLength_ this).

(** [Crown::calculateCrownPowerOfFire] *)
Definition calculateCrownPowerOfFire : M unit :=
  modify (fun this => with_crownPowerOfFire_ (crownFirelineIntensity_ this / 129) this).

(** [Crown::calcuateCrownPowerOfWind] *)
Definition calcuateCrownPowerOfWind : M unit :=
  let MILES_PER_HOUR_TO_FEET_PER_MINUTE := 5280 / 60 in
  let SECONDS_PER_MINUTE := 60 in
  windSpeedAtTwentyFeet <- calculateWindSpeedAtTwentyFeet ;;
  modify (with_windSpeedAtTwentyFeet_ windSpeedAtTwentyFeet) ;;
  this <- get ;;
  let windSpeedInFeetPerMinute :=
    windSpeedAtTwentyFeet_ this * MILES_PER_HOUR_TO_FEET_PER_MINUTE in
  (* Eq. 7, Rothermel 1991 *)
  let WindspeedMinusCrownROS :=
    (windSpeedInFeetPerMinute - crownFireSpreadRate_ this) / SECONDS_PER_MINUTE in
  let WindspeedMinusCrownROS :=
    if Rlt_dec WindspeedMinusCrownROS 1e-7 then 0 else WindspeedMinusCrownROS in
  modify (with_crownPowerOfWind_
            (0.00106 * (WindspeedMinusCrownROS * WindspeedMinusCrownROS
                        * WindspeedMinusCrownROS))).

(** [Crown::calcualteCrownFirePowerRatio] *)
Definition calcualteCrownFirePowerRatio : M R :=
  modify (fun this =>
    with_crownFirePowerRatio_
      (if Rgt_dec (crownPowerOfWind_ this) 1e-7
       then crownPowerOfFire_ this / crownPowerOfWind_ this
       else 0) this) ;;
  this <- get ;;
  ret (crownFirePowerRatio_ this).

(** [Crown::calculateCrownCriticalFireSpreadRate] *)
Definition calculateCrownCriticalFireSpreadRate : M R :=
  env <- ask ;;
  let canopyBulkDensity := CrownInputs_getCanopyBulkDensity (crownInputs env) in
  let LBS_PER_CUBIC_FOOT_TO_KG_PER_CUBIC_METER := 16.0185 in
  (* Convert to Kg/m3 *)
  let convertedBulkDensity := LBS_PER_CUBIC_FOOT_TO_KG_PER_CUBIC_METER * canopyBulkDensity in
  modify (with_crownCriticalFireSpreadRate_
            (if Rlt_dec convertedBulkDensity 1e-7 then 0 else 3 / convertedBulkDensity)) ;;
  let METERS_PER_MIN_TO_FEET_PER_MIN := 3.28084 in
  (* Convert to ft/min *)
  modify (fun this =>
    with_crownCriticalFireSpreadRate_
      (crownCriticalFireSpreadRate_ this * METERS_PER_MIN_TO_FEET_PER_MIN) this) ;;
  this <- get ;;
  ret (crownCriticalFireSpreadRate_ this).

(** [Crown::calculateCrownFireActiveRatio] *)
Definition calculateCrownFireActiveRatio : M R :=
  modify (fun this =>
    with_crownFireActiveRatio_
      (if Rlt_dec (crownCriticalFireSpreadRate_ this) 1e-7
       then 0
       else crownFireSpreadRate_ this / crownCriticalFireSpreadRate_ this) this) ;;
  this <- get ;;
  ret (crownFireActiveRatio_ this).

(** [Crown::calculateCrownFireSpreadRate] *)
Definition calculateCrownFireSpreadRate : M R :=
  (* Step 1: Create the crown fuel model (fire behavior fuel model 10) *)
  onDeepCopy (SurfaceInputs.setFuelModelNumber 10) ;;
  onDeepCopy (SurfaceInputs.setSlopeInBaseUnits 0) ;;
  onDeepCopy (SurfaceInputs.setWindDirection 0) ;;
  let windAdjustmentFactor := 0.4 in
  windSpeedAtTwentyFeet <- calculateWindSpeedAtTwentyFeet ;;
  modify (with_windSpeedAtTwentyFeet_ windSpeedAtTwentyFeet) ;;
  this <- get ;;
  let midflameWindSpeed := windAdjustmentFactor * windSpeedAtTwentyFeet_ this in
  onDeepCopy (SurfaceInputs.setWindSpeedInBaseUnits midflameWindSpeed) ;;
  (* Step 2: Determine fire behavior. *)
  forwardSpreadRate <- crownFireSpread_calculateForwardSpreadRate ;;
  modify (with_crownFireSpreadRate_ (3.34 * forwardSpreadRate)) ;; (* Rothermel 1991 *)
  (* Step 3: Get values from Surface needed for further calculations *)
  env <- ask ;;
  modify (with_crownCopyOfSurfaceHeatPerUnitArea_ (Surface.getHeatPerUnitArea (surface env))) ;;
  modify (with_crownCopyOfSurfaceFirelineIntensity_
            (Surface.getFirelineIntensity (surface env))) ;;
  (* Step 4: Calculate remaining crown fire characteristics *)
  calculateCrownFuelLoad ;;
  calculateCanopyHeatPerUnitArea ;;
  calculateCrownFireHeatPerUnitArea ;;
  calculateCrownFirelineIntensity ;;
  calculateCrownFlameLength ;;
  calculateCrownCriticalFireSpreadRate ;;
  calculateCrownCriticalSurfaceFireIntensity ;;
  calculateCrownCriticalSurfaceFlameLength ;;
  calculateCrownPowerOfFire ;;
  calcuateCrownPowerOfWind ;;
  this <- get ;;
  ret (crownFireSpreadRate_ this).

(** [Crown::Crown(fuelModelSet, crownInputs, surfaceInputs, surface)].

    Before the body runs, the members are constructed: the deep copy by
    [SurfaceInputs()] and [crownFireSpread_] on a reference to it.  The body
    stores the pointers and assigns the caller's inputs to the deep copy with
    [SurfaceInputs::operator=], which copies unless source and target are the
    same object.  [this] arrives with the address of its member and
    indeterminate numbers; the state in which the constructor of the spread
    model (surfaceFireSpread.h) leaves it is the parameter [spreadState]. *)
Definition constructor (surfaceInputs : loc) (spreadState : SurfaceFireSpreadState)
    : M unit :=
  this <- get ;;
  let deepCopy := crownDeepCopyOfSurfaceInputs_ this in
  construct deepCopy (SurfaceInputs.initializeMembers) ;;
  modify (with_crownFireSpread_ {| spreadInputs_ := deepCopy; spreadState_ := spreadState |}) ;;
  modify (with_surfaceInputs_ surfaceInputs) ;;
  rhs <- deref surfaceInputs ;;
  if decide (deepCopy = surfaceInputs)
  then ret tt
  else update deepCopy (SurfaceInputs.memberwiseCopyAssignment rhs).

(** The synthetic crown scenario: [inputs] with the four overrides of
    [calculateCrownFireSpreadRate]. *)
Definition crownScenario (inputs : SurfaceInputs) (midflameWindSpeed : R) : SurfaceInputs :=
  with_windSpeed_ midflameWindSpeed
    (with_windDirection_ 0 (with_slope_ 0 (with_fuelModelNumber_ 10 inputs))).

(** The twenty-foot wind speed that [inputs] stand for. *)
Definition windSpeedAtTwentyFeet (inputs : SurfaceInputs) : R :=
  match windHeightInputMode_ inputs with
  | TwentyFoot => windSpeed_ inputs
  | TenMeter => WindSpeedUtility_windSpeedAtTwentyFeetFromTenMeter (windSpeed_ inputs)
  | DirectMidflame => -1
  end.

(** What the constructor establishes and every run keeps: the caller's
    object and the deep copy are two objects of the store, and the spread
    model refers to the deep copy. *)
Definition invariant (this : Crown) (h : store) : Prop :=
  surfaceInputs_ this <> crownDeepCopyOfSurfaceInputs_ this
  /\ spreadInputs_ (crownFireSpread_ this) = crownDeepCopyOfSurfaceInputs_ this
  /\ is_Some (h !! surfaceInputs_ this)
  /\ is_Some (h !! crownDeepCopyOfSurfaceInputs_ this).

(** A computation that, whenever it succeeds, keeps the address of the deep
    copy and leaves every other object of the store as it was. *)
Definition writesOnlyDeepCopy {A : Type} (m : M A) : Prop :=
  forall env this h a this' h',
    m env this h = Some (a, this', h') ->
    crownDeepCopyOfSurfaceInputs_ this' = crownDeepCopyOfSurfaceInputs_ this
    /\ forall q : loc, q <> crownDeepCopyOfSurfaceInputs_ this -> h' !! q = h !! q.

End Methods.

End Crown.

(** ** One instance of every interface

    Concrete stand-ins for the code outside the embedded files, used to
    exhibit runs of the model on explicit inputs.  The conversion factors are
    the ones crown.cpp and surface.cpp spell out (0.3048 m per ft,
    0.288672 Btu/ft/s per kW/m, 5280/60 ft/min per mi/h, 1.15 between the
    ten-metre and the twenty-foot wind). *)

Inductive ExampleLength : Type := Feet | Meters.
Inductive ExampleIntensity : Type := BtusPerFootPerSecond | KilowattsPerMeter.
Inductive ExampleSpeed : Type := FeetPerMinute | MilesPerHour.
Inductive ExampleRatio : Type := Fraction | Percent.

Definition exampleUnits : UnitConversions :=
  {| SlopeUnitsEnum := unit;
     SlopeUnits_toBaseUnits := fun x _ => x;
     MoistureUnitsEnum := ExampleRatio;
     MoistureUnits_toBaseUnits :=
       fun x u => match u with Fraction => x | Percent => x / 100 end;
     SpeedUnitsEnum := ExampleSpeed;
     SpeedUnits_toBaseUnits :=
       fun x u => match u with FeetPerMinute => x | MilesPerHour => x * (5280 / 60) end;
     CoverUnitsEnum := ExampleRatio;
     CoverUnits_toBaseUnits :=
       fun x u => match u with Fraction => x | Percent => x / 100 end;
     LengthUnitsEnum := ExampleLength;
     LengthUnits_toBaseUnits :=
       fun x u => match u with Feet => x | Meters => x / 0.3048 end;
     LengthUnits_fromBaseUnits :=
       fun x u => match u with Feet => x | Meters => x * 0.3048 end;
     FirelineIntensityUnitsEnum := ExampleIntensity;
     FirelineIntensityUnits_toBaseUnits :=
       fun x u => match u with BtusPerFootPerSecond => x | KilowattsPerMeter => x * 0.288672 end
  |}.

Definition exampleScenarios : MoistureScenarios :=
  {| getMoistureScenarioOneHourByIndex := fun _ => 0.06;
     getMoistureScenarioTenHourByIndex := fun _ => 0.07;
     getMoistureScenarioHundredHourByIndex := fun _ => 0.08;
     getMoistureScenarioLiveHerbaceousByIndex := fun _ => 0.60;
     getMoistureScenarioLiveWoodyByIndex := fun _ => 0.90 |}.

(** A catalogue in which fuel model 0 is the empty, undefined one. *)
Definition exampleCatalogue : FuelCatalogue :=
  {| FuelModels := unit;
     FuelModels_isAllFuelLoadZero := fun _ n => (n =? 0)%Z;
     FuelModels_isFuelModelDefined := fun _ n => negb (n =? 0)%Z |}.

(** A spread model that leaves [SurfaceFire] as it finds it: what a run
    computes is beside the point where only the call it makes matters. *)
Definition exampleRothermel : @RothermelModel exampleCatalogue :=
  {| SurfaceFire_calculateForwardSpreadRate := fun _ _ _ _ _ _ surfaceFire => surfaceFire;
     SurfaceTwoFuelModels_calculateWeightedSpreadRate :=
       fun _ _ _ _ _ _ _ _ _ surfaceFire => surfaceFire |}.

(** A crown spread model without internal state whose spread rate is the
    midflame wind speed of the inputs it is run on. *)
Definition exampleSpread : SpreadModel :=
  {| FuelModelSet := unit;
     SurfaceFireSpreadState := unit;
     SurfaceFireSpread_calculateForwardSpreadRate :=
       fun _ inputs state => (windSpeed_ inputs, state);
     SurfaceFireSpread_calculateFlameLength := fun _ intensity => intensity;
     WindSpeedUtility_windSpeedAtTwentyFeetFromTenMeter := fun w => w / 1.15 |}.

(** *** Example objects *)

Section ExampleObjects.

#[local] Existing Instance exampleUnits.
#[local] Existing Instance exampleScenarios.
#[local] Existing Instance exampleCatalogue.
#[local] Existing Instance exampleRothermel.
#[local] Existing Instance exampleSpread.

(** Inputs of a caller: fuel model 4, a wind of 5 mi/h measured at twenty
    feet, a canopy 30 ft high. *)
Definition exampleInputs : SurfaceInputs :=
  SurfaceInputs.setCanopyHeight (units := exampleUnits) 30 Feet
    (SurfaceInputs.setWindSpeed (units := exampleUnits) 5 MilesPerHour TwentyFoot
       (SurfaceInputs.setFuelModelNumber 4 SurfaceInputs.initializeMembers)).

(** A [SurfaceFire] after some earlier run. *)
Definition exampleSurfaceFire : SurfaceFire :=
  {| spreadRate_ := 7;
     spreadRateInDirectionOfInterest_ := 7;
     directionOfMaxSpread_ := 0;
     firelineIntensity_ := 100;
     flameLength_ := 4;
     heatPerUnitArea_ := 900;
     residenceTime_ := 0.2;
     reactionIntensity_ := 4500 |}.

(** A [Surface] on the empty fuel model 0 (the default inputs). *)
Definition emptyFuelSurface : Surface.Surface :=
  {| Surface.fuelModels_ := tt;
     Surface.surfaceInputs_ := SurfaceInputs.initializeMembers;
     Surface.surfaceFire_ := exampleSurfaceFire |}.

(** The same with chaparral switched on, and with two fuel models in use. *)
Definition chaparralSurface : Surface.Surface :=
  Surface.with_surfaceInputs_
    (SurfaceInputs.setIsUsingChaparral true SurfaceInputs.initializeMembers) emptyFuelSurface.

Definition twoFuelModelsSurface : Surface.Surface :=
  Surface.with_surfaceInputs_
    (with_isUsingTwoFuelModels_ true SurfaceInputs.initializeMembers) emptyFuelSurface.

(** Canopy inputs below both floors of the critical-intensity formula. *)
Definition exampleCrownInputs : CrownInputs :=
  {| canopyBaseHeight_ := 0.05; canopyBulkDensity_ := 0.03; foliarMoisture_ := 20 |}.

Definition exampleEnv : Crown.Env :=
  {| Crown.fuelModelSet := tt;
     Crown.crownInputs := exampleCrownInputs;
     Crown.surface := Surface.with_surfaceInputs_ exampleInputs emptyFuelSurface |}.

(** A [Crown] before construction: its member lives at address 2. *)
Definition rawCrown : Crown.Crown :=
  {| Crown.surfaceInputs_ := 2%positive;
     Crown.crownDeepCopyOfSurfaceInputs_ := 2%positive;
     Crown.crownFireSpread_ := {| Crown.spreadInputs_ := 1%positive; Crown.spreadState_ := tt |};
     Crown.windSpeedAtTwentyFeet_ := 0;
     Crown.crownFireSpreadRate_ := 1;
     Crown.crownCopyOfSurfaceHeatPerUnitArea_ := 0;
     Crown.crownCopyOfSurfaceFirelineIntensity_ := 0;
     Crown.crownFuelLoad_ := 0;
     Crown.canopyHeatPerUnitArea_ := 0;
     Crown.crownFireHeatPerUnitArea_ := 0;
     Crown.crownFirelineIntensity_ := 0;
     Crown.crownFlameLength_ := 0;
     Crown.crownCriticalFireSpreadRate_ := 0;
     Crown.crownCriticalSurfaceFireIntensity_ := 0;
     Crown.crownPowerOfFire_ := 0;
     Crown.crownPowerOfWind_ := 0;
     Crown.crownFirePowerRatio_ := 0;
     Crown.crownFireActiveRatio_ := 0 |}.

(** The same after construction on the caller's inputs at address 1. *)
Definition builtCrown : Crown.Crown :=
  Crown.with_surfaceInputs_ 1%positive
    (Crown.with_crownFireSpread_
       {| Crown.spreadInputs_ := 2%positive; Crown.spreadState_ := tt |} rawCrown).

Definition callerStore : gmap positive SurfaceInputs := {[ 1%positive := exampleInputs ]}.

Definition builtStore : gmap positive SurfaceInputs :=
  <[ 2%positive := exampleInputs ]> callerStore.

End ExampleObjects.

(** *** Instances of the further interfaces *)

Inductive ExampleTemperature : Type := Fahrenheit | Celsius.

Definition exampleGetterUnits : @GetterUnitConversions exampleUnits :=
  {| MoistureUnits_fromBaseUnits :=
       fun x (u : @MoistureUnitsEnum exampleUnits) =>
         match u with Fraction => x | Percent => x * 100 end;
     SpeedUnits_fromBaseUnits :=
       fun x (u : @SpeedUnitsEnum exampleUnits) =>
         match u with FeetPerMinute => x | MilesPerHour => x / (5280 / 60) end;
     SpeedUnits_MilesPerHour := MilesPerHour;
     TemperatureUnitsEnum := ExampleTemperature;
     TemperatureUnits_toBaseUnits :=
       fun x u => match u with Fahrenheit => x | Celsius => x * 9 / 5 + 32 end |}.

(** A table of three scenarios, at the indices 0, 1 and 2. *)
Definition exampleDirectory : MoistureScenarioDirectory :=
  {| getIsMoistureScenarioDefinedByIndex := fun i => (0 <=? i)%Z && (i <? 3)%Z |}.

(** Loads of a grass model: one-hour and live herbaceous fuel only. *)
Definition exampleLoads : @FuelLoads exampleCatalogue :=
  {| LoadingUnitsEnum := unit;
     LoadingUnits_PoundsPerSquareFoot := tt;
     FuelModels_getFuelLoadOneHour := fun _ n _ => if (n =? 0)%Z then 0 else 0.034;
     FuelModels_getFuelLoadTenHour := fun _ _ _ => 0;
     FuelModels_getFuelLoadHundredHour := fun _ _ _ => 0;
     FuelModels_getFuelLoadLiveHerbaceous := fun _ n _ => if (n =? 0)%Z then 0 else 0.023;
     FuelModels_getFuelLoadLiveWoody := fun _ _ _ => 0 |}.

(** A surface fire whose midflame wind speed is 176 ft/min (2 mi/h) under a
    wind adjustment factor of 0.4. *)
Definition exampleWind : @SurfaceFireWind exampleCatalogue :=
  {| SurfaceFire_calculateMidflameWindSpeed := fun _ _ surfaceFire => surfaceFire;
     SurfaceFire_getMidflameWindSpeed := fun _ => 176;
     SurfaceFire_getWindAdjustmentFactor := fun _ => 0.4 |}.

(** *** Further example objects *)

Section FurtherExampleObjects.

#[local] Existing Instance exampleUnits.
#[local] Existing Instance exampleScenarios.
#[local] Existing Instance exampleCatalogue.
#[local] Existing Instance exampleSpread.

(** Default inputs switched to scenario mode. *)
Definition scenarioInputs : SurfaceInputs :=
  SurfaceInputs.setMoistureInputMode MoistureScenario SurfaceInputs.initializeMembers.

(** The store of the constructed example after the caller has reset the
    inputs at address 1 to the defaults, whose wind is a midflame wind. *)
Definition midflameStore : gmap positive SurfaceInputs :=
  <[1%positive := SurfaceInputs.initializeMembers]> builtStore.

(** The example environment with the crown base at 10 ft and a foliar
    moisture of 100. *)
Definition tallCanopyEnv : Crown.Env :=
  {| Crown.fuelModelSet := tt;
     Crown.crownInputs :=
       {| canopyBaseHeight_ := 10; canopyBulkDensity_ := 0.03; foliarMoisture_ := 100 |};
     Crown.surface := Crown.surface exampleEnv |}.

End FurtherExampleObjects.

(** *** A spread model that reads a member the crown scenario does not
    override *)

(** Its spread rate is the one-hour moisture of the inputs it is run on. *)
Definition moistureSpread : SpreadModel :=
  {| FuelModelSet := unit;
     SurfaceFireSpreadState := unit;
     SurfaceFireSpread_calculateForwardSpreadRate :=
       fun _ inputs state => (moistureOneHour_ inputs, state);
     SurfaceFireSpread_calculateFlameLength := fun _ intensity => intensity;
     WindSpeedUtility_windSpeedAtTwentyFeetFromTenMeter := fun w => w / 1.15 |}.

Section StaleCopyObjects.

#[local] Existing Instance exampleUnits.
#[local] Existing Instance exampleScenarios.
#[local] Existing Instance exampleCatalogue.
#[local] Existing Instance moistureSpread.




End StaleCopyObjects.

(** * Properties *)

(** ** SurfaceInputs: special-fuel switches and wind direction *)

Section SurfaceInputsFacts.
Context {units : UnitConversions} {scenarios : MoistureScenarios}.

(** After [memberwiseCopyAssignment] the object agrees with [rhs] on every
    member the method assigns. *)
Lemma memberwiseCopyAssignment_assigns (rhs this : SurfaceInputs) :
  SurfaceInputs.sameAssignedMembers (SurfaceInputs.memberwiseCopyAssignment rhs this) rhs.
Proof. unfold SurfaceInputs.sameAssignedMembers. repeat split. Qed.

Lemma updateMoisturesBasedOnInputMode_windDirection (this : SurfaceInputs) :
  windDirection_ (SurfaceInputs.updateMoisturesBasedOnInputMode this) = windDirection_ this.
Proof.
  unfold SurfaceInputs.updateMoisturesBasedOnInputMode.
  destruct (moistureInputMode_ this); reflexivity.
Qed.

(** The loop never leaves a value of 360 or more. *)
Lemma subtractFullTurns_lt_360 (windDirection : R) :
  SurfaceInputs.subtractFullTurns windDirection < 360.
Proof.
  funelim (SurfaceInputs.subtractFullTurns windDirection); [assumption | lra].
Qed.

(** It does nothing below 360, so a negative value stays negative. *)
Lemma subtractFullTurns_below_360 (windDirection : R) :
  windDirection < 360 -> SurfaceInputs.subtractFullTurns windDirection = windDirection.
Proof.
  intros Hlt. rewrite SurfaceInputs.subtractFullTurns_equation_1.
  destruct (Rle_dec 360 windDirection); [lra | reflexivity].
Qed.

Lemma subtractFullTurns_nonneg (windDirection : R) :
  0 <= windDirection -> 0 <= SurfaceInputs.subtractFullTurns windDirection.
Proof.
  funelim (SurfaceInputs.subtractFullTurns windDirection); intros Hge.
  - match goal with IH : _ -> 0 <= _ |- _ => apply IH end. lra.
  - assumption.
Qed.

(** What [updateSurfaceInputs] stores as wind direction. *)
Lemma updateSurfaceInputs_windDirection
    fuelModelNumber moistureOneHour moistureTenHour moistureHundredHour
    moistureLiveHerbaceous moistureLiveWoody moistureUnits windSpeed windSpeedUnits
    windHeightInputMode windDirection windAndSpreadOrientationMode slope slopeUnits aspect
    canopyCover coverUnits canopyHeight canopyHeightUnits crownRatio this :
  windDirection_
    (SurfaceInputs.updateSurfaceInputs fuelModelNumber moistureOneHour moistureTenHour
       moistureHundredHour moistureLiveHerbaceous moistureLiveWoody moistureUnits windSpeed
       windSpeedUnits windHeightInputMode windDirection windAndSpreadOrientationMode slope
       slopeUnits aspect canopyCover coverUnits canopyHeight canopyHeightUnits crownRatio this)
  = SurfaceInputs.subtractFullTurns
      (if Rlt_dec windDirection 0 then windDirection + 360 else windDirection).
Proof. reflexivity. Qed.

End SurfaceInputsFacts.

(** ** SurfaceInputs: the special-fuel switches *)

(** C7.  From a state in which at most one of the special-fuel flags
    [isUsingPalmettoGallberry_], [isUsingWesternAspen_], [isUsingChaparral_]
    is set, each of the three setters, called with any boolean, leaves at most
    one of them set; and switching one on leaves the other two off, whatever
    the state before. *)
Theorem special_fuel_flags_mutually_exclusive (this : SurfaceInputs) (flag : bool) :
  (SurfaceInputs.specialFuelCount this <= 1)%nat ->
  ((SurfaceInputs.specialFuelCount (SurfaceInputs.setIsUsingPalmettoGallberry flag this) <= 1)%nat
   /\ (SurfaceInputs.specialFuelCount (SurfaceInputs.setIsUsingWesternAspen flag this) <= 1)%nat
   /\ (SurfaceInputs.specialFuelCount (SurfaceInputs.setIsUsingChaparral flag this) <= 1)%nat)
  /\ (let after := SurfaceInputs.setIsUsingPalmettoGallberry true this in
      isUsingPalmettoGallberry_ after = true
      /\ isUsingWesternAspen_ after = false /\ isUsingChaparral_ after = false)
  /\ (let after := SurfaceInputs.setIsUsingWesternAspen true this in
      isUsingWesternAspen_ after = true
      /\ isUsingPalmettoGallberry_ after = false /\ isUsingChaparral_ after = false)
  /\ (let after := SurfaceInputs.setIsUsingChaparral true this in
      isUsingChaparral_ after = true
      /\ isUsingPalmettoGallberry_ after = false /\ isUsingWesternAspen_ after = false).
Proof.
  unfold SurfaceInputs.specialFuelCount, SurfaceInputs.setIsUsingPalmettoGallberry,
    SurfaceInputs.setIsUsingWesternAspen, SurfaceInputs.setIsUsingChaparral.
  intros Hone. split; [| repeat split].
  destruct flag; simpl;
    destruct (isUsingPalmettoGallberry_ this), (isUsingWesternAspen_ this),
      (isUsingChaparral_ this); simpl in *; repeat split; lia.
Qed.

(** The theorem at work: chaparral is on, then palmetto-gallberry is
    switched on. *)
Lemma special_fuel_flags_witness :
  let this := SurfaceInputs.setIsUsingChaparral true SurfaceInputs.initializeMembers in
  (SurfaceInputs.specialFuelCount this <= 1)%nat
  /\ (SurfaceInputs.specialFuelCount (SurfaceInputs.setIsUsingPalmettoGallberry true this) <= 1)%nat
  /\ isUsingChaparral_ (SurfaceInputs.setIsUsingPalmettoGallberry true this) = false.
Proof.
  intros this.
  assert (Hone : (SurfaceInputs.specialFuelCount this <= 1)%nat) by (vm_compute; lia).
  split; [exact Hone |].
  destruct (special_fuel_flags_mutually_exclusive this true Hone)
    as [[Hcount _] [[_ [_ Hchaparral]] _]].
  split; [exact Hcount | exact Hchaparral].
Defined.

(** ** SurfaceInputs: the stored wind direction *)

Section WindDirection.
Context {units : UnitConversions} {scenarios : MoistureScenarios}.

(** X1.  For an argument of at least -360 degrees and below 2^62,
    [updateSurfaceInputs] stores a wind direction in [0, 360).  (From 2^62
    up the loop of the source does not end on doubles; see
    [subtractFullTurns].) *)
Theorem updateSurfaceInputs_normalizes_from_minus_360
    fuelModelNumber moistureOneHour moistureTenHour moistureHundredHour
    moistureLiveHerbaceous moistureLiveWoody moistureUnits windSpeed windSpeedUnits
    windHeightInputMode windDirection windAndSpreadOrientationMode slope slopeUnits aspect
    canopyCover coverUnits canopyHeight canopyHeightUnits crownRatio this :
  -360 <= windDirection < 2 ^ 62 ->
  let stored :=
    windDirection_
      (SurfaceInputs.updateSurfaceInputs fuelModelNumber moistureOneHour moistureTenHour
         moistureHundredHour moistureLiveHerbaceous moistureLiveWoody moistureUnits windSpeed
         windSpeedUnits windHeightInputMode windDirection windAndSpreadOrientationMode slope
         slopeUnits aspect canopyCover coverUnits canopyHeight canopyHeightUnits crownRatio
         this) in
  0 <= stored < 360.
Proof.
  intros [Hge _] stored. subst stored. rewrite updateSurfaceInputs_windDirection.
  split; [| apply subtractFullTurns_lt_360].
  apply subtractFullTurns_nonneg. destruct (Rlt_dec windDirection 0); lra.
Qed.

(** C8 (the code departs from the claim).  A wind direction below -360
    degrees gets a single turn added by [updateSurfaceInputs] and is stored
    negative: -400 is stored as -40.  [setWindDirection] stores its argument
    as it is: 400 is stored as 400.  Neither lies in [0, 360). *)
Theorem wind_direction_not_always_normalized
    fuelModelNumber moistureOneHour moistureTenHour moistureHundredHour
    moistureLiveHerbaceous moistureLiveWoody moistureUnits windSpeed windSpeedUnits
    windHeightInputMode windAndSpreadOrientationMode slope slopeUnits aspect
    canopyCover coverUnits canopyHeight canopyHeightUnits crownRatio this :
  windDirection_
    (SurfaceInputs.updateSurfaceInputs fuelModelNumber moistureOneHour moistureTenHour
       moistureHundredHour moistureLiveHerbaceous moistureLiveWoody moistureUnits windSpeed
       windSpeedUnits windHeightInputMode (-400) windAndSpreadOrientationMode slope
       slopeUnits aspect canopyCover coverUnits canopyHeight canopyHeightUnits crownRatio this)
  = -40
  /\ windDirection_ (SurfaceInputs.setWindDirection 400 this) = 400.
Proof.
  split; [| reflexivity].
  rewrite updateSurfaceInputs_windDirection.
  destruct (Rlt_dec (-400) 0) as [_ | Hge]; [| lra].
  replace (-400 + 360) with (-40) by lra.
  apply subtractFullTurns_below_360. lra.
Qed.

End WindDirection.

(** ** Surface: the flame-length law *)

Lemma pow_positive_base (x y : R) : 0 < x -> pow x y = Rpower x y.
Proof. intros Hx. unfold pow. destruct (Rlt_dec 0 x); [reflexivity | lra]. Qed.

Lemma pow_positive (x y : R) : 0 < x -> 0 < pow x y.
Proof.
  intros Hx. rewrite pow_positive_base by assumption. unfold Rpower. apply exp_pos.
Qed.

Lemma pow_monotone (x1 x2 y : R) : 0 <= y -> 0 < x1 <= x2 -> pow x1 y <= pow x2 y.
Proof.
  intros Hy [Hpos Hle]. rewrite !pow_positive_base by lra.
  apply Rle_Rpower_l; [assumption | split; assumption].
Qed.

Section FlameLength.
Context {units : UnitConversions}.

(** C3.  With the intensity given in base units (Btu/ft/s) and the flame
    length asked for in base units, [Surface::calculateFlameLength] returns 0
    below 1e-7 and 0.45 * I^0.46 from 1e-7 on; hence it is non-decreasing in
    the intensity and is 0 exactly when the intensity is below 1e-7. *)
Theorem flame_length_law
    (baseIntensity : FirelineIntensityUnitsEnum) (baseLength : LengthUnitsEnum) :
  (forall x, FirelineIntensityUnits_toBaseUnits x baseIntensity = x) ->
  (forall x, LengthUnits_fromBaseUnits x baseLength = x) ->
  let flameLength I := Surface.calculateFlameLength I baseIntensity baseLength in
  (forall I, I < 1e-7 -> flameLength I = 0)
  /\ (forall I, 1e-7 <= I -> flameLength I = 0.45 * Rpower I 0.46)
  /\ (forall I1 I2, I1 <= I2 -> flameLength I1 <= flameLength I2)
  /\ (forall I, flameLength I = 0 <-> I < 1e-7).
Proof.
  intros Hin Hout flameLength.
  assert (Hlow : forall I, I < 1e-7 -> flameLength I = 0).
  { intros I HI. unfold flameLength, Surface.calculateFlameLength.
    rewrite Hin, Hout. destruct (Rlt_dec I 1e-7); lra. }
  assert (Hhigh : forall I, 1e-7 <= I -> flameLength I = 0.45 * pow I 0.46).
  { intros I HI. unfold flameLength, Surface.calculateFlameLength.
    rewrite Hin, Hout. destruct (Rlt_dec I 1e-7); [lra | reflexivity]. }
  assert (Hpos : forall I, 1e-7 <= I -> 0 < flameLength I).
  { intros I HI. rewrite Hhigh by assumption.
    assert (0 < pow I 0.46) by (apply pow_positive; lra). lra. }
  repeat split.
  - exact Hlow.
  - intros I HI. rewrite Hhigh by assumption. rewrite pow_positive_base by lra. reflexivity.
  - intros I1 I2 Hle.
    destruct (Rlt_dec I1 1e-7) as [H1 | H1].
    + rewrite (Hlow I1 H1).
      destruct (Rlt_dec I2 1e-7) as [H2 | H2].
      * rewrite (Hlow I2 H2). lra.
      * left. apply Hpos. lra.
    + rewrite !Hhigh by lra.
      assert (pow I1 0.46 <= pow I2 0.46) by (apply pow_monotone; lra). lra.
  - intros Hzero. destruct (Rlt_dec I 1e-7) as [HI | HI]; [assumption |].
    assert (0 < flameLength I) by (apply Hpos; lra). lra.
  - apply Hlow.
Qed.

End FlameLength.

(** ** Surface: the zero-fuel-load short circuit *)

Section SurfaceRun.
Context {units : UnitConversions} {scenarios : MoistureScenarios}.
Context {catalogue : FuelCatalogue} {rothermel : RothermelModel}.

(** Refreshing the moisture array changes nothing a run branches on. *)
Lemma updateMoisturesBasedOnInputMode_frame (inputs : SurfaceInputs) :
  let inputs' := SurfaceInputs.updateMoisturesBasedOnInputMode inputs in
  fuelModelNumber_ inputs' = fuelModelNumber_ inputs
  /\ isUsingTwoFuelModels_ inputs' = isUsingTwoFuelModels_ inputs
  /\ isUsingPalmettoGallberry_ inputs' = isUsingPalmettoGallberry_ inputs
  /\ isUsingWesternAspen_ inputs' = isUsingWesternAspen_ inputs
  /\ isUsingChaparral_ inputs' = isUsingChaparral_ inputs.
Proof.
  unfold SurfaceInputs.updateMoisturesBasedOnInputMode.
  destruct (moistureInputMode_ inputs); repeat split; reflexivity.
Qed.

(** C4, as the code has it.  In a run on a single fuel model (two-fuel-models
    mode off) whose fuel model has zero load in every size class or is
    undefined:
    - in the direction of maximum spread, provided none of the special fuel
      modes (palmetto-gallberry, western aspen, chaparral) is on, and
    - in a direction of interest, whatever the special fuel modes,
    the run calls [skipCalculationForZeroLoad], not the Rothermel formulas,
    and spread rate, fireline intensity, flame length and heat per unit area
    are 0 afterwards. *)
Theorem zero_load_short_circuit (this : Surface.Surface)
    (directionOfInterest : R) (directionMode : SurfaceFireSpreadDirectionModeEnum) :
  let fuelModelNumber := fuelModelNumber_ (Surface.surfaceInputs_ this) in
  Surface.isUsingTwoFuelModels this = false ->
  Surface.isAllFuelLoadZero fuelModelNumber this = true
  \/ Surface.isFuelModelDefined fuelModelNumber this = false ->
  (isUsingPalmettoGallberry_ (Surface.surfaceInputs_ this) = false ->
   isUsingWesternAspen_ (Surface.surfaceInputs_ this) = false ->
   isUsingChaparral_ (Surface.surfaceInputs_ this) = false ->
   let run := Surface.doSurfaceRunInDirectionOfMaxSpread this in
   fst run = SkipCalculationForZeroLoad
   /\ invokesRothermel (fst run) = false
   /\ Surface.outputsAreZero (snd run))
  /\ (let run :=
        Surface.doSurfaceRunInDirectionOfInterest directionOfInterest directionMode this in
      fst run = SkipCalculationForZeroLoad
      /\ invokesRothermel (fst run) = false
      /\ Surface.outputsAreZero (snd run)).
Proof.
  intros fuelModelNumber Hsingle Hempty.
  destruct (updateMoisturesBasedOnInputMode_frame (Surface.surfaceInputs_ this))
    as (Hnumber & Htwo & Hpalmetto & Haspen & Hchaparral).
  assert (Hcond :
    Surface.isAllFuelLoadZero fuelModelNumber this
    || negb (Surface.isFuelModelDefined fuelModelNumber this) = true).
  { destruct Hempty as [-> | ->]; [reflexivity | apply orb_true_r]. }
  unfold Surface.isUsingTwoFuelModels, SurfaceInputs.isUsingTwoFuelModels in Hsingle.
  unfold Surface.isAllFuelLoadZero, Surface.isFuelModelDefined in Hcond.
  split.
  - intros Hp Ha Hc run. subst run.
    unfold Surface.doSurfaceRunInDirectionOfMaxSpread, Surface.isUsingTwoFuelModels,
      SurfaceInputs.isUsingTwoFuelModels, SurfaceInputs.getFuelModelNumber,
      SurfaceInputs.getIsUsingPalmettoGallberry, SurfaceInputs.getIsUsingWesternAspen,
      SurfaceInputs.getIsUsingChaparral, Surface.isAllFuelLoadZero,
      Surface.isFuelModelDefined.
    cbn [Surface.surfaceInputs_ Surface.with_surfaceInputs_ Surface.fuelModels_].
    rewrite Htwo, Hsingle, Hnumber, Hpalmetto, Haspen, Hchaparral, Hp, Ha, Hc.
    fold fuelModelNumber. rewrite Hcond. cbn.
    repeat split; reflexivity.
  - intros run. subst run.
    unfold Surface.doSurfaceRunInDirectionOfInterest, Surface.isUsingTwoFuelModels,
      SurfaceInputs.isUsingTwoFuelModels, SurfaceInputs.getFuelModelNumber,
      Surface.isAllFuelLoadZero, Surface.isFuelModelDefined.
    cbn [Surface.surfaceInputs_ Surface.with_surfaceInputs_ Surface.fuelModels_].
    rewrite Htwo, Hsingle, Hnumber.
    fold fuelModelNumber. rewrite Hcond. cbn.
    repeat split; reflexivity.
Qed.

End SurfaceRun.

(** ** Crown: running the methods *)

(** Reduce the projections of an updated [Crown]. *)
Ltac crown_fields :=
  cbn [
    Crown.surfaceInputs_ Crown.crownDeepCopyOfSurfaceInputs_ Crown.crownFireSpread_
    Crown.windSpeedAtTwentyFeet_ Crown.crownFireSpreadRate_
    Crown.crownCopyOfSurfaceHeatPerUnitArea_ Crown.crownCopyOfSurfaceFirelineIntensity_
    Crown.crownFuelLoad_ Crown.canopyHeatPerUnitArea_ Crown.crownFireHeatPerUnitArea_
    Crown.crownFirelineIntensity_ Crown.crownFlameLength_ Crown.crownCriticalFireSpreadRate_
    Crown.crownCriticalSurfaceFireIntensity_ Crown.crownPowerOfFire_ Crown.crownPowerOfWind_
    Crown.crownFirePowerRatio_ Crown.crownFireActiveRatio_ Crown.with_surfaceInputs_
    Crown.with_crownFireSpread_ Crown.with_windSpeedAtTwentyFeet_
    Crown.with_crownFireSpreadRate_ Crown.with_crownCopyOfSurfaceHeatPerUnitArea_
    Crown.with_crownCopyOfSurfaceFirelineIntensity_ Crown.with_crownFuelLoad_
    Crown.with_canopyHeatPerUnitArea_ Crown.with_crownFireHeatPerUnitArea_
    Crown.with_crownFirelineIntensity_ Crown.with_crownFlameLength_
    Crown.with_crownCriticalFireSpreadRate_ Crown.with_crownCriticalSurfaceFireIntensity_
    Crown.with_crownPowerOfFire_ Crown.with_crownPowerOfWind_ Crown.with_crownFirePowerRatio_
    Crown.with_crownFireActiveRatio_ Crown.assign Crown.spreadInputs_ Crown.spreadState_].

Section CrownMonadLaws.
Context {catalogue : FuelCatalogue} {spread : SpreadModel}.

Implicit Types (env : Crown.Env) (this : Crown.Crown) (h : gmap positive SurfaceInputs).

(** *** Laws of the monad, at a given environment, object and store *)

Lemma bind_run {A B : Type} (m : Crown.M A) (k : A -> Crown.M B) env this h a this' h' :
  m env this h = Some (a, this', h') ->
  Crown.bind m k env this h = k a env this' h'.
Proof. intros Hrun. unfold Crown.bind. rewrite Hrun. reflexivity. Qed.

Lemma bind_assoc {A B C : Type} (m : Crown.M A) (k1 : A -> Crown.M B) (k2 : B -> Crown.M C)
    env this h :
  Crown.bind (Crown.bind m k1) k2 env this h
  = Crown.bind m (fun a => Crown.bind (k1 a) k2) env this h.
Proof.
  unfold Crown.bind. destruct (m env this h) as [[[a this'] h'] |]; reflexivity.
Qed.

Lemma bind_ret {A B : Type} (a : A) (k : A -> Crown.M B) env this h :
  Crown.bind (Crown.ret a) k env this h = k a env this h.
Proof. reflexivity. Qed.

Lemma bind_ask {B : Type} (k : Crown.Env -> Crown.M B) env this h :
  Crown.bind Crown.ask k env this h = k env env this h.
Proof. reflexivity. Qed.

Lemma bind_get {B : Type} (k : Crown.Crown -> Crown.M B) env this h :
  Crown.bind Crown.get k env this h = k this env this h.
Proof. reflexivity. Qed.

Lemma bind_modify {B : Type} (f : Crown.Crown -> Crown.Crown) (k : unit -> Crown.M B)
    env this h :
  Crown.bind (Crown.modify f) k env this h = k tt env (f this) h.
Proof. reflexivity. Qed.

Lemma bind_deref {B : Type} (p : positive) (k : SurfaceInputs -> Crown.M B) env this h obj :
  h !! p = Some obj ->
  Crown.bind (Crown.deref p) k env this h = k obj env this h.
Proof. intros Hp. unfold Crown.bind, Crown.deref. rewrite Hp. reflexivity. Qed.

Lemma bind_update {B : Type} (p : positive) (method : SurfaceInputs -> SurfaceInputs)
    (k : unit -> Crown.M B) env this h obj :
  h !! p = Some obj ->
  Crown.bind (Crown.update p method) k env this h = k tt env this (<[p := method obj]> h).
Proof. intros Hp. unfold Crown.bind, Crown.update. rewrite Hp. reflexivity. Qed.

(** *** The store outside the deep copy

    Every method of [Crown] writes to the store through [onDeepCopy] only;
    so whenever one succeeds, from whatever state, every other object is as
    it was. *)

Lemma writesOnlyDeepCopy_ret {A : Type} (a : A) : Crown.writesOnlyDeepCopy (Crown.ret a).
Proof. intros env this h a' this' h' Hrun. injection Hrun as _ <- <-. split; reflexivity. Qed.

Lemma writesOnlyDeepCopy_ask : Crown.writesOnlyDeepCopy Crown.ask.
Proof. intros env this h a' this' h' Hrun. injection Hrun as _ <- <-. split; reflexivity. Qed.

Lemma writesOnlyDeepCopy_get : Crown.writesOnlyDeepCopy Crown.get.
Proof. intros env this h a' this' h' Hrun. injection Hrun as _ <- <-. split; reflexivity. Qed.

Lemma writesOnlyDeepCopy_deref (p : positive) : Crown.writesOnlyDeepCopy (Crown.deref p).
Proof.
  intros env this h a' this' h' Hrun. unfold Crown.deref in Hrun.
  destruct (h !! p); [| discriminate].
  injection Hrun as _ <- <-. split; reflexivity.
Qed.

Lemma writesOnlyDeepCopy_modify (f : Crown.Crown -> Crown.Crown) :
  (forall this,
     Crown.crownDeepCopyOfSurfaceInputs_ (f this) = Crown.crownDeepCopyOfSurfaceInputs_ this) ->
  Crown.writesOnlyDeepCopy (Crown.modify f).
Proof.
  intros Hf env this h a' this' h' Hrun. injection Hrun as _ <- <-.
  split; [apply Hf | reflexivity].
Qed.

Lemma writesOnlyDeepCopy_onDeepCopy (method : SurfaceInputs -> SurfaceInputs) :
  Crown.writesOnlyDeepCopy (Crown.onDeepCopy method).
Proof.
  intros env this h a' this' h' Hrun.
  unfold Crown.onDeepCopy, Crown.bind, Crown.get, Crown.update in Hrun.
  destruct (h !! Crown.crownDeepCopyOfSurfaceInputs_ this); [| discriminate].
  injection Hrun as _ <- <-.
  split; [reflexivity |]. intros q Hq. apply lookup_insert_ne. congruence.
Qed.

Lemma writesOnlyDeepCopy_bind {A B : Type} (m : Crown.M A) (k : A -> Crown.M B) :
  Crown.writesOnlyDeepCopy m ->
  (forall a, Crown.writesOnlyDeepCopy (k a)) ->
  Crown.writesOnlyDeepCopy (Crown.bind m k).
Proof.
  intros Hm Hk env this h b this2 h2 Hrun. unfold Crown.bind in Hrun.
  destruct (m env this h) as [[[a this1] h1] |] eqn:Hfirst; [| discriminate].
  destruct (Hm _ _ _ _ _ _ Hfirst) as [Hdc1 Hframe1].
  destruct (Hk a _ _ _ _ _ _ Hrun) as [Hdc2 Hframe2].
  split; [congruence |].
  intros q Hq. rewrite Hframe2 by congruence. apply Hframe1. exact Hq.
Qed.

End CrownMonadLaws.

(** Decompose a method into its primitives. *)
Ltac writes_only_deep_copy :=
  repeat first
    [ apply writesOnlyDeepCopy_onDeepCopy
    | apply writesOnlyDeepCopy_bind; [| intros ?]
    | apply writesOnlyDeepCopy_ret
    | apply writesOnlyDeepCopy_ask
    | apply writesOnlyDeepCopy_get
    | apply writesOnlyDeepCopy_deref
    | apply writesOnlyDeepCopy_modify; intros ?; reflexivity
    | match goal with
      | |- Crown.writesOnlyDeepCopy (match ?x with _ => _ end) => destruct x
      end ].


(** One step of a run: reassociate, then execute the primitive at the head. *)
Ltac crown_step :=
  first [ rewrite bind_assoc | rewrite bind_ret | rewrite bind_ask | rewrite bind_get
        | rewrite bind_modify ];
  cbv beta zeta; crown_fields.

Section CrownFacts.
Context {catalogue : FuelCatalogue} {spread : SpreadModel}.

Implicit Types (env : Crown.Env) (this : Crown.Crown) (h : gmap positive SurfaceInputs).

(** *** The wind speed at twenty feet *)

Lemma calculateWindSpeedAtTwentyFeet_run env this h (callerInputs : SurfaceInputs) :
  h !! Crown.surfaceInputs_ this = Some callerInputs ->
  Crown.calculateWindSpeedAtTwentyFeet env this h
  = Some (Crown.windSpeedAtTwentyFeet callerInputs,
          Crown.with_windSpeedAtTwentyFeet_ (Crown.windSpeedAtTwentyFeet callerInputs) this,
          h).
Proof.
  intros Hin.
  unfold Crown.calculateWindSpeedAtTwentyFeet, Crown.windSpeedAtTwentyFeet,
    SurfaceInputs.getWindHeightInputMode, SurfaceInputs.getWindSpeed.
  repeat crown_step. crown_fields.
  rewrite (bind_deref _ _ _ _ _ _ Hin). cbv beta zeta.
  destruct (windHeightInputMode_ callerInputs); reflexivity.
Qed.

(** *** The spread model behind [crownFireSpread_] *)

Lemma crownFireSpread_calculateForwardSpreadRate_run env this h (inputs : SurfaceInputs) :
  h !! Crown.spreadInputs_ (Crown.crownFireSpread_ this) = Some inputs ->
  let result :=
    SurfaceFireSpread_calculateForwardSpreadRate (Crown.fuelModelSet env) inputs
      (Crown.spreadState_ (Crown.crownFireSpread_ this)) in
  Crown.crownFireSpread_calculateForwardSpreadRate env this h
  = Some (fst result,
          Crown.with_crownFireSpread_
            {| Crown.spreadInputs_ := Crown.spreadInputs_ (Crown.crownFireSpread_ this);
               Crown.spreadState_ := snd result |} this,
          h).
Proof.
  intros Hinputs result. subst result.
  unfold Crown.crownFireSpread_calculateForwardSpreadRate.
  repeat crown_step.
  rewrite (bind_deref _ _ _ _ _ _ Hinputs). cbv beta zeta.
  destruct (SurfaceFireSpread_calculateForwardSpreadRate _ _ _) as [spreadRate state].
  reflexivity.
Qed.

(** *** The whole pipeline *)

(** On a [Crown] whose spread model refers to its own deep copy, in a store
    that holds the caller's inputs and, elsewhere, the deep copy,
    [calculateCrownFireSpreadRate] succeeds; it returns 3.34 times the
    spread rate of the crown scenario, writes that scenario into the deep
    copy and nowhere else, and keeps the three addresses. *)
Lemma calculateCrownFireSpreadRate_run env this h (callerInputs deepCopy : SurfaceInputs) :
  Crown.surfaceInputs_ this <> Crown.crownDeepCopyOfSurfaceInputs_ this ->
  Crown.spreadInputs_ (Crown.crownFireSpread_ this) = Crown.crownDeepCopyOfSurfaceInputs_ this ->
  h !! Crown.surfaceInputs_ this = Some callerInputs ->
  h !! Crown.crownDeepCopyOfSurfaceInputs_ this = Some deepCopy ->
  let scenario :=
    Crown.crownScenario deepCopy (0.4 * Crown.windSpeedAtTwentyFeet callerInputs) in
  let rate :=
    3.34 * fst (SurfaceFireSpread_calculateForwardSpreadRate (Crown.fuelModelSet env) scenario
                  (Crown.spreadState_ (Crown.crownFireSpread_ this))) in
  exists this',
    Crown.calculateCrownFireSpreadRate env this h
    = Some (rate, this', <[Crown.crownDeepCopyOfSurfaceInputs_ this := scenario]> h)
    /\ Crown.surfaceInputs_ this' = Crown.surfaceInputs_ this
    /\ Crown.crownDeepCopyOfSurfaceInputs_ this' = Crown.crownDeepCopyOfSurfaceInputs_ this
    /\ Crown.spreadInputs_ (Crown.crownFireSpread_ this')
       = Crown.crownDeepCopyOfSurfaceInputs_ this.
Proof.
  intros Hne Hwf Hin Hcopy scenario rate.
  set (dc := Crown.crownDeepCopyOfSurfaceInputs_ this) in *.
  assert (Hin' : <[dc := scenario]> h !! Crown.surfaceInputs_ this = Some callerInputs)
    by (rewrite lookup_insert_ne by congruence; exact Hin).
  unfold Crown.calculateCrownFireSpreadRate, Crown.onDeepCopy.
  (* Step 1: the overrides on the deep copy and the wind speed *)
  repeat crown_step. fold dc.
  rewrite (bind_update _ _ _ _ _ _ _ Hcopy).
  repeat crown_step. fold dc.
  rewrite (bind_update _ _ _ _ _ _ _ (lookup_insert_eq _ _ _)), insert_insert_eq.
  repeat crown_step. fold dc.
  rewrite (bind_update _ _ _ _ _ _ _ (lookup_insert_eq _ _ _)), insert_insert_eq.
  erewrite bind_run by
    (apply calculateWindSpeedAtTwentyFeet_run;
     rewrite lookup_insert_ne by congruence; exact Hin).
  repeat crown_step. crown_fields. fold dc.
  rewrite (bind_update _ _ _ _ _ _ _ (lookup_insert_eq _ _ _)), insert_insert_eq.
  change (SurfaceInputs.setWindSpeedInBaseUnits _ _) with scenario.
  (* Step 2: the spread model runs on the deep copy *)
  erewrite bind_run by
    (apply crownFireSpread_calculateForwardSpreadRate_run;
     crown_fields; rewrite Hwf; apply lookup_insert_eq).
  crown_fields.
  (* Steps 3 and 4: the caller's canopy height and wind are read again *)
  unfold Crown.calculateCrownFuelLoad, Crown.calculateCanopyHeatPerUnitArea,
    Crown.calculateCrownFireHeatPerUnitArea, Crown.calculateCrownFirelineIntensity,
    Crown.calculateCrownFlameLength, Crown.calculateCrownCriticalFireSpreadRate,
    Crown.calculateCrownCriticalSurfaceFireIntensity,
    Crown.calculateCrownCriticalSurfaceFlameLength, Crown.calculateCrownPowerOfFire,
    Crown.calcuateCrownPowerOfWind.
  repeat crown_step. crown_fields.
  rewrite (bind_deref _ _ _ _ _ _ Hin').
  repeat crown_step.
  erewrite bind_run by
    (apply calculateWindSpeedAtTwentyFeet_run; crown_fields; exact Hin').
  repeat crown_step.
  eexists. split; [reflexivity |]. crown_fields. rewrite Hwf. repeat split.
Qed.

(** *** The constructor *)

(** Constructing a [Crown] on the caller's inputs at [p], an address other
    than that of the new object's own member, succeeds; the member then is
    the default-constructed object after [memberwiseCopyAssignment] from the
    caller's, the caller's object is as before, and the spread model refers
    to the member. *)
Lemma constructor_run env this h (p : positive) (state : SurfaceFireSpreadState)
    (callerInputs : SurfaceInputs) :
  p <> Crown.crownDeepCopyOfSurfaceInputs_ this ->
  h !! p = Some callerInputs ->
  let this' :=
    Crown.with_surfaceInputs_ p
      (Crown.with_crownFireSpread_
         {| Crown.spreadInputs_ := Crown.crownDeepCopyOfSurfaceInputs_ this;
            Crown.spreadState_ := state |} this) in
  let deepCopy :=
    SurfaceInputs.memberwiseCopyAssignment callerInputs SurfaceInputs.initializeMembers in
  Crown.constructor p state env this h
  = Some (tt, this', <[Crown.crownDeepCopyOfSurfaceInputs_ this := deepCopy]> h).
Proof.
  intros Hne Hp this' deepCopy. subst this' deepCopy.
  set (dc := Crown.crownDeepCopyOfSurfaceInputs_ this) in *.
  unfold Crown.constructor. repeat crown_step. fold dc.
  unfold Crown.construct at 1. unfold Crown.bind at 1. cbv beta iota.
  repeat crown_step.
  erewrite bind_deref by (rewrite lookup_insert_ne by congruence; exact Hp).
  destruct (decide (dc = p)) as [Heq | _]; [congruence |].
  unfold Crown.update. rewrite lookup_insert_eq, insert_insert_eq.
  reflexivity.
Qed.

(** X2.  The constructor establishes [Crown.invariant] and takes its copy
    member by member: afterwards [surfaceInputs_] is the caller's object,
    which is as before; the crown's own member is a second, distinct object,
    namely the default-constructed one after [memberwiseCopyAssignment] from
    the caller's, and it agrees with the caller's object on every member
    that method assigns ([sameAssignedMembers] lists them).  Nothing is said
    about the four chaparral parameters, which the method does not assign. *)
Theorem constructor_establishes_invariant env this h (p : positive)
    (state : SurfaceFireSpreadState) (callerInputs : SurfaceInputs) :
  p <> Crown.crownDeepCopyOfSurfaceInputs_ this ->
  h !! p = Some callerInputs ->
  exists this' h' deepCopy,
    Crown.constructor p state env this h = Some (tt, this', h')
    /\ Crown.invariant this' h'
    /\ Crown.surfaceInputs_ this' = p
    /\ Crown.crownDeepCopyOfSurfaceInputs_ this' = Crown.crownDeepCopyOfSurfaceInputs_ this
    /\ h' !! p = Some callerInputs
    /\ h' !! Crown.crownDeepCopyOfSurfaceInputs_ this = Some deepCopy
    /\ deepCopy
       = SurfaceInputs.memberwiseCopyAssignment callerInputs SurfaceInputs.initializeMembers
    /\ SurfaceInputs.sameAssignedMembers deepCopy callerInputs.
Proof.
  intros Hne Hp. eexists. eexists. eexists.
  split; [apply constructor_run; eassumption |].
  unfold Crown.invariant. crown_fields.
  rewrite lookup_insert_eq, lookup_insert_ne by congruence. rewrite Hp.
  repeat split; eauto.
Qed.

(** [calculateCrownFireSpreadRate] writes to the deep copy only. *)
Lemma calculateCrownFireSpreadRate_writesOnlyDeepCopy :
  Crown.writesOnlyDeepCopy Crown.calculateCrownFireSpreadRate.
Proof.
  unfold Crown.calculateCrownFireSpreadRate, Crown.calculateCrownFuelLoad,
    Crown.calculateCanopyHeatPerUnitArea, Crown.calculateCrownFireHeatPerUnitArea,
    Crown.calculateCrownFirelineIntensity, Crown.calculateCrownFlameLength,
    Crown.calculateCrownCriticalFireSpreadRate,
    Crown.calculateCrownCriticalSurfaceFireIntensity,
    Crown.calculateCrownCriticalSurfaceFlameLength, Crown.calculateCrownPowerOfFire,
    Crown.calcuateCrownPowerOfWind, Crown.calculateWindSpeedAtTwentyFeet,
    Crown.crownFireSpread_calculateForwardSpreadRate.
  writes_only_deep_copy.
Qed.

(** *** Properties of the crown pipeline *)

(** C9.  [Crown::calculateWindSpeedAtTwentyFeet] returns, and stores in
    [windSpeedAtTwentyFeet_], the caller's wind speed as it is when the wind
    height input mode is twenty-foot, its ten-metre to twenty-foot conversion
    when the mode is ten-metre, and -1 in every other mode, of which
    direct-midflame, the default, is one. *)
Theorem wind_speed_at_twenty_feet_by_mode env this h (callerInputs : SurfaceInputs) :
  h !! Crown.surfaceInputs_ this = Some callerInputs ->
  exists speed this',
    Crown.calculateWindSpeedAtTwentyFeet env this h = Some (speed, this', h)
    /\ Crown.windSpeedAtTwentyFeet_ this' = speed
    /\ (windHeightInputMode_ callerInputs = TwentyFoot -> speed = windSpeed_ callerInputs)
    /\ (windHeightInputMode_ callerInputs = TenMeter ->
        speed = WindSpeedUtility_windSpeedAtTwentyFeetFromTenMeter (windSpeed_ callerInputs))
    /\ (windHeightInputMode_ callerInputs <> TwentyFoot ->
        windHeightInputMode_ callerInputs <> TenMeter -> speed = -1)
    /\ (windHeightInputMode_ callerInputs = DirectMidflame -> speed = -1)
    /\ windHeightInputMode_ SurfaceInputs.initializeMembers = DirectMidflame.
Proof.
  intros Hin.
  exists (Crown.windSpeedAtTwentyFeet callerInputs).
  exists (Crown.with_windSpeedAtTwentyFeet_ (Crown.windSpeedAtTwentyFeet callerInputs) this).
  split; [apply calculateWindSpeedAtTwentyFeet_run; exact Hin |].
  unfold Crown.windSpeedAtTwentyFeet.
  split; [reflexivity |].
  destruct (windHeightInputMode_ callerInputs); repeat split; congruence.
Qed.

(** C5.  In every state of the crown engine,
    [Crown::calculateCrownFireTransitionRatio] returns 0 when the critical
    surface fireline intensity is below 1e-7 and otherwise the surface
    fireline intensity divided by the critical one; it changes nothing. *)
Theorem transition_ratio_guarded env this h :
  exists ratio,
    Crown.calculateCrownFireTransitionRatio env this h = Some (ratio, this, h)
    /\ (Crown.crownCriticalSurfaceFireIntensity_ this < 1e-7 -> ratio = 0)
    /\ (1e-7 <= Crown.crownCriticalSurfaceFireIntensity_ this ->
        ratio = Crown.crownCopyOfSurfaceFirelineIntensity_ this
                / Crown.crownCriticalSurfaceFireIntensity_ this).
Proof.
  unfold Crown.calculateCrownFireTransitionRatio. repeat crown_step.
  eexists. split; [reflexivity |].
  destruct (Rlt_dec (Crown.crownCriticalSurfaceFireIntensity_ this) 1e-7);
    split; intros; solve [reflexivity | lra].
Qed.

(** C2.  [Crown::calculateCrownCriticalSurfaceFireIntensity] returns, and
    stores, [(0.01 * h' * (450 + 25.9 * m'))^1.5 * 0.288672] where [m'] is
    the foliar moisture floored at 30 and [h'] the canopy base height in
    metres (feet times 0.3048) floored at 0.1.  So a base height of 0.05 ft
    with a foliar moisture of 20 is computed with 0.1 m and 30; and the
    constant is 450: with 460 the value would be strictly larger. *)
Theorem critical_surface_fire_intensity_formula env this h :
  let m' := Rmax (foliarMoisture_ (Crown.crownInputs env)) 30 in
  let h' := Rmax (canopyBaseHeight_ (Crown.crownInputs env) * 0.3048) 0.1 in
  let value := Rpower (0.01 * h' * (450 + 25.9 * m')) 1.5 * 0.288672 in
  Crown.calculateCrownCriticalSurfaceFireIntensity env this h
  = Some (value, Crown.with_crownCriticalSurfaceFireIntensity_ value this, h)
  /\ (foliarMoisture_ (Crown.crownInputs env) = 20 ->
      canopyBaseHeight_ (Crown.crownInputs env) = 0.05 ->
      value = Rpower (0.01 * 0.1 * (450 + 25.9 * 30)) 1.5 * 0.288672)
  /\ value < Rpower (0.01 * h' * (460 + 25.9 * m')) 1.5 * 0.288672.
Proof.
  intros m' h' value.
  assert (Hm : 30 <= m') by apply Rmax_r.
  assert (Hh : 0.1 <= h') by apply Rmax_r.
  assert (Hbase : 0 < 0.01 * h' * (450 + 25.9 * m')) by nra.
  split; [| split].
  - unfold Crown.calculateCrownCriticalSurfaceFireIntensity,
      CrownInputs_getFoliarMoisture, CrownInputs_getCanopyBaseHeight.
    repeat crown_step.
    replace (if Rlt_dec (foliarMoisture_ (Crown.crownInputs env)) 30
             then 30 else foliarMoisture_ (Crown.crownInputs env)) with m'
      by (subst m'; unfold Rmax;
          destruct (Rlt_dec _ 30), (Rle_dec _ 30); lra).
    replace (if Rlt_dec (canopyBaseHeight_ (Crown.crownInputs env) * 0.3048) 0.1
             then 0.1 else canopyBaseHeight_ (Crown.crownInputs env) * 0.3048) with h'
      by (subst h'; unfold Rmax;
          destruct (Rlt_dec _ 0.1), (Rle_dec _ 0.1); lra).
    rewrite pow_positive_base by exact Hbase.
    reflexivity.
  - intros Hmoisture Hheight. subst value m' h'.
    rewrite Hmoisture, Hheight.
    replace (Rmax 20 30) with 30 by (unfold Rmax; destruct (Rle_dec 20 30); lra).
    replace (Rmax (0.05 * 0.3048) 0.1) with 0.1
      by (unfold Rmax; destruct (Rle_dec (0.05 * 0.3048) 0.1); lra).
    reflexivity.
  - subst value. apply Rmult_lt_compat_r; [lra |].
    apply Rlt_Rpower_l; [lra | split; [exact Hbase | nra]].
Qed.

(** The critical crown spread rate, then the active ratio: what the two
    methods store and return. *)
Lemma critical_rate_then_active_ratio_run env this h :
  let converted := 16.0185 * canopyBulkDensity_ (Crown.crownInputs env) in
  let critical := (if Rlt_dec converted 1e-7 then 0 else 3 / converted) * 3.28084 in
  let ratio :=
    if Rlt_dec critical 1e-7 then 0 else Crown.crownFireSpreadRate_ this / critical in
  let this1 := Crown.with_crownCriticalFireSpreadRate_ critical this in
  Crown.calculateCrownCriticalFireSpreadRate env this h = Some (critical, this1, h)
  /\ Crown.calculateCrownFireActiveRatio env this1 h
     = Some (ratio, Crown.with_crownFireActiveRatio_ ratio this1, h).
Proof.
  intros converted critical ratio this1.
  unfold Crown.calculateCrownCriticalFireSpreadRate, Crown.calculateCrownFireActiveRatio,
    CrownInputs_getCanopyBulkDensity.
  split; repeat crown_step; reflexivity.
Qed.

(** C6, as the code has it.  With the canopy bulk density converted to kg/m3
    (times 16.0185): below 1e-7, the critical crown spread rate is 0 and so
    is the active ratio; from 1e-7 on, the critical rate is 3 divided by the
    converted density, times 3.28084, and the active ratio is 0 when that
    critical rate is below 1e-7 and the crown spread rate divided by it
    otherwise.  Each quotient is taken only with a divisor of at least
    1e-7. *)
Theorem critical_spread_rate_and_active_ratio env this h :
  let converted := 16.0185 * canopyBulkDensity_ (Crown.crownInputs env) in
  exists critical ratio this1 this2,
    Crown.calculateCrownCriticalFireSpreadRate env this h = Some (critical, this1, h)
    /\ Crown.calculateCrownFireActiveRatio env this1 h = Some (ratio, this2, h)
    /\ Crown.crownCriticalFireSpreadRate_ this2 = critical
    /\ Crown.crownFireActiveRatio_ this2 = ratio
    /\ (converted < 1e-7 -> critical = 0 /\ ratio = 0)
    /\ (1e-7 <= converted ->
        critical = 3 / converted * 3.28084
        /\ (critical < 1e-7 -> ratio = 0)
        /\ (1e-7 <= critical -> ratio = Crown.crownFireSpreadRate_ this / critical)).
Proof.
  intros converted.
  destruct (critical_rate_then_active_ratio_run env this h) as [Hcritical Hratio].
  fold converted in Hcritical, Hratio.
  eexists. eexists. eexists. eexists.
  split; [exact Hcritical |]. split; [exact Hratio |].
  split; [reflexivity |]. split; [reflexivity |].
  destruct (Rlt_dec converted 1e-7) as [Hlow | Hhigh].
  - split; [| intros; lra].
    intros _. split; [lra |].
    destruct (Rlt_dec (0 * 3.28084) 1e-7); [reflexivity | lra].
  - split; [intros; lra |].
    intros _. split; [reflexivity |].
    destruct (Rlt_dec (3 / converted * 3.28084) 1e-7); split; intros;
      solve [reflexivity | lra].
Qed.


(** C10.  Whenever [Crown::calculateCrownFireSpreadRate] returns, on any
    [Crown] and any store, every [SurfaceInputs] object other than the
    crown's own deep copy is as it was: the overrides go to the deep copy
    only.  And on a [Crown] as the constructor leaves it and every run keeps
    it ([Crown.invariant]) it does return: the caller's object is unchanged,
    the deep copy carries the four overrides, and the result is a [Crown] on
    which the method can be called again. *)
Theorem crown_run_leaves_caller_inputs_unchanged env this h :
  (forall rate this' h',
     Crown.calculateCrownFireSpreadRate env this h = Some (rate, this', h') ->
     forall q : positive,
       q <> Crown.crownDeepCopyOfSurfaceInputs_ this -> h' !! q = h !! q)
  /\ (forall callerInputs deepCopy : SurfaceInputs,
        Crown.invariant this h ->
        h !! Crown.surfaceInputs_ this = Some callerInputs ->
        h !! Crown.crownDeepCopyOfSurfaceInputs_ this = Some deepCopy ->
        exists rate this' h',
          Crown.calculateCrownFireSpreadRate env this h = Some (rate, this', h')
          /\ h' !! Crown.surfaceInputs_ this = Some callerInputs
          /\ h' !! Crown.crownDeepCopyOfSurfaceInputs_ this
             = Some (with_windSpeed_ (0.4 * Crown.windSpeedAtTwentyFeet callerInputs)
                       (with_windDirection_ 0
                          (with_slope_ 0 (with_fuelModelNumber_ 10 deepCopy))))
          /\ Crown.surfaceInputs_ this' = Crown.surfaceInputs_ this
          /\ Crown.invariant this' h').
Proof.
  split.
  - intros rate this' h' Hrun.
    apply (calculateCrownFireSpreadRate_writesOnlyDeepCopy _ _ _ _ _ _ Hrun).
  - intros callerInputs deepCopy (Hdistinct & Hwf & _ & _) Hin Hcopy.
    destruct (calculateCrownFireSpreadRate_run env this h callerInputs deepCopy
                Hdistinct Hwf Hin Hcopy) as (this' & Hrun & Hptr & Hdc & Hspread).
    eexists. exists this'. eexists. split; [exact Hrun |].
    assert (Hkept :
      <[Crown.crownDeepCopyOfSurfaceInputs_ this :=
          Crown.crownScenario deepCopy (0.4 * Crown.windSpeedAtTwentyFeet callerInputs)]> h
      !! Crown.surfaceInputs_ this = Some callerInputs)
      by (rewrite lookup_insert_ne by congruence; exact Hin).
    split; [exact Hkept |].
    split; [apply lookup_insert_eq |].
    split; [exact Hptr |].
    unfold Crown.invariant. rewrite Hptr, Hdc, Hspread, Hkept, lookup_insert_eq.
    repeat split; eauto.
Qed.

End CrownFacts.

(** ** SurfaceInputs: the moisture bookkeeping *)

(** Case analysis on the members of an inputs object and on its moisture
    input mode. *)
Ltac by_moisture_input_mode this :=
  destruct this;
  match goal with mode : MoistureInputModeEnum |- _ => destruct mode end.

(** Compute the members of an updated inputs object. *)
Ltac inputs_fields :=
  cbn [fuelModelNumber_ secondFuelModelNumber_ moistureOneHour_ moistureTenHour_
       moistureHundredHour_ moistureDeadAggregate_ moistureLiveHerbaceous_ moistureLiveWoody_
       moistureLiveAggregate_ slope_ aspect_ windSpeed_ windDirection_ moistureInputMode_
       isUsingTwoFuelModels_ isUsingPalmettoGallberry_ isUsingWesternAspen_ isUsingChaparral_
       windAndSpreadOrientationMode_ windHeightInputMode_ twoFuelModelsMethod_
       firstFuelModelCoverage_ canopyCover_ canopyHeight_ crownRatio_
       currentMoistureScenarioIndex_ moistureValuesBySizeClass_ assign assignFurther
       with_fuelModelNumber_ with_moistureOneHour_ with_moistureTenHour_
       with_moistureHundredHour_ with_moistureLiveHerbaceous_ with_moistureLiveWoody_
       with_slope_ with_aspect_ with_windSpeed_ with_windDirection_ with_isUsingTwoFuelModels_
       with_isUsingPalmettoGallberry_ with_isUsingWesternAspen_ with_isUsingChaparral_
       with_windAndSpreadOrientationMode_ with_windHeightInputMode_ with_twoFuelModelsMethod_
       with_canopyCover_ with_canopyHeight_ with_crownRatio_ with_moistureValuesBySizeClass_
       with_secondFuelModelNumber_ with_moistureDeadAggregate_ with_moistureLiveAggregate_
       with_moistureInputMode_ with_firstFuelModelCoverage_ with_currentMoistureScenarioIndex_].

(** Two inputs objects with the same members are the same object. *)
Lemma SurfaceInputs_ext (x y : SurfaceInputs) :
  fuelModelNumber_ x = fuelModelNumber_ y ->
  secondFuelModelNumber_ x = secondFuelModelNumber_ y ->
  moistureOneHour_ x = moistureOneHour_ y ->
  moistureTenHour_ x = moistureTenHour_ y ->
  moistureHundredHour_ x = moistureHundredHour_ y ->
  moistureDeadAggregate_ x = moistureDeadAggregate_ y ->
  moistureLiveHerbaceous_ x = moistureLiveHerbaceous_ y ->
  moistureLiveWoody_ x = moistureLiveWoody_ y ->
  moistureLiveAggregate_ x = moistureLiveAggregate_ y ->
  slope_ x = slope_ y ->
  aspect_ x = aspect_ y ->
  windSpeed_ x = windSpeed_ y ->
  windDirection_ x = windDirection_ y ->
  moistureInputMode_ x = moistureInputMode_ y ->
  isUsingTwoFuelModels_ x = isUsingTwoFuelModels_ y ->
  isUsingPalmettoGallberry_ x = isUsingPalmettoGallberry_ y ->
  isUsingWesternAspen_ x = isUsingWesternAspen_ y ->
  isUsingChaparral_ x = isUsingChaparral_ y ->
  windAndSpreadOrientationMode_ x = windAndSpreadOrientationMode_ y ->
  windHeightInputMode_ x = windHeightInputMode_ y ->
  twoFuelModelsMethod_ x = twoFuelModelsMethod_ y ->
  firstFuelModelCoverage_ x = firstFuelModelCoverage_ y ->
  canopyCover_ x = canopyCover_ y ->
  canopyHeight_ x = canopyHeight_ y ->
  crownRatio_ x = crownRatio_ y ->
  currentMoistureScenarioIndex_ x = currentMoistureScenarioIndex_ y ->
  moistureValuesBySizeClass_ x = moistureValuesBySizeClass_ y ->
  x = y.
Proof. destruct x, y; cbn; intros; subst; reflexivity. Qed.

Section MoistureFacts.
Context {units : UnitConversions} {scenarios : MoistureScenarios}.
Context {getterUnits : GetterUnitConversions} {directory : MoistureScenarioDirectory}.

(** A refresh is one assignment, to the array. *)
Lemma updateMoisturesBasedOnInputMode_as_assignment (this : SurfaceInputs) :
  SurfaceInputs.updateMoisturesBasedOnInputMode this
  = with_moistureValuesBySizeClass_
   (match moistureInputMode_ this with
    | BySizeClass =>
        SurfaceInputs.moistureArray (moistureOneHour_ this) (moistureTenHour_ this)
          (moistureHundredHour_ this) (moistureLiveHerbaceous_ this)
          (moistureLiveWoody_ this) (-1) (-1)
    | AllAggregate =>
        SurfaceInputs.moistureArray (moistureDeadAggregate_ this) (moistureDeadAggregate_ this)
          (moistureDeadAggregate_ this) (moistureLiveAggregate_ this)
          (moistureLiveAggregate_ this) (moistureDeadAggregate_ this)
          (moistureLiveAggregate_ this)
    | DeadAggregateAndLiveSizeClass =>
        SurfaceInputs.moistureArray (moistureDeadAggregate_ this) (moistureDeadAggregate_ this)
          (moistureDeadAggregate_ this) (moistureLiveHerbaceous_ this)
          (moistureLiveWoody_ this) (moistureDeadAggregate_ this) (-1)
    | LiveAggregateAndDeadSizeClass =>
        SurfaceInputs.moistureArray (moistureOneHour_ this) (moistureTenHour_ this)
          (moistureHundredHour_ this) (moistureLiveAggregate_ this)
          (moistureLiveAggregate_ this) (-1) (moistureLiveAggregate_ this)
    | MoistureScenario =>
        let i := currentMoistureScenarioIndex_ this in
        SurfaceInputs.moistureArray (getMoistureScenarioOneHourByIndex i)
          (getMoistureScenarioTenHourByIndex i)
          (getMoistureScenarioHundredHourByIndex i)
          (getMoistureScenarioLiveHerbaceousByIndex i)
          (getMoistureScenarioLiveWoodyByIndex i) (-1) (-1)
    end) this.
Proof.
  unfold SurfaceInputs.updateMoisturesBasedOnInputMode.
  destruct (moistureInputMode_ this); reflexivity.
Qed.

(** A refresh of the moisture array overwrites the array and nothing else,
    so a refresh before an assignment to another member is absorbed by a
    refresh after it. *)
Lemma updateMoisturesBasedOnInputMode_absorbs (a : SurfaceInputsAssignment)
    (this : SurfaceInputs) :
  match a with
  | Assign_moistureValuesBySizeClass_ _ => True
  | _ =>
      SurfaceInputs.updateMoisturesBasedOnInputMode
        (assign a (SurfaceInputs.updateMoisturesBasedOnInputMode this))
      = SurfaceInputs.updateMoisturesBasedOnInputMode (assign a this)
  end.
Proof. destruct a; try exact I; by_moisture_input_mode this; reflexivity. Qed.

(** [updateSurfaceInputs] with its five refreshes merged into the last. *)
Lemma updateSurfaceInputs_merged
    fuelModelNumber moistureOneHour moistureTenHour moistureHundredHour
    moistureLiveHerbaceous moistureLiveWoody moistureUnits windSpeed windSpeedUnits
    windHeightInputMode windDirection windAndSpreadOrientationMode slope slopeUnits aspect
    canopyCover coverUnits canopyHeight canopyHeightUnits crownRatio this :
  SurfaceInputs.updateSurfaceInputs fuelModelNumber moistureOneHour moistureTenHour
    moistureHundredHour moistureLiveHerbaceous moistureLiveWoody moistureUnits windSpeed
    windSpeedUnits windHeightInputMode windDirection windAndSpreadOrientationMode slope
    slopeUnits aspect canopyCover coverUnits canopyHeight canopyHeightUnits crownRatio this
  = with_crownRatio_ crownRatio
      (with_canopyHeight_ (LengthUnits_toBaseUnits canopyHeight canopyHeightUnits)
         (with_canopyCover_ (CoverUnits_toBaseUnits canopyCover coverUnits)
            (with_twoFuelModelsMethod_ NoMethod
               (with_isUsingTwoFuelModels_ false
                  (with_windAndSpreadOrientationMode_ windAndSpreadOrientationMode
                     (with_windDirection_
                        (SurfaceInputs.subtractFullTurns
                           (if Rlt_dec windDirection 0
                            then windDirection + 360 else windDirection))
                        (with_windHeightInputMode_ windHeightInputMode
                           (with_windSpeed_ (SpeedUnits_toBaseUnits windSpeed windSpeedUnits)
                              (with_windHeightInputMode_ windHeightInputMode
                                 (SurfaceInputs.updateMoisturesBasedOnInputMode
  (with_moistureLiveWoody_ (MoistureUnits_toBaseUnits moistureLiveWoody moistureUnits)
     (with_moistureLiveHerbaceous_
        (MoistureUnits_toBaseUnits moistureLiveHerbaceous moistureUnits)
        (with_moistureHundredHour_
           (MoistureUnits_toBaseUnits moistureHundredHour moistureUnits)
           (with_moistureTenHour_ (MoistureUnits_toBaseUnits moistureTenHour moistureUnits)
              (with_moistureOneHour_
                 (MoistureUnits_toBaseUnits moistureOneHour moistureUnits)
                 (with_fuelModelNumber_ fuelModelNumber
                    (with_aspect_ aspect
                       (with_slope_ (SlopeUnits_toBaseUnits slope slopeUnits)
                          this)))))))))))))))))).
Proof.
  unfold SurfaceInputs.updateSurfaceInputs, SurfaceInputs.setCrownRatio,
    SurfaceInputs.setCanopyHeight, SurfaceInputs.setCanopyCover,
    SurfaceInputs.setTwoFuelModelsMethod, SurfaceInputs.setWindAndSpreadOrientationMode,
    SurfaceInputs.setWindDirection, SurfaceInputs.setWindHeightInputMode,
    SurfaceInputs.setWindSpeed, SurfaceInputs.setMoistureLiveWoody,
    SurfaceInputs.setMoistureLiveHerbaceous, SurfaceInputs.setMoistureHundredHour,
    SurfaceInputs.setMoistureTenHour, SurfaceInputs.setMoistureOneHour,
    SurfaceInputs.setFuelModelNumber, SurfaceInputs.setSlope.
  cbv zeta.
  unfold with_moistureLiveWoody_, with_moistureLiveHerbaceous_, with_moistureHundredHour_,
    with_moistureTenHour_.
  rewrite (updateMoisturesBasedOnInputMode_absorbs (Assign_moistureTenHour_ _)).
  rewrite (updateMoisturesBasedOnInputMode_absorbs (Assign_moistureHundredHour_ _)).
  rewrite (updateMoisturesBasedOnInputMode_absorbs (Assign_moistureLiveHerbaceous_ _)).
  rewrite (updateMoisturesBasedOnInputMode_absorbs (Assign_moistureLiveWoody_ _)).
  reflexivity.
Qed.

(** X3.  Refreshing the moisture array twice is refreshing it once. *)
Theorem updateMoisturesBasedOnInputMode_idempotent (this : SurfaceInputs) :
  SurfaceInputs.updateMoisturesBasedOnInputMode
    (SurfaceInputs.updateMoisturesBasedOnInputMode this)
  = SurfaceInputs.updateMoisturesBasedOnInputMode this.
Proof. by_moisture_input_mode this; reflexivity. Qed.

(** [updateSurfaceInputs] leaves the moisture array in step with the members
    and the mode: a refresh right after it changes nothing. *)
Lemma updateSurfaceInputs_leaves_moistures_in_sync
    fuelModelNumber moistureOneHour moistureTenHour moistureHundredHour
    moistureLiveHerbaceous moistureLiveWoody moistureUnits windSpeed windSpeedUnits
    windHeightInputMode windDirection windAndSpreadOrientationMode slope slopeUnits aspect
    canopyCover coverUnits canopyHeight canopyHeightUnits crownRatio this :
  let updated :=
    SurfaceInputs.updateSurfaceInputs fuelModelNumber moistureOneHour moistureTenHour
      moistureHundredHour moistureLiveHerbaceous moistureLiveWoody moistureUnits windSpeed
      windSpeedUnits windHeightInputMode windDirection windAndSpreadOrientationMode slope
      slopeUnits aspect canopyCover coverUnits canopyHeight canopyHeightUnits crownRatio
      this in
  SurfaceInputs.updateMoisturesBasedOnInputMode updated = updated.
Proof.
  intros updated. subst updated. rewrite updateSurfaceInputs_merged.
  rewrite !updateMoisturesBasedOnInputMode_as_assignment.
  apply SurfaceInputs_ext; inputs_fields; reflexivity.
Qed.

(** X4.  Which moisture classes are inputs: none in scenario mode; in every
    other mode the dead fuels are entered either as the three size classes
    or as the dead aggregate, never both, and the live fuels either as
    herbaceous and woody or as the live aggregate, never both. *)
Theorem moisture_classes_needed_partition (this : SurfaceInputs) :
  let needed c := SurfaceInputs.isMoistureClassInputNeeded c this in
  (moistureInputMode_ this = MoistureScenario -> forall c, needed c = false)
  /\ (moistureInputMode_ this <> MoistureScenario ->
      needed TenHour = needed OneHour
      /\ needed HundredHour = needed OneHour
      /\ needed DeadAggregate = negb (needed OneHour)
      /\ needed LiveWoody = needed LiveHerbaceous
      /\ needed LiveAggregate = negb (needed LiveHerbaceous)).
Proof.
  intros needed. subst needed. unfold SurfaceInputs.isMoistureClassInputNeeded.
  destruct (moistureInputMode_ this); split; intros Hmode;
    try discriminate; try congruence.
  all: try (intros c; destruct c; reflexivity).
  all: repeat split; reflexivity.
Qed.

(** X5.  A moisture setter shows in what the getters report exactly when
    [isMoistureClassInputNeeded] says its class is an input: then the getter
    of that class returns the value set, converted to base units and back;
    otherwise all seven getters return what they return after a mere refresh
    of the array. *)
Theorem moisture_setter_effective_iff_needed
    (moistureClass : MoistureClassInputEnum) (moisture : R)
    (moistureUnits getterUnits' : MoistureUnitsEnum) (this : SurfaceInputs) :
  let after := SurfaceInputs.setMoistureOfClass moistureClass moisture moistureUnits this in
  (SurfaceInputs.isMoistureClassInputNeeded moistureClass this = true ->
   SurfaceInputs.getMoistureOfClass moistureClass getterUnits' after
   = MoistureUnits_fromBaseUnits (MoistureUnits_toBaseUnits moisture moistureUnits)
       getterUnits')
  /\ (SurfaceInputs.isMoistureClassInputNeeded moistureClass this = false ->
      forall c,
        SurfaceInputs.getMoistureOfClass c getterUnits' after
        = SurfaceInputs.getMoistureOfClass c getterUnits'
            (SurfaceInputs.updateMoisturesBasedOnInputMode this)).
Proof.
  intros after. subst after.
  by_moisture_input_mode this; destruct moistureClass;
    (split; intros Hneeded; [| intros c]);
    try (vm_compute in Hneeded; discriminate Hneeded);
    try reflexivity; destruct c; reflexivity.
Qed.

(** X6.  Of two changes of the moisture input mode the second decides: the
    object is the one the second change alone would give, so a mode can be
    left and entered again without losing any moisture. *)
Theorem setMoistureInputMode_last_wins (first second : MoistureInputModeEnum)
    (this : SurfaceInputs) :
  SurfaceInputs.setMoistureInputMode second (SurfaceInputs.setMoistureInputMode first this)
  = SurfaceInputs.setMoistureInputMode second this.
Proof. destruct this, first, second; reflexivity. Qed.

(** X7.  Selecting a scenario at an index the table does not have returns
    false and resets the current index to -1; the array, and with it every
    moisture the getters report, stays as it was. *)
Theorem setMoistureScenarioByIndex_undefined (moistureScenarioIndex : Z)
    (this : SurfaceInputs) :
  getIsMoistureScenarioDefinedByIndex moistureScenarioIndex = false ->
  let result := SurfaceInputs.setMoistureScenarioByIndex moistureScenarioIndex this in
  fst result = false
  /\ SurfaceInputs.getCurrentMoistureScenarioIndex (snd result) = (-1)%Z
  /\ moistureValuesBySizeClass_ (snd result) = moistureValuesBySizeClass_ this
  /\ forall c moistureUnits,
       SurfaceInputs.getMoistureOfClass c moistureUnits (snd result)
       = SurfaceInputs.getMoistureOfClass c moistureUnits this.
Proof.
  intros Hundefined result. subst result.
  unfold SurfaceInputs.setMoistureScenarioByIndex. rewrite Hundefined.
  repeat split.
Qed.

(** X8.  Selecting a scenario the table has returns true and stores its
    index; in scenario mode the getters then report that scenario's five
    moistures, and -1 for the two aggregates. *)
Theorem setMoistureScenarioByIndex_defined (moistureScenarioIndex : Z)
    (moistureUnits : MoistureUnitsEnum) (this : SurfaceInputs) :
  getIsMoistureScenarioDefinedByIndex moistureScenarioIndex = true ->
  moistureInputMode_ this = MoistureScenario ->
  let result := SurfaceInputs.setMoistureScenarioByIndex moistureScenarioIndex this in
  let reported c := SurfaceInputs.getMoistureOfClass c moistureUnits (snd result) in
  let scenario value := MoistureUnits_fromBaseUnits value moistureUnits in
  fst result = true
  /\ SurfaceInputs.getCurrentMoistureScenarioIndex (snd result) = moistureScenarioIndex
  /\ reported OneHour = scenario (getMoistureScenarioOneHourByIndex moistureScenarioIndex)
  /\ reported TenHour = scenario (getMoistureScenarioTenHourByIndex moistureScenarioIndex)
  /\ reported HundredHour
     = scenario (getMoistureScenarioHundredHourByIndex moistureScenarioIndex)
  /\ reported LiveHerbaceous
     = scenario (getMoistureScenarioLiveHerbaceousByIndex moistureScenarioIndex)
  /\ reported LiveWoody
     = scenario (getMoistureScenarioLiveWoodyByIndex moistureScenarioIndex)
  /\ reported DeadAggregate = scenario (-1)
  /\ reported LiveAggregate = scenario (-1).
Proof.
  intros Hdefined Hmode result reported scenario. subst result reported scenario.
  unfold SurfaceInputs.setMoistureScenarioByIndex. rewrite Hdefined.
  destruct this. cbn in Hmode. subst. repeat split.
Qed.

(** X9.  [updateSurfaceInputs] always leaves single-fuel mode behind
    ([isUsingTwoFuelModels_] off, method [NoMethod]), and it never changes
    the moisture input mode, the two aggregate moistures, the scenario
    index, the three special-fuel flags, the second fuel model number or the
    first fuel model's coverage.  So a size-class moisture passed in for a
    class that is not an input in the current mode is stored but not
    reported. *)
Theorem updateSurfaceInputs_frame
    fuelModelNumber moistureOneHour moistureTenHour moistureHundredHour
    moistureLiveHerbaceous moistureLiveWoody moistureUnits windSpeed windSpeedUnits
    windHeightInputMode windDirection windAndSpreadOrientationMode slope slopeUnits aspect
    canopyCover coverUnits canopyHeight canopyHeightUnits crownRatio this :
  let updated :=
    SurfaceInputs.updateSurfaceInputs fuelModelNumber moistureOneHour moistureTenHour
      moistureHundredHour moistureLiveHerbaceous moistureLiveWoody moistureUnits windSpeed
      windSpeedUnits windHeightInputMode windDirection windAndSpreadOrientationMode slope
      slopeUnits aspect canopyCover coverUnits canopyHeight canopyHeightUnits crownRatio
      this in
  (isUsingTwoFuelModels_ updated = false /\ twoFuelModelsMethod_ updated = NoMethod)
  /\ (moistureInputMode_ updated = moistureInputMode_ this
      /\ moistureDeadAggregate_ updated = moistureDeadAggregate_ this
      /\ moistureLiveAggregate_ updated = moistureLiveAggregate_ this
      /\ currentMoistureScenarioIndex_ updated = currentMoistureScenarioIndex_ this)
  /\ (isUsingPalmettoGallberry_ updated = isUsingPalmettoGallberry_ this
      /\ isUsingWesternAspen_ updated = isUsingWesternAspen_ this
      /\ isUsingChaparral_ updated = isUsingChaparral_ this)
  /\ (secondFuelModelNumber_ updated = secondFuelModelNumber_ this
      /\ firstFuelModelCoverage_ updated = firstFuelModelCoverage_ this)
  /\ (moistureOneHour_ updated = MoistureUnits_toBaseUnits moistureOneHour moistureUnits
      /\ (SurfaceInputs.isMoistureClassInputNeeded OneHour this = false ->
          forall getterUnits',
            SurfaceInputs.getMoistureOneHour getterUnits' updated
            = SurfaceInputs.getMoistureOneHour getterUnits'
                (SurfaceInputs.updateMoisturesBasedOnInputMode this))).
Proof.
  intros updated. subst updated. rewrite updateSurfaceInputs_merged.
  unfold SurfaceInputs.getMoistureOneHour, SurfaceInputs.isMoistureClassInputNeeded.
  rewrite !updateMoisturesBasedOnInputMode_as_assignment. inputs_fields.
  repeat split. intros Hneeded getterUnits'.
  destruct (moistureInputMode_ this); try reflexivity;
    vm_compute in Hneeded; discriminate Hneeded.
Qed.

End MoistureFacts.

(** ** Surface: runs, staged inputs and the remaining calculations *)

Section SurfaceFacts.
Context {units : UnitConversions} {scenarios : MoistureScenarios}.
Context {getterUnits : GetterUnitConversions}.
Context {catalogue : FuelCatalogue} {rothermel : RothermelModel}.
Context {loads : FuelLoads} {wind : SurfaceFireWind}.

(** Both runs, down to the call they make. *)
Ltac unfold_surface_runs :=
  unfold Surface.doSurfaceRunInDirectionOfMaxSpread,
    Surface.doSurfaceRunInDirectionOfInterest, Surface.perform,
    Surface.isUsingTwoFuelModels, Surface.isAllFuelLoadZero, Surface.isFuelModelDefined,
    SurfaceInputs.isUsingTwoFuelModels, SurfaceInputs.getFuelModelNumber,
    SurfaceInputs.getIsUsingPalmettoGallberry, SurfaceInputs.getIsUsingWesternAspen,
    SurfaceInputs.getIsUsingChaparral, SurfaceInputs.getTwoFuelModelsMethod,
    SurfaceInputs.getFirstFuelModelNumber, SurfaceInputs.getFirstFuelModelCoverage,
    SurfaceInputs.getSecondFuelModelNumber;
  cbn [Surface.surfaceInputs_ Surface.with_surfaceInputs_ Surface.with_surfaceFire_
       Surface.fuelModels_ Surface.surfaceFire_ fst snd].

(** X10.  A run changes the inputs by a refresh of the moisture array and in
    no other way, and it leaves the catalogue alone: whichever of the three
    calls it makes, the call goes to the [SurfaceFire] member, which (by the
    interface taken for surfaceFire.h) reads the inputs and the catalogue
    without writing them. *)
Theorem surface_run_frame (this : Surface.Surface) (directionOfInterest : R)
    (directionMode : SurfaceFireSpreadDirectionModeEnum) :
  let refreshed :=
    SurfaceInputs.updateMoisturesBasedOnInputMode (Surface.surfaceInputs_ this) in
  let inMaxSpread := snd (Surface.doSurfaceRunInDirectionOfMaxSpread this) in
  let inDirection :=
    snd (Surface.doSurfaceRunInDirectionOfInterest directionOfInterest directionMode this) in
  (Surface.surfaceInputs_ inMaxSpread = refreshed
   /\ Surface.fuelModels_ inMaxSpread = Surface.fuelModels_ this)
  /\ (Surface.surfaceInputs_ inDirection = refreshed
      /\ Surface.fuelModels_ inDirection = Surface.fuelModels_ this).
Proof.
  intros refreshed inMaxSpread inDirection. subst refreshed inMaxSpread inDirection.
  unfold_surface_runs.
  repeat match goal with |- context [if ?b then _ else _] => destruct b end;
    repeat split.
Qed.

(** The inputs member after [Surface::updateSurfaceInputs]. *)
Lemma Surface_updateSurfaceInputs_inputs
    fuelModelNumber moistureOneHour moistureTenHour moistureHundredHour
    moistureLiveHerbaceous moistureLiveWoody moistureUnits windSpeed windSpeedUnits
    windHeightInputMode windDirection windAndSpreadOrientationMode slope slopeUnits aspect
    canopyCover coverUnits canopyHeight canopyHeightUnits crownRatio
    (this : Surface.Surface) :
  Surface.surfaceInputs_
    (Surface.updateSurfaceInputs fuelModelNumber moistureOneHour moistureTenHour
       moistureHundredHour moistureLiveHerbaceous moistureLiveWoody moistureUnits windSpeed
       windSpeedUnits windHeightInputMode windDirection windAndSpreadOrientationMode slope
       slopeUnits aspect canopyCover coverUnits canopyHeight canopyHeightUnits crownRatio
       this)
  = SurfaceInputs.updateSurfaceInputs fuelModelNumber moistureOneHour moistureTenHour
      moistureHundredHour moistureLiveHerbaceous moistureLiveWoody moistureUnits windSpeed
      windSpeedUnits windHeightInputMode windDirection windAndSpreadOrientationMode slope
      slopeUnits aspect canopyCover coverUnits canopyHeight canopyHeightUnits crownRatio
      (Surface.surfaceInputs_ this).
Proof.
  unfold Surface.updateSurfaceInputs, Surface.surfaceFire_calculateMidflameWindSpeed,
    Surface.onSurfaceInputs.
  reflexivity.
Qed.

(** On inputs whose moisture array is in step, a run leaves the inputs member
    as it is. *)
Lemma surface_run_keeps_inputs_in_sync (this : Surface.Surface) (directionOfInterest : R)
    (directionMode : SurfaceFireSpreadDirectionModeEnum) :
  SurfaceInputs.updateMoisturesBasedOnInputMode (Surface.surfaceInputs_ this)
  = Surface.surfaceInputs_ this ->
  Surface.surfaceInputs_ (snd (Surface.doSurfaceRunInDirectionOfMaxSpread this))
  = Surface.surfaceInputs_ this
  /\ Surface.surfaceInputs_
       (snd (Surface.doSurfaceRunInDirectionOfInterest directionOfInterest directionMode
               this))
     = Surface.surfaceInputs_ this.
Proof.
  intros Hsync. unfold_surface_runs. rewrite Hsync.
  split; repeat match goal with |- context [if ?b then _ else _] => destruct b end;
    reflexivity.
Qed.

(** X11.  Inputs staged with [Surface::updateSurfaceInputs] survive the runs:
    after either run the inputs member is exactly what
    [SurfaceInputs::updateSurfaceInputs] stored. *)
Theorem staged_inputs_survive_runs
    fuelModelNumber moistureOneHour moistureTenHour moistureHundredHour
    moistureLiveHerbaceous moistureLiveWoody moistureUnits windSpeed windSpeedUnits
    windHeightInputMode windDirection windAndSpreadOrientationMode slope slopeUnits aspect
    canopyCover coverUnits canopyHeight canopyHeightUnits crownRatio
    (this : Surface.Surface) (directionOfInterest : R)
    (directionMode : SurfaceFireSpreadDirectionModeEnum) :
  let staged :=
    Surface.updateSurfaceInputs fuelModelNumber moistureOneHour moistureTenHour
      moistureHundredHour moistureLiveHerbaceous moistureLiveWoody moistureUnits windSpeed
      windSpeedUnits windHeightInputMode windDirection windAndSpreadOrientationMode slope
      slopeUnits aspect canopyCover coverUnits canopyHeight canopyHeightUnits crownRatio
      this in
  let stored :=
    SurfaceInputs.updateSurfaceInputs fuelModelNumber moistureOneHour moistureTenHour
      moistureHundredHour moistureLiveHerbaceous moistureLiveWoody moistureUnits windSpeed
      windSpeedUnits windHeightInputMode windDirection windAndSpreadOrientationMode slope
      slopeUnits aspect canopyCover coverUnits canopyHeight canopyHeightUnits crownRatio
      (Surface.surfaceInputs_ this) in
  Surface.surfaceInputs_ staged = stored
  /\ Surface.surfaceInputs_ (snd (Surface.doSurfaceRunInDirectionOfMaxSpread staged)) = stored
  /\ Surface.surfaceInputs_
       (snd (Surface.doSurfaceRunInDirectionOfInterest directionOfInterest directionMode
               staged))
     = stored.
Proof.
  intros staged stored.
  pose proof (Surface_updateSurfaceInputs_inputs fuelModelNumber moistureOneHour
                moistureTenHour moistureHundredHour moistureLiveHerbaceous moistureLiveWoody
                moistureUnits windSpeed windSpeedUnits windHeightInputMode windDirection
                windAndSpreadOrientationMode slope slopeUnits aspect canopyCover coverUnits
                canopyHeight canopyHeightUnits crownRatio this) as Hstaged.
  fold staged stored in Hstaged.
  pose proof (updateSurfaceInputs_leaves_moistures_in_sync fuelModelNumber moistureOneHour
                moistureTenHour moistureHundredHour moistureLiveHerbaceous moistureLiveWoody
                moistureUnits windSpeed windSpeedUnits windHeightInputMode windDirection
                windAndSpreadOrientationMode slope slopeUnits aspect canopyCover coverUnits
                canopyHeight canopyHeightUnits crownRatio (Surface.surfaceInputs_ this))
    as Hsync.
  cbv zeta in Hsync. fold stored in Hsync.
  clearbody staged stored.
  split; [exact Hstaged |].
  rewrite <- Hstaged in Hsync |- *.
  exact (surface_run_keeps_inputs_in_sync staged directionOfInterest directionMode Hsync).
Qed.

(** X12.  Where the run in the direction of maximum spread skips the
    calculation, so does the run in a direction of interest; and with none of
    the special fuel modes on, the two runs skip in exactly the same states. *)
Theorem max_spread_skip_implies_direction_skip (this : Surface.Surface)
    (directionOfInterest : R) (directionMode : SurfaceFireSpreadDirectionModeEnum) :
  let inMaxSpread := fst (Surface.doSurfaceRunInDirectionOfMaxSpread this) in
  let inDirection :=
    fst (Surface.doSurfaceRunInDirectionOfInterest directionOfInterest directionMode this) in
  (inMaxSpread = SkipCalculationForZeroLoad -> inDirection = SkipCalculationForZeroLoad)
  /\ (isUsingPalmettoGallberry_ (Surface.surfaceInputs_ this) = false ->
      isUsingWesternAspen_ (Surface.surfaceInputs_ this) = false ->
      isUsingChaparral_ (Surface.surfaceInputs_ this) = false ->
      inDirection = SkipCalculationForZeroLoad -> inMaxSpread = SkipCalculationForZeroLoad).
Proof.
  intros inMaxSpread inDirection. subst inMaxSpread inDirection.
  destruct (updateMoisturesBasedOnInputMode_frame (Surface.surfaceInputs_ this))
    as (Hnumber & Htwo & Hpalmetto & Haspen & Hchaparral).
  unfold_surface_runs. rewrite Htwo, Hnumber, Hpalmetto, Haspen, Hchaparral.
  destruct (isUsingTwoFuelModels_ (Surface.surfaceInputs_ this)).
  - split; intros; discriminate.
  - destruct (FuelModels_isAllFuelLoadZero _ _ || negb (FuelModels_isFuelModelDefined _ _)).
    + split; [reflexivity |]. intros -> -> ->. reflexivity.
    + rewrite andb_false_r. split; intros; assumption || discriminate.
Qed.

(** What a refresh keeps of the two-fuel-models members. *)
Lemma updateMoisturesBasedOnInputMode_two_fuel_members (inputs : SurfaceInputs) :
  let inputs' := SurfaceInputs.updateMoisturesBasedOnInputMode inputs in
  isUsingTwoFuelModels_ inputs' = isUsingTwoFuelModels_ inputs
  /\ twoFuelModelsMethod_ inputs' = twoFuelModelsMethod_ inputs
  /\ fuelModelNumber_ inputs' = fuelModelNumber_ inputs
  /\ firstFuelModelCoverage_ inputs' = firstFuelModelCoverage_ inputs
  /\ secondFuelModelNumber_ inputs' = secondFuelModelNumber_ inputs.
Proof.
  unfold SurfaceInputs.updateMoisturesBasedOnInputMode.
  destruct (moistureInputMode_ inputs); repeat split; reflexivity.
Qed.

(** In two-fuel-models mode both runs hand the stored pair of fuel models to
    the weighted calculation. *)
Lemma two_fuel_models_run_call (this : Surface.Surface) (directionOfInterest : R)
    (directionMode : SurfaceFireSpreadDirectionModeEnum) :
  let inputs := Surface.surfaceInputs_ this in
  isUsingTwoFuelModels_ inputs = true ->
  fst (Surface.doSurfaceRunInDirectionOfMaxSpread this)
  = CalculateWeightedSpreadRate (twoFuelModelsMethod_ inputs) (fuelModelNumber_ inputs)
      (firstFuelModelCoverage_ inputs) (secondFuelModelNumber_ inputs) false 0
      FromIgnitionPoint
  /\ fst (Surface.doSurfaceRunInDirectionOfInterest directionOfInterest directionMode this)
     = CalculateWeightedSpreadRate (twoFuelModelsMethod_ inputs) (fuelModelNumber_ inputs)
         (firstFuelModelCoverage_ inputs) (secondFuelModelNumber_ inputs) true
         directionOfInterest directionMode.
Proof.
  intros inputs Htwo. subst inputs.
  destruct (updateMoisturesBasedOnInputMode_two_fuel_members (Surface.surfaceInputs_ this))
    as (Htwo' & Hmethod & Hfirst & Hcoverage & Hsecond).
  unfold_surface_runs. rewrite Htwo', Htwo, Hmethod, Hfirst, Hcoverage, Hsecond.
  split; reflexivity.
Qed.

(** What [updateSurfaceInputsForTwoFuelModels] stores for the pair. *)
Lemma updateSurfaceInputsForTwoFuelModels_members
    firstfuelModelNumber secondFuelModelNumber moistureOneHour moistureTenHour
    moistureHundredHour moistureLiveHerbaceous moistureLiveWoody moistureUnits windSpeed
    windSpeedUnits windHeightInputMode windDirection windAndSpreadOrientationMode
    firstFuelModelCoverage firstFuelModelCoverageUnits twoFuelModelsMethod slope slopeUnits
    aspect canopyCover canopyCoverUnits canopyHeight canopyHeightUnits crownRatio
    (this : SurfaceInputs) :
  let updated :=
    SurfaceInputs.updateSurfaceInputsForTwoFuelModels firstfuelModelNumber
      secondFuelModelNumber moistureOneHour moistureTenHour moistureHundredHour
      moistureLiveHerbaceous moistureLiveWoody moistureUnits windSpeed windSpeedUnits
      windHeightInputMode windDirection windAndSpreadOrientationMode firstFuelModelCoverage
      firstFuelModelCoverageUnits twoFuelModelsMethod slope slopeUnits aspect canopyCover
      canopyCoverUnits canopyHeight canopyHeightUnits crownRatio this in
  isUsingTwoFuelModels_ updated = true
  /\ twoFuelModelsMethod_ updated = twoFuelModelsMethod
  /\ fuelModelNumber_ updated = firstfuelModelNumber
  /\ firstFuelModelCoverage_ updated
     = CoverUnits_toBaseUnits firstFuelModelCoverage firstFuelModelCoverageUnits
  /\ secondFuelModelNumber_ updated = secondFuelModelNumber.
Proof.
  intros updated. subst updated.
  unfold SurfaceInputs.updateSurfaceInputsForTwoFuelModels,
    SurfaceInputs.setSecondFuelModelNumber,
    SurfaceInputs.setTwoFuelModelsFirstFuelModelCoverage,
    SurfaceInputs.setTwoFuelModelsMethod.
  cbv zeta. rewrite updateSurfaceInputs_merged.
  rewrite updateMoisturesBasedOnInputMode_as_assignment. inputs_fields.
  repeat split.
Qed.

(** X13.  After [Surface::updateSurfaceInputsForTwoFuelModels] both runs call
    the weighted two-fuel-models calculation, with the method, the two fuel
    model numbers and the coverage (in base units) just staged; neither run
    looks at the fuel loads, so neither skips the calculation. *)
Theorem two_fuel_models_run_never_skips
    firstfuelModelNumber secondFuelModelNumber moistureOneHour moistureTenHour
    moistureHundredHour moistureLiveHerbaceous moistureLiveWoody moistureUnits windSpeed
    windSpeedUnits windHeightInputMode windDirection windAndSpreadOrientationMode
    firstFuelModelCoverage firstFuelModelCoverageUnits twoFuelModelsMethod slope slopeUnits
    aspect canopyCover canopyCoverUnits canopyHeight canopyHeightUnits crownRatio
    (this : Surface.Surface) (directionOfInterest : R)
    (directionMode : SurfaceFireSpreadDirectionModeEnum) :
  let staged :=
    Surface.updateSurfaceInputsForTwoFuelModels firstfuelModelNumber secondFuelModelNumber
      moistureOneHour moistureTenHour moistureHundredHour moistureLiveHerbaceous
      moistureLiveWoody moistureUnits windSpeed windSpeedUnits windHeightInputMode
      windDirection windAndSpreadOrientationMode firstFuelModelCoverage
      firstFuelModelCoverageUnits twoFuelModelsMethod slope slopeUnits aspect canopyCover
      canopyCoverUnits canopyHeight canopyHeightUnits crownRatio this in
  let coverage := CoverUnits_toBaseUnits firstFuelModelCoverage firstFuelModelCoverageUnits in
  fst (Surface.doSurfaceRunInDirectionOfMaxSpread staged)
  = CalculateWeightedSpreadRate twoFuelModelsMethod firstfuelModelNumber coverage
      secondFuelModelNumber false 0 FromIgnitionPoint
  /\ fst (Surface.doSurfaceRunInDirectionOfInterest directionOfInterest directionMode staged)
     = CalculateWeightedSpreadRate twoFuelModelsMethod firstfuelModelNumber coverage
         secondFuelModelNumber true directionOfInterest directionMode.
Proof.
  intros staged coverage.
  destruct (updateSurfaceInputsForTwoFuelModels_members firstfuelModelNumber
              secondFuelModelNumber moistureOneHour moistureTenHour moistureHundredHour
              moistureLiveHerbaceous moistureLiveWoody moistureUnits windSpeed windSpeedUnits
              windHeightInputMode windDirection windAndSpreadOrientationMode
              firstFuelModelCoverage firstFuelModelCoverageUnits twoFuelModelsMethod slope
              slopeUnits aspect canopyCover canopyCoverUnits canopyHeight canopyHeightUnits
              crownRatio (Surface.surfaceInputs_ this))
    as (Htwo & Hmethod & Hfirst & Hcoverage & Hsecond).
  change (SurfaceInputs.updateSurfaceInputsForTwoFuelModels _ _ _ _ _ _ _ _ _ _ _ _ _ _ _ _
            _ _ _ _ _ _ _ _ _)
    with (Surface.surfaceInputs_ staged) in Htwo, Hmethod, Hfirst, Hcoverage, Hsecond.
  clearbody staged.
  destruct (two_fuel_models_run_call staged directionOfInterest directionMode Htwo)
    as [HmaxSpread Hdirection].
  rewrite HmaxSpread, Hdirection, Hmethod, Hfirst, Hcoverage, Hsecond.
  split; reflexivity.
Qed.

(** X14.  [isMoistureClassInputNeededForCurrentFuelModel] narrows
    [isMoistureClassInputNeeded] by the loads of the current fuel model: it
    never asks for a class the mode does not take; it asks for the dead
    aggregate whatever the loads; it asks for a size class only if that class
    has a positive load, and for the live aggregate only if live herbaceous
    or live woody fuel has one. *)
Theorem moisture_input_needed_for_current_fuel_model (this : Surface.Surface) :
  let forModel c := Surface.isMoistureClassInputNeededForCurrentFuelModel c this in
  let needed c :=
    SurfaceInputs.isMoistureClassInputNeeded c (Surface.surfaceInputs_ this) in
  let load (getFuelLoad : FuelModels -> Z -> LoadingUnitsEnum -> R) :=
    getFuelLoad (Surface.fuelModels_ this) (fuelModelNumber_ (Surface.surfaceInputs_ this))
      LoadingUnits_PoundsPerSquareFoot in
  (forall c, forModel c = true -> needed c = true)
  /\ forModel DeadAggregate = needed DeadAggregate
  /\ (forModel OneHour = true <-> needed OneHour = true /\ load FuelModels_getFuelLoadOneHour > 0)
  /\ (forModel TenHour = true <-> needed TenHour = true /\ load FuelModels_getFuelLoadTenHour > 0)
  /\ (forModel HundredHour = true
      <-> needed HundredHour = true /\ load FuelModels_getFuelLoadHundredHour > 0)
  /\ (forModel LiveHerbaceous = true
      <-> needed LiveHerbaceous = true /\ load FuelModels_getFuelLoadLiveHerbaceous > 0)
  /\ (forModel LiveWoody = true
      <-> needed LiveWoody = true /\ load FuelModels_getFuelLoadLiveWoody > 0)
  /\ (forModel LiveAggregate = true
      <-> needed LiveAggregate = true
          /\ (load FuelModels_getFuelLoadLiveHerbaceous > 0
              \/ load FuelModels_getFuelLoadLiveWoody > 0)).
Proof.
  intros forModel needed load. subst forModel needed load.
  unfold Surface.isMoistureClassInputNeededForCurrentFuelModel,
    SurfaceInputs.getFuelModelNumber.
  cbv zeta.
  split; [intros c Hc; apply andb_true_iff in Hc; exact (proj1 Hc) |].
  rewrite !(bool_decide_eq_true_2 (_ = _) eq_refl).
  rewrite !bool_decide_eq_false_2 by discriminate.
  cbv iota. rewrite andb_true_r.
  split; [reflexivity |].
  repeat match goal with
    | |- _ /\ _ => split
    | |- context [bool_decide (?x > 0)] => destruct (bool_decide_reflect (x > 0))
    end;
    rewrite ?orb_true_l, ?orb_true_r, ?orb_false_r, ?andb_true_r, ?andb_false_r;
    split; intros H; try discriminate H; try tauto.
Qed.

(** X15.  [Surface::getWindSpeed] turns the midflame wind speed back into a
    wind speed at input height: the midflame speed itself for
    [DirectMidflame]; for a positive wind adjustment factor the midflame
    speed divided by the factor at twenty feet, and 1.15 times that at ten
    metres; and with a factor of zero or less it never divides: every mode
    gets the midflame speed. *)
Theorem surface_wind_speed_from_midflame (windSpeedUnits : SpeedUnitsEnum)
    (this : Surface.Surface) :
  let midflame := SurfaceFire_getMidflameWindSpeed (Surface.surfaceFire_ this) in
  let factor := SurfaceFire_getWindAdjustmentFactor (Surface.surfaceFire_ this) in
  let reported mode := Surface.getWindSpeed windSpeedUnits mode this in
  reported DirectMidflame = SpeedUnits_fromBaseUnits midflame windSpeedUnits
  /\ (factor > 0 ->
      reported TwentyFoot = SpeedUnits_fromBaseUnits (midflame / factor) windSpeedUnits
      /\ reported TenMeter
         = SpeedUnits_fromBaseUnits (midflame / factor * 1.15) windSpeedUnits)
  /\ (factor <= 0 ->
      forall mode, reported mode = SpeedUnits_fromBaseUnits midflame windSpeedUnits).
Proof.
  intros midflame factor reported. subst reported.
  unfold Surface.getWindSpeed. fold midflame factor. cbv zeta.
  split; [reflexivity |].
  destruct (bool_decide_reflect (factor > 0)) as [Hpositive | Hnot];
    (split; [intros Hfactor | intros Hfactor mode]); try lra.
  - split; reflexivity.
  - destruct mode; reflexivity.
Qed.

(** X16.  [Surface::calculateScorchHeight]: below an intensity of 1e-7
    Btu/ft/s the scorch height is 0 whatever the wind and the temperature
    (also at 140 degrees, where the formula would divide by zero); from there
    on, under 140 degrees and with a wind speed that is not negative, it is
    [63 / (140 - T) * I^1.166667 / sqrt (I + U^3)], a positive height. *)
Theorem scorch_height_law (firelineIntensity : R)
    (firelineIntensityUnits : FirelineIntensityUnitsEnum)
    (midFlameWindSpeed : R) (windSpeedUnits : SpeedUnitsEnum)
    (airTemperature : R) (temperatureUnits : TemperatureUnitsEnum)
    (scorchHeightUnits : LengthUnitsEnum) :
  let I := FirelineIntensityUnits_toBaseUnits firelineIntensity firelineIntensityUnits in
  let U :=
    SpeedUnits_fromBaseUnits (SpeedUnits_toBaseUnits midFlameWindSpeed windSpeedUnits)
      SpeedUnits_MilesPerHour in
  let T := TemperatureUnits_toBaseUnits airTemperature temperatureUnits in
  let scorchHeight :=
    Surface.calculateScorchHeight firelineIntensity firelineIntensityUnits midFlameWindSpeed
      windSpeedUnits airTemperature temperatureUnits scorchHeightUnits in
  (I < 1e-7 -> scorchHeight = LengthUnits_fromBaseUnits 0 scorchHeightUnits)
  /\ (1e-7 <= I -> T < 140 -> 0 <= U ->
      let value := 63 / (140 - T) * Rpower I 1.166667 / sqrt (I + U * U * U) in
      scorchHeight = LengthUnits_fromBaseUnits value scorchHeightUnits /\ 0 < value).
Proof.
  intros I U T scorchHeight. subst scorchHeight.
  unfold Surface.calculateScorchHeight. fold I U T. cbv zeta.
  split.
  - intros Hsmall. destruct (Rlt_dec I 1e-7); [reflexivity | lra].
  - intros Hlarge Hcool Hwind.
    destruct (Rlt_dec I 1e-7); [lra |].
    assert (HI : 0 < I) by lra.
    rewrite (pow_positive_base I _ HI). split; [reflexivity |].
    assert (Hcube : 0 <= U * U * U) by (apply Rmult_le_pos; [apply Rmult_le_pos |]; lra).
    assert (Hroot : 0 < sqrt (I + U * U * U)) by (apply sqrt_lt_R0; lra).
    assert (Hpower : 0 < Rpower I 1.166667) by (unfold Rpower; apply exp_pos).
    assert (Hfactor : 0 < 63 / (140 - T)) by (apply Rdiv_lt_0_compat; lra).
    apply Rdiv_lt_0_compat; [apply Rmult_lt_0_compat |]; assumption.
Qed.

End SurfaceFacts.

(** ** Crown: what a run stores, repeated runs, and the power of the wind *)

Section CrownOutputs.
Context {catalogue : FuelCatalogue} {spread : SpreadModel}.

Implicit Types (env : Crown.Env) (this : Crown.Crown) (h : gmap positive SurfaceInputs).

(** The state in which [calculateCrownFireSpreadRate] leaves the object:
    every member, in terms of the caller's inputs, the deep copy, the crown
    inputs and the surface outputs at the time of the call. *)
Lemma calculateCrownFireSpreadRate_state env this h (callerInputs deepCopy : SurfaceInputs) :
  Crown.surfaceInputs_ this <> Crown.crownDeepCopyOfSurfaceInputs_ this ->
  Crown.spreadInputs_ (Crown.crownFireSpread_ this) = Crown.crownDeepCopyOfSurfaceInputs_ this ->
  h !! Crown.surfaceInputs_ this = Some callerInputs ->
  h !! Crown.crownDeepCopyOfSurfaceInputs_ this = Some deepCopy ->
  let wind := Crown.windSpeedAtTwentyFeet callerInputs in
  let scenario := Crown.crownScenario deepCopy (0.4 * wind) in
  let spreadResult :=
    SurfaceFireSpread_calculateForwardSpreadRate (Crown.fuelModelSet env) scenario
      (Crown.spreadState_ (Crown.crownFireSpread_ this)) in
  let rate := 3.34 * fst spreadResult in
  let density := canopyBulkDensity_ (Crown.crownInputs env) in
  let baseHeight := canopyBaseHeight_ (Crown.crownInputs env) in
  let moisture := foliarMoisture_ (Crown.crownInputs env) in
  let load := density * (canopyHeight_ callerInputs - baseHeight) in
  let heat := Surface.getHeatPerUnitArea (Crown.surface env) + load * 8000 in
  let intensity := rate / 60 * heat in
  let excess := (wind * (5280 / 60) - rate) / 60 in
  let excess' := if Rlt_dec excess 1e-7 then 0 else excess in
  exists this',
    Crown.calculateCrownFireSpreadRate env this h
    = Some (rate, this', <[Crown.crownDeepCopyOfSurfaceInputs_ this := scenario]> h)
    /\ Crown.surfaceInputs_ this' = Crown.surfaceInputs_ this
    /\ Crown.crownDeepCopyOfSurfaceInputs_ this' = Crown.crownDeepCopyOfSurfaceInputs_ this
    /\ Crown.crownFireSpread_ this'
       = {| Crown.spreadInputs_ := Crown.crownDeepCopyOfSurfaceInputs_ this;
            Crown.spreadState_ := snd spreadResult |}
    /\ Crown.windSpeedAtTwentyFeet_ this' = wind
    /\ Crown.crownFireSpreadRate_ this' = rate
    /\ Crown.crownCopyOfSurfaceHeatPerUnitArea_ this'
       = Surface.getHeatPerUnitArea (Crown.surface env)
    /\ Crown.crownCopyOfSurfaceFirelineIntensity_ this'
       = Surface.getFirelineIntensity (Crown.surface env)
    /\ Crown.crownFuelLoad_ this' = load
    /\ Crown.canopyHeatPerUnitArea_ this' = load * 8000
    /\ Crown.crownFireHeatPerUnitArea_ this' = heat
    /\ Crown.crownFirelineIntensity_ this' = intensity
    /\ Crown.crownFlameLength_ this' = 0.2 * pow intensity (2 / 3)
    /\ Crown.crownCriticalFireSpreadRate_ this'
       = (if Rlt_dec (16.0185 * density) 1e-7 then 0 else 3 / (16.0185 * density)) * 3.28084
    /\ Crown.crownCriticalSurfaceFireIntensity_ this'
       = pow (0.01 * (if Rlt_dec (baseHeight * 0.3048) 0.1 then 0.1 else baseHeight * 0.3048)
              * (450 + 25.9 * (if Rlt_dec moisture 30 then 30 else moisture))) 1.5
         * 0.288672
    /\ Crown.crownPowerOfFire_ this' = intensity / 129
    /\ Crown.crownPowerOfWind_ this' = 0.00106 * (excess' * excess' * excess')
    /\ Crown.crownFirePowerRatio_ this' = Crown.crownFirePowerRatio_ this
    /\ Crown.crownFireActiveRatio_ this' = Crown.crownFireActiveRatio_ this.
Proof.
  intros Hne Hwf Hin Hcopy wind scenario spreadResult rate density baseHeight moisture load
    heat intensity excess excess'.
  set (dc := Crown.crownDeepCopyOfSurfaceInputs_ this) in *.
  assert (Hin' : <[dc := scenario]> h !! Crown.surfaceInputs_ this = Some callerInputs)
    by (rewrite lookup_insert_ne by congruence; exact Hin).
  unfold Crown.calculateCrownFireSpreadRate, Crown.onDeepCopy.
  repeat crown_step. fold dc.
  rewrite (bind_update _ _ _ _ _ _ _ Hcopy).
  repeat crown_step. fold dc.
  rewrite (bind_update _ _ _ _ _ _ _ (lookup_insert_eq _ _ _)), insert_insert_eq.
  repeat crown_step. fold dc.
  rewrite (bind_update _ _ _ _ _ _ _ (lookup_insert_eq _ _ _)), insert_insert_eq.
  erewrite bind_run by
    (apply calculateWindSpeedAtTwentyFeet_run;
     rewrite lookup_insert_ne by congruence; exact Hin).
  repeat crown_step. crown_fields. fold dc.
  rewrite (bind_update _ _ _ _ _ _ _ (lookup_insert_eq _ _ _)), insert_insert_eq.
  change (SurfaceInputs.setWindSpeedInBaseUnits _ _) with scenario.
  erewrite bind_run by
    (apply crownFireSpread_calculateForwardSpreadRate_run;
     crown_fields; rewrite Hwf; apply lookup_insert_eq).
  crown_fields. fold spreadResult.
  unfold Crown.calculateCrownFuelLoad, Crown.calculateCanopyHeatPerUnitArea,
    Crown.calculateCrownFireHeatPerUnitArea, Crown.calculateCrownFirelineIntensity,
    Crown.calculateCrownFlameLength, Crown.calculateCrownCriticalFireSpreadRate,
    Crown.calculateCrownCriticalSurfaceFireIntensity,
    Crown.calculateCrownCriticalSurfaceFlameLength, Crown.calculateCrownPowerOfFire,
    Crown.calcuateCrownPowerOfWind.
  repeat crown_step. crown_fields.
  rewrite (bind_deref _ _ _ _ _ _ Hin').
  repeat crown_step.
  erewrite bind_run by
    (apply calculateWindSpeedAtTwentyFeet_run; crown_fields; exact Hin').
  repeat crown_step.
  eexists. split; [reflexivity |]. crown_fields. rewrite Hwf.
  repeat split.
Qed.

(** X17.  After a run the stored outputs hang together as the formulas say:
    the crown fuel load is the canopy bulk density times the canopy depth
    (the caller's canopy height minus the canopy base height); the canopy
    heat per unit area is 8000 Btu/lb times that load; the crown fire heat
    per unit area adds the surface fire's; the crown fireline intensity is
    the returned spread rate over 60 times that heat; the flame length is
    0.2 times the intensity to the power 2/3 (0 at intensity 0), and the
    power of the fire the intensity over 129. *)
Theorem crown_run_outputs env this h (callerInputs deepCopy : SurfaceInputs) :
  Crown.surfaceInputs_ this <> Crown.crownDeepCopyOfSurfaceInputs_ this ->
  Crown.spreadInputs_ (Crown.crownFireSpread_ this) = Crown.crownDeepCopyOfSurfaceInputs_ this ->
  h !! Crown.surfaceInputs_ this = Some callerInputs ->
  h !! Crown.crownDeepCopyOfSurfaceInputs_ this = Some deepCopy ->
  exists rate this' h',
    Crown.calculateCrownFireSpreadRate env this h = Some (rate, this', h')
    /\ let load :=
         canopyBulkDensity_ (Crown.crownInputs env)
         * (canopyHeight_ callerInputs - canopyBaseHeight_ (Crown.crownInputs env)) in
       let heat := Surface.getHeatPerUnitArea (Crown.surface env) + load * 8000 in
       let intensity := rate / 60 * heat in
       Crown.crownFireSpreadRate_ this' = rate
       /\ Crown.crownFuelLoad_ this' = load
       /\ Crown.canopyHeatPerUnitArea_ this' = load * 8000
       /\ Crown.crownFireHeatPerUnitArea_ this' = heat
       /\ Crown.crownFirelineIntensity_ this' = intensity
       /\ (0 < intensity -> Crown.crownFlameLength_ this' = 0.2 * Rpower intensity (2 / 3))
       /\ (intensity = 0 -> Crown.crownFlameLength_ this' = 0)
       /\ Crown.crownPowerOfFire_ this' = intensity / 129.
Proof.
  intros Hne Hwf Hin Hcopy.
  destruct (calculateCrownFireSpreadRate_state env this h callerInputs deepCopy
              Hne Hwf Hin Hcopy)
    as (this' & Hrun & _ & _ & _ & _ & Hrate & _ & _ & Hload & Hcanopy & Hheat & Hintensity
        & Hflame & _ & _ & Hpower & _).
  eexists. exists this'. eexists. split; [exact Hrun |].
  cbv zeta. rewrite Hflame.
  repeat split; try assumption.
  - intros Hpositive. rewrite pow_positive_base by exact Hpositive. reflexivity.
  - intros Hnone. unfold pow.
    destruct (Rlt_dec 0 _) as [Hpositive | _]; [lra | apply Rmult_0_r].
Qed.

(** X18.  A run can be repeated: after one run a second one succeeds too,
    the deep copy holds the same crown scenario after the second as after the
    first, no other object of the store has changed, and the object is again
    in a state from which a run succeeds. *)
Theorem crown_run_repeatable env this h (callerInputs deepCopy : SurfaceInputs) :
  Crown.surfaceInputs_ this <> Crown.crownDeepCopyOfSurfaceInputs_ this ->
  Crown.spreadInputs_ (Crown.crownFireSpread_ this) = Crown.crownDeepCopyOfSurfaceInputs_ this ->
  h !! Crown.surfaceInputs_ this = Some callerInputs ->
  h !! Crown.crownDeepCopyOfSurfaceInputs_ this = Some deepCopy ->
  let scenario :=
    Crown.crownScenario deepCopy (0.4 * Crown.windSpeedAtTwentyFeet callerInputs) in
  exists rate1 this1 rate2 this2,
    let h1 := <[Crown.crownDeepCopyOfSurfaceInputs_ this := scenario]> h in
    Crown.calculateCrownFireSpreadRate env this h = Some (rate1, this1, h1)
    /\ Crown.calculateCrownFireSpreadRate env this1 h1 = Some (rate2, this2, h1)
    /\ Crown.invariant this2 h1.
Proof.
  intros Hne Hwf Hin Hcopy scenario.
  set (dc := Crown.crownDeepCopyOfSurfaceInputs_ this) in *.
  destruct (calculateCrownFireSpreadRate_run env this h callerInputs deepCopy
              Hne Hwf Hin Hcopy)
    as (this1 & Hrun1 & Hcaller1 & Hdc1 & Hwf1).
  fold dc scenario in Hrun1, Hdc1, Hwf1.
  assert (Hin1 : <[dc := scenario]> h !! Crown.surfaceInputs_ this1 = Some callerInputs)
    by (rewrite Hcaller1, lookup_insert_ne by congruence; exact Hin).
  assert (Hcopy1 :
    <[dc := scenario]> h !! Crown.crownDeepCopyOfSurfaceInputs_ this1 = Some scenario)
    by (rewrite Hdc1; apply lookup_insert_eq).
  assert (Hne1 : Crown.surfaceInputs_ this1 <> Crown.crownDeepCopyOfSurfaceInputs_ this1)
    by congruence.
  assert (Hwf1' :
    Crown.spreadInputs_ (Crown.crownFireSpread_ this1)
    = Crown.crownDeepCopyOfSurfaceInputs_ this1) by congruence.
  destruct (calculateCrownFireSpreadRate_run env this1 (<[dc := scenario]> h) callerInputs
              scenario Hne1 Hwf1' Hin1 Hcopy1)
    as (this2 & Hrun2 & Hcaller2 & Hdc2 & Hwf2).
  rewrite Hdc1, insert_insert_eq in Hrun2.
  assert (Hsame :
    Crown.crownScenario scenario (0.4 * Crown.windSpeedAtTwentyFeet callerInputs) = scenario)
    by (subst scenario; destruct deepCopy; reflexivity).
  rewrite Hsame in Hrun2.
  eexists. exists this1. eexists. exists this2. cbv zeta.
  split; [exact Hrun1 |]. split; [exact Hrun2 |].
  unfold Crown.invariant. rewrite Hcaller2, Hdc2, Hwf2, Hcaller1, Hdc1.
  fold dc. rewrite lookup_insert_eq, lookup_insert_ne by congruence. rewrite Hin.
  repeat split; eauto.
Qed.

(** X19.  In [DirectMidflame] mode [calculateWindSpeedAtTwentyFeet] yields
    its error value -1, and the run does not stop at it: it stores -1 as
    twenty-foot wind speed, runs the spread model with a midflame wind speed
    of -0.4, and finds a power of the wind of 0 unless the returned spread
    rate is below -88 ft/min. *)
Theorem direct_midflame_error_value_is_used env this h
    (callerInputs deepCopy : SurfaceInputs) :
  Crown.surfaceInputs_ this <> Crown.crownDeepCopyOfSurfaceInputs_ this ->
  Crown.spreadInputs_ (Crown.crownFireSpread_ this) = Crown.crownDeepCopyOfSurfaceInputs_ this ->
  h !! Crown.surfaceInputs_ this = Some callerInputs ->
  h !! Crown.crownDeepCopyOfSurfaceInputs_ this = Some deepCopy ->
  windHeightInputMode_ callerInputs = DirectMidflame ->
  let scenario := Crown.crownScenario deepCopy (0.4 * -1) in
  exists rate this' h',
    Crown.calculateCrownFireSpreadRate env this h = Some (rate, this', h')
    /\ rate
       = 3.34 * fst (SurfaceFireSpread_calculateForwardSpreadRate (Crown.fuelModelSet env)
                       scenario (Crown.spreadState_ (Crown.crownFireSpread_ this)))
    /\ h' !! Crown.crownDeepCopyOfSurfaceInputs_ this = Some scenario
    /\ windSpeed_ scenario = -0.4
    /\ Crown.windSpeedAtTwentyFeet_ this' = -1
    /\ (-88 <= rate -> Crown.crownPowerOfWind_ this' = 0).
Proof.
  intros Hne Hwf Hin Hcopy Hmode scenario.
  destruct (calculateCrownFireSpreadRate_state env this h callerInputs deepCopy
              Hne Hwf Hin Hcopy)
    as (this' & Hrun & _ & _ & _ & Hwind & _ & _ & _ & _ & _ & _ & _ & _ & _ & _ & _
        & Hpower & _).
  assert (Herror : Crown.windSpeedAtTwentyFeet callerInputs = -1)
    by (unfold Crown.windSpeedAtTwentyFeet; rewrite Hmode; reflexivity).
  rewrite Herror in Hrun, Hwind, Hpower. fold scenario in Hrun, Hpower.
  eexists. exists this'. eexists. split; [exact Hrun |].
  split; [reflexivity |]. split; [apply lookup_insert_eq |].
  split; [subst scenario; unfold Crown.crownScenario; inputs_fields; lra |].
  split; [exact Hwind |].
  intros Hrate. rewrite Hpower.
  match goal with
  | |- context [Rlt_dec ?excess 1e-7] => destruct (Rlt_dec excess 1e-7) as [_ | Hexcess]
  end; lra.
Qed.

(** *** The power of the wind and the power ratio *)

(** [calcuateCrownPowerOfWind], run in a store that holds the caller's
    inputs. *)
Lemma calcuateCrownPowerOfWind_run env this h (callerInputs : SurfaceInputs) :
  h !! Crown.surfaceInputs_ this = Some callerInputs ->
  let wind := Crown.windSpeedAtTwentyFeet callerInputs in
  let excess := (wind * (5280 / 60) - Crown.crownFireSpreadRate_ this) / 60 in
  let excess' := if Rlt_dec excess 1e-7 then 0 else excess in
  Crown.calcuateCrownPowerOfWind env this h
  = Some (tt,
          Crown.with_crownPowerOfWind_ (0.00106 * (excess' * excess' * excess'))
            (Crown.with_windSpeedAtTwentyFeet_ wind
               (Crown.with_windSpeedAtTwentyFeet_ wind this)),
          h).
Proof.
  intros Hin wind excess excess'.
  unfold Crown.calcuateCrownPowerOfWind.
  erewrite bind_run by (apply calculateWindSpeedAtTwentyFeet_run; exact Hin).
  repeat crown_step. reflexivity.
Qed.

(** X20.  The power of the wind is never negative.  With [d] the twenty-foot
    wind speed in ft/s (mi/h times 5280/60, over 60) less the crown spread
    rate in ft/s, it is [0.00106 * d^3] when [d] is at least 1e-7 and 0
    otherwise: a fire that keeps pace with the wind has no power of the
    wind. *)
Theorem power_of_wind_nonnegative env this h (callerInputs : SurfaceInputs) :
  h !! Crown.surfaceInputs_ this = Some callerInputs ->
  let d :=
    (Crown.windSpeedAtTwentyFeet callerInputs * (5280 / 60) - Crown.crownFireSpreadRate_ this)
    / 60 in
  exists this',
    Crown.calcuateCrownPowerOfWind env this h = Some (tt, this', h)
    /\ 0 <= Crown.crownPowerOfWind_ this'
    /\ (d < 1e-7 -> Crown.crownPowerOfWind_ this' = 0)
    /\ (1e-7 <= d -> Crown.crownPowerOfWind_ this' = 0.00106 * (d * d * d)).
Proof.
  intros Hin d. eexists. split; [apply calcuateCrownPowerOfWind_run; exact Hin |].
  crown_fields. fold d.
  destruct (Rlt_dec d 1e-7) as [Hlow | Hhigh].
  - split; [lra |]. split; intros; lra.
  - assert (Hcube : 0 <= d * d * d)
      by (apply Rmult_le_pos; [apply Rmult_le_pos |]; lra).
    split; [lra |]. split; intros; [lra | reflexivity].
Qed.

(** X21.  The power ratio, taken right after the power of the wind: it is
    the power of the fire over the power of the wind when the latter exceeds
    1e-7, and 0 otherwise; in particular it is 0 whenever the wind, in ft/s,
    exceeds the crown spread rate by less than 1e-7.  No quotient is taken
    with a divisor of 1e-7 or less. *)
Theorem power_ratio_after_power_of_wind env this h (callerInputs : SurfaceInputs) :
  h !! Crown.surfaceInputs_ this = Some callerInputs ->
  let d :=
    (Crown.windSpeedAtTwentyFeet callerInputs * (5280 / 60) - Crown.crownFireSpreadRate_ this)
    / 60 in
  exists this1 ratio this2,
    Crown.calcuateCrownPowerOfWind env this h = Some (tt, this1, h)
    /\ Crown.calcualteCrownFirePowerRatio env this1 h = Some (ratio, this2, h)
    /\ Crown.crownFirePowerRatio_ this2 = ratio
    /\ (Crown.crownPowerOfWind_ this1 <= 1e-7 -> ratio = 0)
    /\ (1e-7 < Crown.crownPowerOfWind_ this1 ->
        ratio = Crown.crownPowerOfFire_ this / Crown.crownPowerOfWind_ this1)
    /\ (d < 1e-7 -> ratio = 0).
Proof.
  intros Hin d. eexists. eexists. eexists.
  split; [apply calcuateCrownPowerOfWind_run; exact Hin |].
  split; [unfold Crown.calcualteCrownFirePowerRatio; repeat crown_step; reflexivity |].
  crown_fields. fold d.
  split; [reflexivity |].
  destruct (Rgt_dec _ 1e-7) as [Hwind | Hcalm].
  - split; [intros; lra |]. split; [reflexivity |].
    intros Hlow. destruct (Rlt_dec d 1e-7); lra.
  - split; [reflexivity |]. split; [intros; lra | reflexivity].
Qed.

(** *** The critical values *)

(** [calculateCrownCriticalSurfaceFireIntensity], run. *)
Lemma calculateCrownCriticalSurfaceFireIntensity_run env this h :
  let m' := Rmax (foliarMoisture_ (Crown.crownInputs env)) 30 in
  let h' := Rmax (canopyBaseHeight_ (Crown.crownInputs env) * 0.3048) 0.1 in
  let value := Rpower (0.01 * h' * (450 + 25.9 * m')) 1.5 * 0.288672 in
  Crown.calculateCrownCriticalSurfaceFireIntensity env this h
  = Some (value, Crown.with_crownCriticalSurfaceFireIntensity_ value this, h).
Proof.
  intros m' h' value.
  assert (Hm : 30 <= m') by apply Rmax_r.
  assert (Hh : 0.1 <= h') by apply Rmax_r.
  assert (Hbase : 0 < 0.01 * h' * (450 + 25.9 * m')) by nra.
  unfold Crown.calculateCrownCriticalSurfaceFireIntensity,
    CrownInputs_getFoliarMoisture, CrownInputs_getCanopyBaseHeight.
  repeat crown_step.
  replace (if Rlt_dec (foliarMoisture_ (Crown.crownInputs env)) 30
           then 30 else foliarMoisture_ (Crown.crownInputs env)) with m'
    by (subst m'; unfold Rmax; destruct (Rlt_dec _ 30), (Rle_dec _ 30); lra).
  replace (if Rlt_dec (canopyBaseHeight_ (Crown.crownInputs env) * 0.3048) 0.1
           then 0.1 else canopyBaseHeight_ (Crown.crownInputs env) * 0.3048) with h'
    by (subst h'; unfold Rmax; destruct (Rlt_dec _ 0.1), (Rle_dec _ 0.1); lra).
  rewrite pow_positive_base by exact Hbase.
  reflexivity.
Qed.

(** X22.  The critical surface fire intensity is at least 0.288672 Btu/ft/s
    (1 kW/m), whatever the crown inputs.  So the transition ratio taken
    after it is always the surface fireline intensity divided by it: the
    guard against a critical intensity below 1e-7 is never taken then. *)
Theorem transition_ratio_after_critical_intensity env this h :
  exists critical this1 ratio,
    Crown.calculateCrownCriticalSurfaceFireIntensity env this h = Some (critical, this1, h)
    /\ Crown.calculateCrownFireTransitionRatio env this1 h = Some (ratio, this1, h)
    /\ 0.288672 <= critical
    /\ ratio = Crown.crownCopyOfSurfaceFirelineIntensity_ this / critical.
Proof.
  pose proof (calculateCrownCriticalSurfaceFireIntensity_run env this h) as Hrun.
  cbv zeta in Hrun.
  assert (Hpower :
    1 <= Rpower (0.01 * Rmax (canopyBaseHeight_ (Crown.crownInputs env) * 0.3048) 0.1
                 * (450 + 25.9 * Rmax (foliarMoisture_ (Crown.crownInputs env)) 30)) 1.5).
  { pose proof (Rmax_r (foliarMoisture_ (Crown.crownInputs env)) 30) as Hm.
    pose proof (Rmax_r (canopyBaseHeight_ (Crown.crownInputs env) * 0.3048) 0.1) as Hh.
    replace 1 with (Rpower 1 1.5) at 1
      by (unfold Rpower; rewrite ln_1, Rmult_0_r; apply exp_0).
    apply Rle_Rpower_l; [lra |]. split; nra. }
  eexists. eexists. eexists. split; [exact Hrun |].
  unfold Crown.calculateCrownFireTransitionRatio. repeat crown_step.
  destruct (Rlt_dec _ 1e-7) as [Hguard | _]; [exfalso; lra |].
  split; [reflexivity |]. split; [lra | reflexivity].
Qed.

(** X23.  The critical surface fire intensity does not decrease when the
    canopy base height or the foliar moisture increases. *)
Theorem critical_surface_fire_intensity_monotone env1 env2 this h :
  canopyBaseHeight_ (Crown.crownInputs env1) <= canopyBaseHeight_ (Crown.crownInputs env2) ->
  foliarMoisture_ (Crown.crownInputs env1) <= foliarMoisture_ (Crown.crownInputs env2) ->
  exists critical1 this1 critical2 this2,
    Crown.calculateCrownCriticalSurfaceFireIntensity env1 this h
    = Some (critical1, this1, h)
    /\ Crown.calculateCrownCriticalSurfaceFireIntensity env2 this h
       = Some (critical2, this2, h)
    /\ critical1 <= critical2.
Proof.
  intros Hheight Hmoisture.
  pose proof (calculateCrownCriticalSurfaceFireIntensity_run env1 this h) as Hrun1.
  pose proof (calculateCrownCriticalSurfaceFireIntensity_run env2 this h) as Hrun2.
  cbv zeta in Hrun1, Hrun2.
  eexists. eexists. eexists. eexists.
  split; [exact Hrun1 |]. split; [exact Hrun2 |].
  set (m1 := Rmax (foliarMoisture_ (Crown.crownInputs env1)) 30).
  set (m2 := Rmax (foliarMoisture_ (Crown.crownInputs env2)) 30).
  set (h1 := Rmax (canopyBaseHeight_ (Crown.crownInputs env1) * 0.3048) 0.1).
  set (h2 := Rmax (canopyBaseHeight_ (Crown.crownInputs env2) * 0.3048) 0.1).
  assert (Hm1 : 30 <= m1) by apply Rmax_r.
  assert (Hh1 : 0.1 <= h1) by apply Rmax_r.
  assert (Hm : m1 <= m2) by (apply Rle_max_compat_r; exact Hmoisture).
  assert (Hh : h1 <= h2) by (apply Rle_max_compat_r; lra).
  apply Rmult_le_compat_r; [lra |].
  apply Rle_Rpower_l; [lra |]. split; nra.
Qed.

(** X24.  The critical crown fire spread rate lies between 0 and
    3 / 1e-7 * 3.28084 = 98425200 ft/min, whatever the canopy bulk density:
    the guard on the converted density bounds the quotient. *)
Theorem critical_spread_rate_bounded env this h :
  exists critical this',
    Crown.calculateCrownCriticalFireSpreadRate env this h = Some (critical, this', h)
    /\ 0 <= critical <= 98425200.
Proof.
  destruct (critical_rate_then_active_ratio_run env this h) as [Hcritical _].
  eexists. eexists. split; [exact Hcritical |].
  set (converted := 16.0185 * canopyBulkDensity_ (Crown.crownInputs env)).
  destruct (Rlt_dec converted 1e-7) as [Hlow | Hhigh]; [lra |].
  assert (Hpositive : 0 < converted) by lra.
  assert (Hquotient : 0 < 3 / converted <= 3 / 1e-7).
  { split; [apply Rdiv_lt_0_compat; lra |].
    apply Rmult_le_reg_r with converted; [exact Hpositive |].
    unfold Rdiv at 1. rewrite Rmult_assoc, Rinv_l by lra. lra. }
  lra.
Qed.

End CrownOutputs.

(** * Concrete runs

    The theorems above at explicit inputs, over the example instances of the
    interfaces, and the inputs at which two statements of the specification
    fail as they are worded. *)

Section ConcreteRuns.

#[local] Existing Instance exampleUnits.
#[local] Existing Instance exampleScenarios.
#[local] Existing Instance exampleCatalogue.
#[local] Existing Instance exampleRothermel.
#[local] Existing Instance exampleSpread.

(** C3 at an intensity of 100 Btu/ft/s, in and out in base units. *)
Lemma flame_length_witness :
  Surface.calculateFlameLength (units := exampleUnits) 100 BtusPerFootPerSecond Feet
  = 0.45 * Rpower 100 0.46.
Proof.
  destruct (flame_length_law (units := exampleUnits) BtusPerFootPerSecond Feet
              (fun x => eq_refl) (fun x => eq_refl)) as (_ & Hlaw & _).
  apply Hlaw. lra.
Defined.

(** C4 on the empty fuel model, no special fuel mode, in both directions. *)
Lemma zero_load_short_circuit_witness :
  fst (Surface.doSurfaceRunInDirectionOfMaxSpread emptyFuelSurface)
  = SkipCalculationForZeroLoad
  /\ Surface.outputsAreZero (snd (Surface.doSurfaceRunInDirectionOfMaxSpread emptyFuelSurface))
  /\ fst (Surface.doSurfaceRunInDirectionOfInterest 90 FromIgnitionPoint emptyFuelSurface)
     = SkipCalculationForZeroLoad.
Proof.
  destruct (zero_load_short_circuit emptyFuelSurface 90 FromIgnitionPoint
              eq_refl (or_introl eq_refl)) as [Hmax Hinterest].
  destruct (Hmax eq_refl eq_refl eq_refl) as (Hcall & _ & Hzero).
  destruct Hinterest as (Hcall' & _).
  split; [exact Hcall | split; [exact Hzero | exact Hcall']].
Defined.

(** C4 as worded fails.  Fuel model 0 has zero load in every size class and
    is undefined, yet the run in the direction of maximum spread invokes the
    Rothermel formulas when chaparral is on, and the two-fuel-models branch
    of either run hands over to the weighted calculation. *)
Lemma zero_load_rule_counterexample :
  Surface.isAllFuelLoadZero (fuelModelNumber_ (Surface.surfaceInputs_ chaparralSurface))
    chaparralSurface = true
  /\ Surface.isFuelModelDefined (fuelModelNumber_ (Surface.surfaceInputs_ chaparralSurface))
       chaparralSurface = false
  /\ fst (Surface.doSurfaceRunInDirectionOfMaxSpread chaparralSurface)
     = CalculateForwardSpreadRate 0 false 0 FromIgnitionPoint
  /\ invokesRothermel (fst (Surface.doSurfaceRunInDirectionOfMaxSpread chaparralSurface))
     = true
  /\ Surface.isAllFuelLoadZero
       (fuelModelNumber_ (Surface.surfaceInputs_ twoFuelModelsSurface))
       twoFuelModelsSurface = true
  /\ invokesRothermel
       (fst (Surface.doSurfaceRunInDirectionOfInterest 90 FromIgnitionPoint
               twoFuelModelsSurface)) = true.
Proof. repeat split. Qed.

(** C9 on the example inputs: a twenty-foot wind of 5 mi/h, 440 ft/min. *)
Lemma wind_speed_at_twenty_feet_witness :
  exists this',
    Crown.calculateWindSpeedAtTwentyFeet exampleEnv builtCrown builtStore
    = Some (5 * (5280 / 60), this', builtStore).
Proof.
  assert (Hin : builtStore !! Crown.surfaceInputs_ builtCrown = Some exampleInputs)
    by reflexivity.
  destruct (wind_speed_at_twenty_feet_by_mode exampleEnv builtCrown builtStore
              exampleInputs Hin) as (speed & this' & Hrun & _ & Htwenty & _).
  exists this'. rewrite Hrun, (Htwenty eq_refl). reflexivity.
Defined.


(** C10 on the constructed example: the caller's object at address 1 is as
    before, the deep copy at address 2 carries the overrides. *)
Lemma crown_run_frame_witness :
  exists rate this' h',
    Crown.calculateCrownFireSpreadRate exampleEnv builtCrown builtStore
    = Some (rate, this', h')
    /\ h' !! 1%positive = Some exampleInputs
    /\ (fuelModelNumber_ <$> h' !! 2%positive) = Some 10%Z
    /\ (fuelModelNumber_ <$> h' !! 1%positive) = Some 4%Z.
Proof.
  assert (Hinv : Crown.invariant builtCrown builtStore).
  { unfold Crown.invariant. repeat split; try (vm_compute; discriminate);
      exists exampleInputs; reflexivity. }
  destruct (crown_run_leaves_caller_inputs_unchanged exampleEnv builtCrown builtStore)
    as [_ Hreturns].
  destruct (Hreturns exampleInputs exampleInputs Hinv eq_refl eq_refl)
    as (rate & this' & h' & Hrun & Hcaller & Hcopy & _).
  exists rate, this', h'. split; [exact Hrun |].
  split; [exact Hcaller |].
  change (h' !! 1%positive = Some exampleInputs) in Hcaller.
  change (Crown.crownDeepCopyOfSurfaceInputs_ builtCrown) with 2%positive in Hcopy.
  rewrite Hcaller, Hcopy. split; reflexivity.
Defined.

(** C6 as worded fails.  A canopy bulk density of 1e8 lb/ft3 converts to
    more than 1e-7 kg/m3, so the claim's "otherwise" case applies; but the
    critical rate, 3 / 1.60185e9 * 3.28084, is itself below 1e-7, and the
    active ratio is 0, not the crown spread rate (here 1) divided by the
    critical rate. *)
Lemma active_ratio_counterexample :
  let env :=
    {| Crown.fuelModelSet := tt;
       Crown.crownInputs :=
         {| canopyBaseHeight_ := 10; canopyBulkDensity_ := 1e8; foliarMoisture_ := 100 |};
       Crown.surface := emptyFuelSurface |} in
  exists critical ratio this1 this2,
    Crown.calculateCrownCriticalFireSpreadRate env builtCrown builtStore
    = Some (critical, this1, builtStore)
    /\ Crown.calculateCrownFireActiveRatio env this1 builtStore
       = Some (ratio, this2, builtStore)
    /\ 1e-7 <= 16.0185 * canopyBulkDensity_ (Crown.crownInputs env)
    /\ Crown.crownFireSpreadRate_ builtCrown = 1
    /\ ratio = 0
    /\ ratio <> Crown.crownFireSpreadRate_ builtCrown / critical.
Proof.
  intros env.
  destruct (critical_rate_then_active_ratio_run env builtCrown builtStore)
    as [Hcritical Hratio].
  change (Crown.crownFireSpreadRate_ builtCrown) with 1 in *.
  change (canopyBulkDensity_ (Crown.crownInputs env)) with 1e8 in *.
  set (critical := (if Rlt_dec (16.0185 * 1e8) 1e-7 then 0 else 3 / (16.0185 * 1e8)) * 3.28084)
    in *.
  assert (Hpos : 0 < critical < 1e-7).
  { subst critical. destruct (Rlt_dec (16.0185 * 1e8) 1e-7) as [Habs | _]; [lra |].
    split.
    - apply Rmult_lt_0_compat; [| lra]. apply Rdiv_lt_0_compat; lra.
    - apply Rmult_lt_reg_r with (16.0185 * 1e8); [lra |].
      field_simplify; lra. }
  destruct (Rlt_dec critical 1e-7) as [_ | Habs]; [| lra].
  eexists. eexists. eexists. eexists.
  split; [exact Hcritical |]. split; [exact Hratio |].
  split; [lra |]. split; [reflexivity |]. split; [reflexivity |].
  intros Habs.
  assert (Hone : 1 / critical * critical = 1) by (field; lra).
  rewrite <- Habs in Hone. lra.
Qed.

(** The constructor on the example objects. *)
Lemma constructor_witness :
  exists this' h' deepCopy,
    Crown.constructor 1%positive tt exampleEnv rawCrown callerStore = Some (tt, this', h')
    /\ Crown.invariant this' h'
    /\ h' !! 1%positive = Some exampleInputs
    /\ h' !! 2%positive = Some deepCopy
    /\ fuelModelNumber_ deepCopy = 4%Z
    /\ windSpeed_ deepCopy = 5 * (5280 / 60).
Proof.
  assert (Hne : 1%positive <> Crown.crownDeepCopyOfSurfaceInputs_ rawCrown)
    by (vm_compute; discriminate).
  assert (Hp : callerStore !! 1%positive = Some exampleInputs) by reflexivity.
  destruct (constructor_establishes_invariant exampleEnv rawCrown callerStore 1%positive tt
              exampleInputs Hne Hp)
    as (this' & h' & deepCopy & Hctor & Hinv & _ & _ & Hcaller & Hcopy & _ & Hsame).
  exists this', h', deepCopy.
  split; [exact Hctor |]. split; [exact Hinv |]. split; [exact Hcaller |].
  split; [exact Hcopy |].
  destruct Hsame as (Hnumber & _ & _ & _ & _ & _ & Hwind & _).
  split; [rewrite Hnumber | rewrite Hwind]; reflexivity.
Defined.

(** [updateSurfaceInputs] on a wind direction of two turns and five degrees. *)
Lemma updateSurfaceInputs_normalizes_witness :
  0 <= windDirection_
         (SurfaceInputs.updateSurfaceInputs 4 0.06 0.07 0.08 0.60 0.90 Fraction
            5 MilesPerHour TwentyFoot 725 RelativeToUpslope 0 tt 0
            0.5 Fraction 30 Feet 0.5 SurfaceInputs.initializeMembers) < 360.
Proof.
  apply (updateSurfaceInputs_normalizes_from_minus_360 (units := exampleUnits)). lra.
Defined.

End ConcreteRuns.

(** ** The further properties on the example objects *)

Section FurtherConcreteRuns.

#[local] Existing Instance exampleUnits.
#[local] Existing Instance exampleScenarios.
#[local] Existing Instance exampleCatalogue.
#[local] Existing Instance exampleRothermel.
#[local] Existing Instance exampleSpread.
#[local] Existing Instance exampleGetterUnits.
#[local] Existing Instance exampleDirectory.

(** X7 on the example inputs: the table has no scenario at index 7. *)
Lemma setMoistureScenarioByIndex_undefined_witness :
  let result := SurfaceInputs.setMoistureScenarioByIndex 7 exampleInputs in
  fst result = false
  /\ SurfaceInputs.getCurrentMoistureScenarioIndex (snd result) = (-1)%Z
  /\ moistureValuesBySizeClass_ (snd result) = moistureValuesBySizeClass_ exampleInputs.
Proof.
  assert (Hundefined : getIsMoistureScenarioDefinedByIndex 7 = false) by reflexivity.
  destruct (setMoistureScenarioByIndex_undefined 7 exampleInputs Hundefined)
    as (Hflag & Hindex & Harray & _).
  split; [exact Hflag |]. split; [exact Hindex | exact Harray].
Defined.

(** X8 in scenario mode: scenario 1 of the example table has a one-hour
    moisture of 0.06, reported as 6 percent. *)
Lemma setMoistureScenarioByIndex_defined_witness :
  let result := SurfaceInputs.setMoistureScenarioByIndex 1 scenarioInputs in
  fst result = true
  /\ SurfaceInputs.getCurrentMoistureScenarioIndex (snd result) = 1%Z
  /\ SurfaceInputs.getMoistureOfClass (units := exampleUnits) OneHour Percent (snd result)
     = 0.06 * 100.
Proof.
  assert (Hdefined : getIsMoistureScenarioDefinedByIndex 1 = true) by reflexivity.
  assert (Hmode : moistureInputMode_ scenarioInputs = MoistureScenario) by reflexivity.
  destruct (setMoistureScenarioByIndex_defined (units := exampleUnits) 1 Percent
              scenarioInputs Hdefined Hmode)
    as (Hflag & Hindex & HoneHour & _).
  split; [exact Hflag |]. split; [exact Hindex | exact HoneHour].
Defined.

(** X17 on the constructed example: a canopy 30 ft high over a base at
    0.05 ft, with a bulk density of 0.03 lb/ft3. *)
Lemma crown_run_outputs_witness :
  exists rate this' h',
    Crown.calculateCrownFireSpreadRate exampleEnv builtCrown builtStore
    = Some (rate, this', h')
    /\ Crown.crownFuelLoad_ this' = 0.03 * (30 - 0.05)
    /\ Crown.canopyHeatPerUnitArea_ this' = 0.03 * (30 - 0.05) * 8000.
Proof.
  assert (Hne : Crown.surfaceInputs_ builtCrown <> Crown.crownDeepCopyOfSurfaceInputs_ builtCrown)
    by (vm_compute; discriminate).
  destruct (crown_run_outputs exampleEnv builtCrown builtStore exampleInputs exampleInputs
              Hne eq_refl eq_refl eq_refl)
    as (rate & this' & h' & Hrun & _ & Hload & Hcanopy & _).
  exists rate, this', h'. split; [exact Hrun |]. split; [exact Hload | exact Hcanopy].
Defined.

(** X18 on the constructed example. *)
Lemma crown_run_repeatable_witness :
  exists rate1 this1 h1 rate2 this2,
    Crown.calculateCrownFireSpreadRate exampleEnv builtCrown builtStore
    = Some (rate1, this1, h1)
    /\ Crown.calculateCrownFireSpreadRate exampleEnv this1 h1 = Some (rate2, this2, h1).
Proof.
  assert (Hne : Crown.surfaceInputs_ builtCrown <> Crown.crownDeepCopyOfSurfaceInputs_ builtCrown)
    by (vm_compute; discriminate).
  destruct (crown_run_repeatable exampleEnv builtCrown builtStore exampleInputs exampleInputs
              Hne eq_refl eq_refl eq_refl)
    as (rate1 & this1 & rate2 & this2 & Hrun1 & Hrun2 & _).
  exists rate1, this1. eexists. exists rate2, this2.
  split; [exact Hrun1 | exact Hrun2].
Defined.

(** X19 on the constructed example, the caller's inputs reset to the
    defaults: the example spread model returns the midflame wind speed it is
    given, -0.4. *)
Lemma direct_midflame_error_value_witness :
  exists this' h',
    Crown.calculateCrownFireSpreadRate exampleEnv builtCrown midflameStore
    = Some (3.34 * (0.4 * -1), this', h')
    /\ Crown.windSpeedAtTwentyFeet_ this' = -1
    /\ Crown.crownPowerOfWind_ this' = 0.
Proof.
  assert (Hne : Crown.surfaceInputs_ builtCrown <> Crown.crownDeepCopyOfSurfaceInputs_ builtCrown)
    by (vm_compute; discriminate).
  destruct (direct_midflame_error_value_is_used exampleEnv builtCrown midflameStore
              SurfaceInputs.initializeMembers exampleInputs Hne eq_refl eq_refl eq_refl
              eq_refl)
    as (rate & this' & h' & Hrun & Hrate & _ & _ & Hwind & Hpower).
  exists this', h'.
  assert (Hvalue : rate = 3.34 * (0.4 * -1)) by exact Hrate.
  rewrite <- Hvalue. split; [exact Hrun |]. split; [exact Hwind |].
  apply Hpower. lra.
Defined.

(** X20 on the constructed example: a wind of 440 ft/min over a crown spread
    rate of 1 ft/min. *)
Lemma power_of_wind_witness :
  exists this',
    Crown.calcuateCrownPowerOfWind exampleEnv builtCrown builtStore
    = Some (tt, this', builtStore)
    /\ 0 <= Crown.crownPowerOfWind_ this'.
Proof.
  destruct (power_of_wind_nonnegative exampleEnv builtCrown builtStore exampleInputs eq_refl)
    as (this' & Hrun & Hnonneg & _).
  exists this'. split; [exact Hrun | exact Hnonneg].
Defined.

(** X21 on the constructed example. *)
Lemma power_ratio_witness :
  exists this1 ratio this2,
    Crown.calcuateCrownPowerOfWind exampleEnv builtCrown builtStore
    = Some (tt, this1, builtStore)
    /\ Crown.calcualteCrownFirePowerRatio exampleEnv this1 builtStore
       = Some (ratio, this2, builtStore)
    /\ Crown.crownFirePowerRatio_ this2 = ratio.
Proof.
  destruct (power_ratio_after_power_of_wind exampleEnv builtCrown builtStore exampleInputs
              eq_refl)
    as (this1 & ratio & this2 & Hwind & Hratio & Hstored & _).
  exists this1, ratio, this2. split; [exact Hwind |]. split; [exact Hratio | exact Hstored].
Defined.

(** X23 on two environments: a crown base at 0.05 ft with a foliar moisture
    of 20, against one at 10 ft with a foliar moisture of 100. *)
Lemma critical_surface_fire_intensity_monotone_witness :
  exists critical1 this1 critical2 this2,
    Crown.calculateCrownCriticalSurfaceFireIntensity exampleEnv builtCrown builtStore
    = Some (critical1, this1, builtStore)
    /\ Crown.calculateCrownCriticalSurfaceFireIntensity tallCanopyEnv builtCrown builtStore
       = Some (critical2, this2, builtStore)
    /\ critical1 <= critical2.
Proof.
  apply (critical_surface_fire_intensity_monotone exampleEnv tallCanopyEnv builtCrown
           builtStore);
    unfold exampleEnv, tallCanopyEnv, exampleCrownInputs;
    cbn [Crown.crownInputs canopyBaseHeight_ foliarMoisture_]; lra.
Defined.

End FurtherConcreteRuns.

(** ** The stale copy *)

Section StaleCopy.

#[local] Existing Instance exampleUnits.
#[local] Existing Instance exampleScenarios.
#[local] Existing Instance exampleCatalogue.
#[local] Existing Instance moistureSpread.


End StaleCopy.
